(** * KWS-backend: renting and reclaiming servers and containers

    A shallow embedding of the request handlers of the KWS backend
    ([backend/server_router.py], [backend/container_router.py],
    [backend/db_router.py]), of the expiry sweep ([util/scheduler.py]) and of
    the controller's [delete_server] ([OpenStack/openstack_controller.py]),
    with the properties their specification states about them.

    The handlers talk to two outside parties: the database, through a
    SQLAlchemy session, and the cloud, through the controller.  The session
    is modelled by two copies of the tables (what is committed, and what the
    open transaction sees); every call that leaves the process is an [event]
    that is appended to a trace and answered by an [environment], which may
    answer with a value or with an exception and may look at the history. *)

From Stdlib Require Import ZArith List String Ascii Bool Lia.
Import ListNotations.
Open Scope string_scope.
Open Scope Z_scope.

(** ** Dates ([datetime.date]) *)

Record date := mkDate { year : Z; month : Z; day : Z }.

(** [date.__lt__]: dates compare as the triples (year, month, day). *)
Definition date_ltb (a b : date) : bool :=
  (year a <? year b)
  || ((year a =? year b)
      && ((month a <? month b)
          || ((month a =? month b) && (day a <? day b)))).

(** ** The tables ([model/db_models.py]) *)

Module Server.
Record t := mk {
  id : Z;
  user_name : string;
  server_name : string;
  start_date : date;
  end_date : date;
  floating_ip : string;
  network_name : string;
  node_name : string;
  flavor_name : string;
  image_name : string
}.

(** [server.end_date = d]: the one attribute assignment in the routers. *)
Definition set_end_date (d : date) (s : t) : t :=
  mk (id s) (user_name s) (server_name s) (start_date s) d (floating_ip s)
     (network_name s) (node_name s) (flavor_name s) (image_name s).
End Server.

Module Container.
(** Modelled from the spec: the [Container] table is imported from
    [model.db_models] but its declaration is not in the sources at hand;
    the columns are those the constructor call of
    [container_router.rental] fills, with the integer key the other tables
    have.  It is the RentalRecord of a container, [password] being the
    credential hash. *)
Record t := mk {
  id : Z;
  user_name : string;
  container_name : string;
  start_date : date;
  end_date : date;
  image_name : string;
  password : string;
  ip : string;
  port : string;
  network_name : string;
  node_name : string
}.
End Container.

Module Flavor.
(** Modelled from the spec: the [Flavor] table (declaration missing); an
    InfrastructureRecord with the attributes to recreate the compute
    profile and the flag of a system default, keyed by its logical name. *)
Record t := mk {
  name : string;
  vcpu : Z;
  ram : Z;
  disk : Z;
  is_default : bool
}.
End Flavor.

Module NodeFlavor.
(** Modelled from the spec: the [NodeFlavor] table (declaration missing);
    the NodeInfrastructureLink of a flavor. *)
Record t := mk { node_name : string; flavor_name : string }.
End NodeFlavor.

Module Network.
(** Modelled from the spec: the [Network] table (declaration missing); an
    InfrastructureRecord with its CIDR and the flag of a system default,
    keyed by its logical name. *)
Record t := mk {
  name : string;
  cidr : string;
  is_default : bool
}.
End Network.

Module NodeNetwork.
(** Modelled from the spec: the [NodeNetwork] table (declaration missing);
    the NodeInfrastructureLink of a network. *)
Record t := mk { node_name : string; network_name : string }.
End NodeNetwork.

(** The stored state: one list of rows per table, in insertion order. *)
Record db := mkDb {
  servers : list Server.t;
  containers : list Container.t;
  flavors : list Flavor.t;
  node_flavors : list NodeFlavor.t;
  networks : list Network.t;
  node_networks : list NodeNetwork.t
}.

Definition empty_db : db := mkDb [] [] [] [] [] [].

Definition with_servers (f : list Server.t -> list Server.t) (d : db) : db :=
  mkDb (f (servers d)) (containers d) (flavors d) (node_flavors d)
       (networks d) (node_networks d).
Definition with_containers (f : list Container.t -> list Container.t) (d : db) : db :=
  mkDb (servers d) (f (containers d)) (flavors d) (node_flavors d)
       (networks d) (node_networks d).
Definition with_flavors (f : list Flavor.t -> list Flavor.t) (d : db) : db :=
  mkDb (servers d) (containers d) (f (flavors d)) (node_flavors d)
       (networks d) (node_networks d).
Definition with_networks (f : list Network.t -> list Network.t) (d : db) : db :=
  mkDb (servers d) (containers d) (flavors d) (node_flavors d)
       (f (networks d)) (node_networks d).
Definition with_node_networks (f : list NodeNetwork.t -> list NodeNetwork.t) (d : db) : db :=
  mkDb (servers d) (containers d) (flavors d) (node_flavors d)
       (networks d) (f (node_networks d)).

(** The key an autoincrement column gives the next inserted row. *)
Definition next_id (ids : list Z) : Z := 1 + fold_right Z.max 0 ids.

(** ** Configuration ([config.config]) *)

(** Modelled from the spec: [openstack_config] and [node_config] are imported
    from [config.config], which is not in the sources at hand; the record has
    the entries the routers read. *)
Record config := mkConfig {
  external_network : string;
  default_internal_network : string;
  default_flavors : list string;
  nodes : list string
}.

(** ** Exceptions *)

Inductive exn :=
| NoResultFound            (* sqlalchemy: [.one()] on no row *)
| MultipleResultsFound     (* sqlalchemy: [.one()], [.one_or_none()] on several rows *)
| AttributeError           (* an attribute of [None] *)
| UnboundLocalError        (* a local variable read before its assignment *)
| IndexError
| ValueError
| ProviderError (what : string)   (* raised by a call to the cloud *)
| DatabaseError (what : string).  (* raised by the database on commit *)

(** ** [hashlib.sha256]

    The routers hash a password with [hashlib.sha256()], [update] on its
    UTF-8 bytes and [hexdigest()].  A [string] of the model is the byte
    string, so a password is its UTF-8 encoding.  The function is SHA-256 of
    FIPS 180-4 on 32-bit words kept in [Z]. *)

Module Hashlib.

Definition w32 (x : Z) : Z := x mod 2 ^ 32.
Definition add32 (x y : Z) : Z := w32 (x + y).
Definition rotr (n x : Z) : Z :=
  w32 (Z.lor (Z.shiftr x n) (Z.shiftl x (32 - n))).
Definition not32 (x : Z) : Z := 2 ^ 32 - 1 - x.

Definition Ch (x y z : Z) : Z := Z.lxor (Z.land x y) (Z.land (not32 x) z).
Definition Maj (x y z : Z) : Z :=
  Z.lxor (Z.lxor (Z.land x y) (Z.land x z)) (Z.land y z).
Definition Sigma0 (x : Z) : Z := Z.lxor (Z.lxor (rotr 2 x) (rotr 13 x)) (rotr 22 x).
Definition Sigma1 (x : Z) : Z := Z.lxor (Z.lxor (rotr 6 x) (rotr 11 x)) (rotr 25 x).
Definition sigma0 (x : Z) : Z := Z.lxor (Z.lxor (rotr 7 x) (rotr 18 x)) (Z.shiftr x 3).
Definition sigma1 (x : Z) : Z := Z.lxor (Z.lxor (rotr 17 x) (rotr 19 x)) (Z.shiftr x 10).

Definition K : list Z :=
  [ 1116352408; 1899447441; 3049323471; 3921009573; 961987163; 1508970993;
    2453635748; 2870763221; 3624381080; 310598401; 607225278; 1426881987;
    1925078388; 2162078206; 2614888103; 3248222580; 3835390401; 4022224774;
    264347078; 604807628; 770255983; 1249150122; 1555081692; 1996064986;
    2554220882; 2821834349; 2952996808; 3210313671; 3336571891; 3584528711;
    113926993; 338241895; 666307205; 773529912; 1294757372; 1396182291;
    1695183700; 1986661051; 2177026350; 2456956037; 2730485921; 2820302411;
    3259730800; 3345764771; 3516065817; 3600352804; 4094571909; 275423344;
    430227734; 506948616; 659060556; 883997877; 958139571; 1322822218;
    1537002063; 1747873779; 1955562222; 2024104815; 2227730452; 2361852424;
    2428436474; 2756734187; 3204031479; 3329325298 ].

(** The eight working variables, and the initial hash value. *)
Record state := mkState { a : Z; b : Z; c : Z; d : Z; e : Z; f : Z; g : Z; h : Z }.

Definition H0 : state :=
  mkState 1779033703 3144134277 1013904242 2773480762
          1359893119 2600822924 528734635 1541459225.

(** Padding: the bit 1, zeros up to 56 modulo 64 bytes, the bit length on
    eight bytes, most significant first. *)
Definition bytes_of (s : string) : list Z :=
  map (fun ch => Z.of_nat (nat_of_ascii ch)) (list_ascii_of_string s).

Definition be_bytes (n : nat) (x : Z) : list Z :=
  map (fun i => Z.shiftr x (8 * Z.of_nat i) mod 256) (rev (seq 0 n)).

Definition pad (msg : list Z) : list Z :=
  let len := Z.of_nat (List.length msg) in
  let zeros := Z.to_nat ((55 - len) mod 64) in
  (msg ++ [128] ++ repeat 0 zeros ++ be_bytes 8 (8 * len))%list.

Fixpoint words (fuel : nat) (bs : list Z) : list Z :=
  match fuel, bs with
  | S fuel', b0 :: b1 :: b2 :: b3 :: rest =>
      (b0 * 2 ^ 24 + b1 * 2 ^ 16 + b2 * 2 ^ 8 + b3) :: words fuel' rest
  | _, _ => []
  end.

Fixpoint blocks (fuel : nat) (ws : list Z) : list (list Z) :=
  match fuel, ws with
  | _, [] => []
  | O, _ => []
  | S fuel', _ => firstn 16 ws :: blocks fuel' (skipn 16 ws)
  end.

(** The message schedule, most recent word first: from W(t-1) .. W(t-16)
    the next [n] words. *)
Fixpoint schedule (n : nat) (recent : list Z) : list Z :=
  match n with
  | O => recent
  | S n' =>
      let w i := nth i recent 0 in
      let next := add32 (add32 (sigma1 (w 1%nat)) (w 6%nat))
                        (add32 (sigma0 (w 14%nat)) (w 15%nat)) in
      schedule n' (next :: recent)
  end.

Definition round (s : state) (kw : Z * Z) : state :=
  let t1 := add32 (add32 (add32 (h s) (Sigma1 (e s))) (Ch (e s) (f s) (g s)))
                  (add32 (fst kw) (snd kw)) in
  let t2 := add32 (Sigma0 (a s)) (Maj (a s) (b s) (c s)) in
  mkState (add32 t1 t2) (a s) (b s) (c s) (add32 (d s) t1) (e s) (f s) (g s).

Definition compress (s : state) (block : list Z) : state :=
  let w := rev (schedule 48 (rev block)) in
  let s' := fold_left round (combine K w) s in
  mkState (add32 (a s) (a s')) (add32 (b s) (b s')) (add32 (c s) (c s'))
          (add32 (d s) (d s')) (add32 (e s) (e s')) (add32 (f s) (f s'))
          (add32 (g s) (g s')) (add32 (h s) (h s')).

Definition digest (msg : list Z) : state :=
  let bs := pad msg in
  let ws := words (List.length bs) bs in
  fold_left compress (blocks (List.length ws) ws) H0.

Definition hex_digit (x : Z) : ascii :=
  if x <? 10 then ascii_of_nat (Z.to_nat (48 + x))
  else ascii_of_nat (Z.to_nat (87 + x)).

Definition nibble (x i : Z) : ascii := hex_digit (Z.shiftr x (4 * i) mod 16).

Definition hex8 (x : Z) (tail : string) : string :=
  String (nibble x 7) (String (nibble x 6) (String (nibble x 5) (String (nibble x 4)
  (String (nibble x 3) (String (nibble x 2) (String (nibble x 1) (String (nibble x 0)
  tail))))))).

Definition hex_of_state (s : state) : string :=
  hex8 (a s) (hex8 (b s) (hex8 (c s) (hex8 (d s)
  (hex8 (e s) (hex8 (f s) (hex8 (g s) (hex8 (h s) ""))))))).

(** [h = hashlib.sha256(); h.update(s.encode('utf-8')); h.hexdigest()] *)
Definition sha256_hexdigest (s : string) : string :=
  hex_of_state (digest (bytes_of s)).

End Hashlib.

(** ** Requests and responses ([model/api_models.py]) *)

(** Modelled from the spec: the request and response classes are imported
    from [model.api_models], which is not in the sources at hand; each record
    has the attributes the routers read.  [network_name] may be [None]. *)
Record ServerCreateRequestDTO := mkServerCreateRequestDTO {
  sc_user_name : string;
  sc_server_name : string;
  sc_start_date : date;
  sc_end_date : date;
  sc_image_name : string;
  sc_flavor_name : string;
  sc_vcpus : Z;
  sc_ram : Z;
  sc_disk : Z;
  sc_network_name : option string;
  sc_subnet_cidr : string;
  sc_node_name : string
}.

Record ContainerCreateRequestDTO := mkContainerCreateRequestDTO {
  cc_user_name : string;
  cc_container_name : string;
  cc_start_date : date;
  cc_end_date : date;
  cc_image_name : string;
  cc_password : string;
  cc_network_name : option string;
  cc_subnet_cidr : string;
  cc_node_name : string;
  cc_env : string;
  cc_cmd : string
}.

Record ContainerReturnRequestDTO := mkContainerReturnRequestDTO {
  cr_container_name : string;
  cr_password : string
}.

Inductive payload :=
| NoPayload                                      (* [None] *)
| Text (message : string)
| ServerRentalResponseDTO (name private_key : string).

Inductive response :=
| ApiResponse (status : Z) (data : payload)
| ErrorResponse (status : Z) (message : string).

Definition HTTP_200_OK := 200.
Definition HTTP_201_CREATED := 201.
Definition HTTP_400_BAD_REQUEST := 400.
Definition HTTP_500_INTERNAL_SERVER_ERROR := 500.

(** ** Events: the calls that leave the process *)

(** What the cloud hands back for a server ([id], [flavor.original_name])
    and for a container ([addresses] as the values of the dictionary, each a
    list of addresses; [ports]). *)
Record os_server := mkOsServer { os_id : Z; flavor_original_name : string }.
Record os_container := mkOsContainer { addresses : list (list string); ports : string }.

(** Modelled from the spec: the controller methods that the routers call
    with a node name ([create_flavor], [delete_flavor], [create_server],
    [allocate_floating_ip], [create_container], [delete_container]), the
    helpers [network_isolation] and [network_delete] of [util.backend_utils]
    and [validate_ssh_key] of [util.utils] are not in the sources at hand.
    Each is one operation of the Cloud Resource Provider (create or delete a
    flavor, materialise a network with its subnet and router on a node or
    remove it, create an instance, allocate an address), which returns or
    fails.  The controller's [delete_server] and [find_server] are in the
    sources, so their events are the SDK calls they make. *)
Inductive event :=
| CreateFlavor (flavor_name node_name : string) (vcpus ram disk : Z)
| DeleteFlavor (flavor_name node_name : string)
| NetworkIsolation (node_name network_name subnet_cidr : string)
| NetworkDelete (node_name network_name : string)
| CreateServer (server_info : ServerCreateRequestDTO) (node_name : string)
| AllocateFloatingIp (server : os_server) (node_name : string)
| CreateContainer (container_name node_name image_name network_name env cmd : string)
| DeleteContainer (container_name node_name : string)
| ComputeFindServer (node_name server_name : string)
| NetworkIps (node_name : string) (server_id : Z)
| NetworkDeleteIp (node_name : string) (ip_id : Z)
| ComputeDeleteServer (node_name : string) (server_id : Z)
| ValidateSshKey (host_name user_name key_file password : string)
| Commit.

(** The type of what each call returns. *)
Definition reply (e : event) : Type :=
  match e with
  | CreateServer _ _ => (os_server * string)%type   (* server, private key *)
  | AllocateFloatingIp _ _ => string
  | CreateContainer _ _ _ _ _ _ => os_container
  | ComputeFindServer _ _ => option os_server
  | NetworkIps _ _ => list Z
  | ValidateSshKey _ _ _ _ => bool
  | _ => unit
  end.

(** The outside world: given the calls made so far, a call returns a value
    or raises. *)
Definition environment := forall (history : list event) (e : event), exn + reply e.

(** ** The monad of a handler

    A handler runs in a [world]: the committed tables, the tables as the
    open session sees them (pending rows are flushed before each query, so a
    query sees them), the calls made so far and the exceptions logged with
    [backend_logger.error]. *)
Record world := mkWorld {
  committed : db;
  working : db;
  trace : list event;
  log : list exn
}.

Definition M (A : Type) : Type := world -> (exn + A) * world.

Definition ret {A} (x : A) : M A := fun w => (inr x, w).
Definition raise {A} (e : exn) : M A := fun w => (inl e, w).
Definition bind {A B} (m : M A) (k : A -> M B) : M B :=
  fun w => match m w with
           | (inl e, w') => (inl e, w')
           | (inr x, w') => k x w'
           end.

Notation "x <- m ;; k" := (bind m (fun x => k))
  (at level 61, m at next level, right associativity).
Notation "m ;; k" := (bind m (fun _ => k))
  (at level 61, right associativity).

(** [try: m except Exception as e: ...]: the exception becomes a value; what
    [m] did before it raised stays done. *)
Definition attempt {A} (m : M A) : M (exn + A) :=
  fun w => let (r, w') := m w in (inr r, w').

Fixpoint for_each {A} (l : list A) (body : A -> M unit) : M unit :=
  match l with
  | [] => ret tt
  | x :: rest => body x ;; for_each rest body
  end.

Definition when (b : bool) (m : M unit) : M unit := if b then m else ret tt.

Definition is_none {A} (o : option A) : bool :=
  match o with None => true | Some _ => false end.

(** *** Where-clauses *)

(** A where-clause, as the filter it is on the rows of a table. *)
Definition clause (R : Type) : Type := R -> bool.

(** The Python-side truth value of a clause [column == value]: SQLAlchemy
    ([BinaryExpression.__bool__]) defines it, for [==], as the equality of
    the hashes of its two sides, here a column and a bound value, two
    different objects: it is false. *)
Definition py_bool {R} (c : clause R) : bool := false.

(** Python's [c1 and c2] between two clauses, as the link look-ups of the
    rental handlers write it: [c1] when [c1] is false as a Python value,
    else [c2]. *)
Definition py_and {R} (c1 c2 : clause R) : clause R :=
  if py_bool c1 then c2 else c1.

(** [where(c1, c2)]: the conjunction in SQL. *)
Definition sql_and {R} (c1 c2 : clause R) : clause R :=
  fun r => c1 r && c2 r.

(** *** The session *)

Definition select {R} (table : db -> list R) (where_ : clause R) : M (list R) :=
  fun w => (inr (filter where_ (table (working w))), w).

Definition one_or_none {R} (rows : list R) : M (option R) :=
  match rows with
  | [] => ret None
  | [r] => ret (Some r)
  | _ => raise MultipleResultsFound
  end.

Definition one {R} (rows : list R) : M R :=
  match rows with
  | [] => raise NoResultFound
  | [r] => ret r
  | _ => raise MultipleResultsFound
  end.

Definition session_change (f : db -> db) : M unit :=
  fun w => (inr tt, mkWorld (committed w) (f (working w)) (trace w) (log w)).

Definition session_rollback : M unit :=
  fun w => (inr tt, mkWorld (committed w) (committed w) (trace w) (log w)).

Definition backend_logger_error (e : exn) : M unit :=
  fun w => (inr tt, mkWorld (committed w) (working w) (trace w) (log w ++ [e])).

Definition add_server (s : Server.t) : M unit :=
  session_change (with_servers (fun l => l ++ [s]))%list.
Definition add_container (c : Container.t) : M unit :=
  session_change (with_containers (fun l => l ++ [c]))%list.
Definition add_flavor (f : Flavor.t) : M unit :=
  session_change (with_flavors (fun l => l ++ [f]))%list.
Definition add_network (n : Network.t) : M unit :=
  session_change (with_networks (fun l => l ++ [n]))%list.
Definition add_node_network (l : NodeNetwork.t) : M unit :=
  session_change (with_node_networks (fun t => t ++ [l]))%list.

(** [session.delete(row)]: the row of that primary key goes. *)
Definition delete_server_row (s : Server.t) : M unit :=
  session_change (with_servers (filter (fun r => negb (Server.id r =? Server.id s)))).
Definition delete_container_row (c : Container.t) : M unit :=
  session_change (with_containers (filter (fun r => negb (Container.id r =? Container.id c)))).
Definition delete_network_row (n : Network.t) : M unit :=
  session_change (with_networks
    (filter (fun r => negb (String.eqb (Network.name r) (Network.name n))))).
Definition delete_node_network_row (l : NodeNetwork.t) : M unit :=
  session_change (with_node_networks
    (filter (fun r => negb (String.eqb (NodeNetwork.node_name r) (NodeNetwork.node_name l)
                            && String.eqb (NodeNetwork.network_name r)
                                          (NodeNetwork.network_name l))))).

(** Modelled from the spec: the relationships [node_network.network],
    [network.servers] and [network.containers] are declared with the tables
    that are missing; they are the rows that the foreign key [network_name]
    relates, the shared resource of a link and the rentals that name a
    network. *)
Definition network_of (l : NodeNetwork.t) : M (option Network.t) :=
  fun w => (inr (find (fun n => String.eqb (Network.name n) (NodeNetwork.network_name l))
                      (networks (working w))), w).
Definition servers_of (n : Network.t) : M (list Server.t) :=
  select servers (fun s => String.eqb (Server.network_name s) (Network.name n)).
Definition containers_of (n : Network.t) : M (list Container.t) :=
  select containers (fun c => String.eqb (Container.network_name c) (Network.name n)).

(** The row a handler starts from and what it leaves: a session is opened on
    the stored tables, and when it closes what was not committed is gone. *)
Definition start (d : db) : world := mkWorld d d [] [].
Definition persisted (w : world) : db := committed w.

Section Backend.

Context (env : environment) (cfg : config).

(** [date(int(p[0]), int(p[1]), int(p[2]))] for [p = s.split(sep='-')],
    all built-ins of Python: the date, or the exception that [int], the
    indexing or [date] raises on [s]. *)
Context (date_of_string : string -> exn + date).

(** A call: the environment answers it, the trace records it. *)
Definition call (e : event) : M (reply e) :=
  fun w => (env (trace w) e,
            mkWorld (committed w) (working w) (trace w ++ [e])%list (log w)).

(** [session.commit()]: what the session holds becomes the stored state,
    unless the database refuses. *)
Definition session_commit : M unit :=
  call Commit ;;
  fun w => (inr tt, mkWorld (working w) (working w) (trace w) (log w)).

(** *** [openstack_controller.py] *)

Definition find_server (server_name node_name : string) : M (option os_server) :=
  call (ComputeFindServer node_name server_name).

(** [delete_server]: the server is looked up, its floating addresses are
    deleted, then the server.  [server.id] on the [None] of a server that
    is not there is an [AttributeError].  The routers call it with the name
    of the node, which here tells the calls of one node from those of
    another, and some with the address of the server, which it does not
    read. *)
Definition delete_server (server_name node_name : string) : M unit :=
  server <- call (ComputeFindServer node_name server_name) ;;
  match server with
  | None => raise AttributeError
  | Some server =>
      floating_ips <- call (NetworkIps node_name (os_id server)) ;;
      for_each floating_ips (fun floating_ip =>
        call (NetworkDeleteIp node_name floating_ip)) ;;
      call (ComputeDeleteServer node_name (os_id server))
  end.

(** *** [server_router.py] *)

Definition server_rent (server_info : ServerCreateRequestDTO) : M response :=
  let network_name :=
    match sc_network_name server_info with
    | None => default_internal_network cfg
    | Some n => n
    end in
  let server_info :=
    mkServerCreateRequestDTO
      (sc_user_name server_info) (sc_server_name server_info)
      (sc_start_date server_info) (sc_end_date server_info)
      (sc_image_name server_info) (sc_flavor_name server_info)
      (sc_vcpus server_info) (sc_ram server_info) (sc_disk server_info)
      (Some network_name) (sc_subnet_cidr server_info)
      (sc_node_name server_info) in
  let server_name := sc_server_name server_info in
  let flavor_name := sc_flavor_name server_info in
  let node_name := sc_node_name server_info in
  rows <- select servers (fun s => String.eqb (Server.server_name s) server_name) ;;
  same_name <- one_or_none rows ;;
  if negb (is_none same_name) then
    ret (ErrorResponse HTTP_400_BAD_REQUEST "서버 이름 중복")
  else
  flavor_step <- attempt (
    rows <- select flavors (fun f => String.eqb (Flavor.name f) flavor_name) ;;
    flavor <- one_or_none rows ;;
    when (is_none flavor)
      (add_flavor (Flavor.mk flavor_name (sc_vcpus server_info)
                             (sc_ram server_info) (sc_disk server_info) false)) ;;
    rows <- select node_flavors
              (py_and (fun l => String.eqb (NodeFlavor.flavor_name l) flavor_name)
                      (fun l => String.eqb (NodeFlavor.node_name l) node_name)) ;;
    node_flavor <- one_or_none rows ;;
    when (is_none node_flavor)
      (call (CreateFlavor flavor_name node_name (sc_vcpus server_info)
                          (sc_ram server_info) (sc_disk server_info)))) ;;
  match flavor_step with
  | inl e =>
      backend_logger_error e ;;
      session_rollback ;;
      call (DeleteFlavor flavor_name node_name) ;;
      ret (ErrorResponse HTTP_500_INTERNAL_SERVER_ERROR "커스텀 플레이버 생성 오류")
  | inr _ =>
  network_step <- attempt (
    rows <- select networks (fun n => String.eqb (Network.name n) network_name) ;;
    network <- one_or_none rows ;;
    when (is_none network)
      (add_network (Network.mk network_name (sc_subnet_cidr server_info) false)) ;;
    rows <- select node_networks
              (py_and (fun l => String.eqb (NodeNetwork.network_name l) network_name)
                      (fun l => String.eqb (NodeNetwork.node_name l) node_name)) ;;
    node_network <- one_or_none rows ;;
    when (is_none node_network)
      (call (NetworkIsolation node_name network_name (sc_subnet_cidr server_info)) ;;
       add_node_network (NodeNetwork.mk node_name network_name))) ;;
  match network_step with
  | inl e =>
      backend_logger_error e ;;
      rows <- select node_networks
                (sql_and (fun l => String.eqb (NodeNetwork.network_name l) network_name)
                         (fun l => String.eqb (NodeNetwork.node_name l) node_name)) ;;
      node_network <- one_or_none rows ;;
      match node_network with
      | None => ret tt
      | Some node_network =>
          network <- network_of node_network ;;
          match network with
          | None => raise AttributeError
          | Some network =>
              when (negb (Network.is_default network))
                   (call (NetworkDelete node_name network_name))
          end
      end ;;
      session_rollback ;;
      ret (ErrorResponse HTTP_500_INTERNAL_SERVER_ERROR "네트워크 분리 오류")
  | inr _ =>
  (* [floating_ip] is the local variable of that name when it is bound *)
  let recover (e : exn) (floating_ip : option string) : M response :=
    backend_logger_error e ;;
    session_rollback ;;
    match floating_ip with
    | None => raise UnboundLocalError
    | Some _ =>
        delete_server server_name node_name ;;
        ret (ErrorResponse HTTP_500_INTERNAL_SERVER_ERROR "백엔드 내부 오류")
    end in
  created <- attempt (call (CreateServer server_info node_name)) ;;
  match created with
  | inl e => recover e None
  | inr (server, private_key) =>
  allocated <- attempt (call (AllocateFloatingIp server node_name)) ;;
  match allocated with
  | inl e => recover e None
  | inr floating_ip =>
  stored <- attempt (
    ids <- select servers (fun _ => true) ;;
    add_server (Server.mk (next_id (map Server.id ids))
                          (sc_user_name server_info) server_name
                          (sc_start_date server_info) (sc_end_date server_info)
                          floating_ip network_name node_name flavor_name
                          (sc_image_name server_info)) ;;
    session_commit) ;;
  match stored with
  | inl e => recover e (Some floating_ip)
  | inr _ =>
      let name := if String.eqb private_key "" then ""
                  else server_name ++ "_keypair.pem" in
      ret (ApiResponse HTTP_201_CREATED (ServerRentalResponseDTO name private_key))
  end end end end end.

Definition server_renew (server_name host_ip end_date password key_file : string)
  : M response :=
  valid <- call (ValidateSshKey host_ip server_name key_file password) ;;
  if valid : bool then
    renewed <- attempt (
      rows <- select servers (fun s => String.eqb (Server.server_name s) server_name) ;;
      server <- one rows ;;
      match date_of_string end_date with
      | inl e => raise e
      | inr d =>
          session_change (with_servers
            (map (fun r => if Server.id r =? Server.id server
                           then Server.set_end_date d r else r))) ;;
          session_commit
      end) ;;
    match renewed with
    | inl e =>
        backend_logger_error e ;;
        session_rollback ;;
        ret (ErrorResponse HTTP_500_INTERNAL_SERVER_ERROR "백엔드 내부 오류")
    | inr _ => ret (ApiResponse HTTP_200_OK (Text "대여 기간 연장 완료"))
    end
  else ret (ErrorResponse HTTP_400_BAD_REQUEST "입력한 정보가 잘못됨").

Definition server_return (server_name host_ip password key_file : string)
  : M response :=
  valid <- call (ValidateSshKey host_ip server_name key_file password) ;;
  if valid : bool then
    returned <- attempt (
      rows <- select servers (fun s => String.eqb (Server.server_name s) server_name) ;;
      server <- one rows ;;
      let network_name := Server.network_name server in
      delete_server server_name (Server.node_name server) ;;
      delete_server_row server ;;
      session_commit ;;
      openstack_server <- find_server server_name (Server.node_name server) ;;
      match openstack_server with
      | None => raise AttributeError
      | Some openstack_server =>
          let original_name := flavor_original_name openstack_server in
          when (negb (existsb (String.eqb original_name) (default_flavors cfg)))
            (rows <- select servers
                       (fun s => String.eqb (Server.flavor_name s) original_name) ;;
             user <- one_or_none rows ;;
             when (is_none user)
               (for_each (nodes cfg) (fun node =>
                  call (DeleteFlavor original_name node)))) ;;
          (* the four operands of [and] are evaluated from the left, each
             only when those before it hold *)
          unused <-
            (if negb (String.eqb network_name (external_network cfg)) then
               if negb (String.eqb network_name (default_internal_network cfg)) then
                 rows <- select servers
                           (fun s => String.eqb (Server.network_name s) network_name) ;;
                 user <- one_or_none rows ;;
                 if is_none user then
                   rows <- select containers
                             (fun c => String.eqb (Container.network_name c) network_name) ;;
                   user <- one_or_none rows ;;
                   ret (is_none user)
                 else ret false
               else ret false
             else ret false) ;;
          when unused
            (for_each (nodes cfg) (fun node =>
               call (NetworkDelete node network_name)))
      end) ;;
    match returned with
    | inl e =>
        backend_logger_error e ;;
        ret (ErrorResponse HTTP_500_INTERNAL_SERVER_ERROR "백엔드 내부 오류")
    | inr _ => ret (ApiResponse HTTP_200_OK (Text "서버 삭제 완료"))
    end
  else ret (ErrorResponse HTTP_400_BAD_REQUEST "입력한 정보가 잘못됨").

(** *** [db_router.py] *)

(** The same renewal, answering with [ApiResponse] on every path. *)
Definition db_server_renew (server_name host_ip end_date password key_file : string)
  : M response :=
  valid <- call (ValidateSshKey host_ip server_name key_file password) ;;
  if valid : bool then
    renewed <- attempt (
      rows <- select servers (fun s => String.eqb (Server.server_name s) server_name) ;;
      server <- one rows ;;
      match date_of_string end_date with
      | inl e => raise e
      | inr d =>
          session_change (with_servers
            (map (fun r => if Server.id r =? Server.id server
                           then Server.set_end_date d r else r))) ;;
          session_commit
      end) ;;
    match renewed with
    | inl _ =>
        session_rollback ;;
        ret (ApiResponse HTTP_500_INTERNAL_SERVER_ERROR (Text "예외 상황 발생"))
    | inr _ => ret (ApiResponse HTTP_200_OK (Text "대여 기간 연장 완료"))
    end
  else ret (ApiResponse HTTP_400_BAD_REQUEST (Text "입력한 정보가 잘못됨")).

(** *** [container_router.py] *)

Definition rental (container_info : ContainerCreateRequestDTO) : M response :=
  let network_name :=
    match cc_network_name container_info with
    | None => external_network cfg
    | Some n => n
    end in
  let container_name := cc_container_name container_info in
  let node_name := cc_node_name container_info in
  rows <- select containers
            (fun c => String.eqb (Container.container_name c) container_name) ;;
  same_name <- one_or_none rows ;;
  if negb (is_none same_name) then
    ret (ErrorResponse HTTP_400_BAD_REQUEST "컨테이너 이름 중복")
  else
  rows <- select networks (fun n => String.eqb (Network.name n) network_name) ;;
  network <- one_or_none rows ;;
  when (is_none network)
    (add_network (Network.mk network_name (cc_subnet_cidr container_info) false)) ;;
  rows <- select node_networks
            (py_and (fun l => String.eqb (NodeNetwork.network_name l) network_name)
                    (fun l => String.eqb (NodeNetwork.node_name l) node_name)) ;;
  node_network <- one_or_none rows ;;
  when (is_none node_network)
    (call (NetworkIsolation node_name network_name (cc_subnet_cidr container_info)) ;;
     add_node_network (NodeNetwork.mk node_name network_name)) ;;
  stored <- attempt (
    container <- call (CreateContainer container_name node_name
                         (cc_image_name container_info) network_name
                         (cc_env container_info) (cc_cmd container_info)) ;;
    let sha256 := Hashlib.sha256_hexdigest (cc_password container_info) in
    (* [list(container.addresses.values())[0][0]['addr']] *)
    ip <- match addresses container with
          | (addr :: _) :: _ => ret addr
          | _ => raise IndexError
          end ;;
    ids <- select containers (fun _ => true) ;;
    add_container (Container.mk (next_id (map Container.id ids))
                     (cc_user_name container_info) container_name
                     (cc_start_date container_info) (cc_end_date container_info)
                     (cc_image_name container_info) sha256 ip (ports container)
                     network_name node_name) ;;
    session_commit) ;;
  match stored with
  | inl e =>
      backend_logger_error e ;;
      rows <- select node_networks
                (py_and (fun l => String.eqb (NodeNetwork.network_name l) network_name)
                        (fun l => String.eqb (NodeNetwork.node_name l) node_name)) ;;
      node_network <- one_or_none rows ;;
      match node_network with
      | None => ret tt
      | Some node_network =>
          network <- network_of node_network ;;
          match network with
          | None => raise AttributeError
          | Some network =>
              when (negb (Network.is_default network))
                   (call (NetworkDelete node_name network_name))
          end
      end ;;
      session_rollback ;;
      call (DeleteContainer container_name node_name) ;;
      ret (ErrorResponse HTTP_500_INTERNAL_SERVER_ERROR "백엔드 내부 오류")
  | inr _ => ret (ApiResponse HTTP_201_CREATED NoPayload)
  end.

Definition container_return (container_info : ContainerReturnRequestDTO)
  : M response :=
  let sha256 := Hashlib.sha256_hexdigest (cr_password container_info) in
  let container_name := cr_container_name container_info in
  returned <- attempt (
    rows <- select containers
              (fun c => String.eqb (Container.container_name c) container_name) ;;
    container <- one rows ;;
    let network_name := Container.network_name container in
    if negb (String.eqb sha256 (Container.password container)) then
      ret (ErrorResponse HTTP_400_BAD_REQUEST "비밀번호가 맞지 않습니다.")
    else
      call (DeleteContainer container_name (Container.node_name container)) ;;
      delete_container_row container ;;
      session_commit ;;
      rows <- select networks (fun n => String.eqb (Network.name n) network_name) ;;
      network <- one rows ;;
      attached_servers_on_network <- servers_of network ;;
      attached_containers_on_network <- containers_of network ;;
      when ((List.length attached_servers_on_network
             + List.length attached_containers_on_network =? 0)%nat
            && negb (Network.is_default network))
        (target_node_networks <-
           select node_networks
             (fun l => String.eqb (NodeNetwork.network_name l) network_name) ;;
         for_each target_node_networks (fun target_node_network =>
           call (NetworkDelete (NodeNetwork.node_name target_node_network)
                               (NodeNetwork.network_name target_node_network)) ;;
           delete_node_network_row target_node_network) ;;
         rows <- select networks (fun n => String.eqb (Network.name n) network_name) ;;
         target_network <- one rows ;;
         delete_network_row target_network) ;;
      session_commit ;;
      ret (ApiResponse HTTP_200_OK NoPayload)) ;;
  match returned with
  | inl e =>
      backend_logger_error e ;;
      ret (ErrorResponse HTTP_500_INTERNAL_SERVER_ERROR "백엔드 내부 오류")
  | inr answer => ret answer
  end.

(** *** [scheduler.py] *)

(** [delete_expired_data], with [today] for [datetime.now().date()].  It
    catches nothing: an exception leaves through [session.begin()], which
    rolls the transaction back. *)
Definition delete_expired_data (today : date) : M unit :=
  expired_servers <- select servers (fun s => date_ltb (Server.end_date s) today) ;;
  expired_containers <-
    select containers (fun c => date_ltb (Container.end_date c) today) ;;
  for_each expired_servers (fun server =>
    delete_server_row server ;;
    delete_server (Server.server_name server) (Server.node_name server)) ;;
  for_each expired_containers (fun container =>
    delete_container_row container ;;
    call (DeleteContainer (Container.container_name container)
                          (Container.node_name container))) ;;
  session_commit.

End Backend.

(** ** Environments and inputs of the examples *)

(** A cloud and a database where every call goes through: servers are found,
    one floating address each, keys are valid. *)
Definition healthy : environment := fun _ e =>
  match e return exn + reply e with
  | CreateServer info _ => inr (mkOsServer 1 (sc_flavor_name info), "PRIVATE KEY")
  | AllocateFloatingIp _ _ => inr "203.0.113.5"
  | CreateContainer _ _ _ _ _ _ => inr (mkOsContainer [["172.17.0.2"]] "80")
  | ComputeFindServer _ _ => inr (Some (mkOsServer 1 "m1.small"))
  | NetworkIps _ _ => inr [11]
  | ValidateSshKey _ _ _ _ => inr true
  | _ => inr tt
  end.

(** The same, except that the calls [fails] selects raise [error]. *)
Definition fail_on (fails : event -> bool) (error : exn) (base : environment)
  : environment :=
  fun history e => if fails e then inl error else base history e.

(** The same, except that the servers [absent] selects are not in the cloud. *)
Definition without_server (absent : string -> bool) (base : environment) : environment :=
  fun history e =>
    match e return exn + reply e -> exn + reply e with
    | ComputeFindServer _ name => fun r => if absent name then inr None else r
    | _ => fun r => r
    end (base history e).

Definition is_create_server (e : event) : bool :=
  match e with CreateServer _ _ => true | _ => false end.
Definition is_create_container (e : event) : bool :=
  match e with CreateContainer _ _ _ _ _ _ => true | _ => false end.
Definition is_create_flavor (e : event) : bool :=
  match e with CreateFlavor _ _ _ _ _ => true | _ => false end.
Definition is_commit (e : event) : bool :=
  match e with Commit => true | _ => false end.

(** The calls that release shared infrastructure in the cloud. *)
Definition is_release (e : event) : bool :=
  match e with
  | NetworkDelete _ _ | DeleteFlavor _ _ => true
  | _ => false
  end.

Definition deletes_network (network_name : string) (e : event) : bool :=
  match e with
  | NetworkDelete _ n => String.eqb n network_name
  | _ => false
  end.

Definition example_config : config :=
  mkConfig "public" "private" ["m1.small"; "m1.medium"] ["node1"; "node2"].

Definition rent_web1 : ServerCreateRequestDTO :=
  mkServerCreateRequestDTO "alice" "web1" (mkDate 2024 1 1) (mkDate 2024 2 1)
    "ubuntu-22.04" "custom.2c4g" 2 4096 40 (Some "tenant-net") "10.1.0.0/24" "node1".

Definition rent_box1 : ContainerCreateRequestDTO :=
  mkContainerCreateRequestDTO "alice" "box1" (mkDate 2024 1 1) (mkDate 2024 2 1)
    "nginx" "s3cret" (Some "tenant-net") "10.1.0.0/24" "node1" "" "".

(** A database where the network [tenant-net] is materialised on two nodes
    and the default flavor on one; and one where the flavor is on two. *)
Definition linked_on_two_nodes : db :=
  mkDb [] []
       [Flavor.mk "m1.small" 1 2048 20 true]
       [NodeFlavor.mk "node1" "m1.small"]
       [Network.mk "tenant-net" "10.1.0.0/24" false]
       [NodeNetwork.mk "node1" "tenant-net"; NodeNetwork.mk "node2" "tenant-net"].

Definition flavor_on_two_nodes : db :=
  mkDb [] []
       [Flavor.mk "m1.small" 1 2048 20 true]
       [NodeFlavor.mk "node1" "m1.small"; NodeFlavor.mk "node2" "m1.small"]
       [] [].

Definition rent_web2 : ServerCreateRequestDTO :=
  mkServerCreateRequestDTO "bob" "web2" (mkDate 2024 1 1) (mkDate 2024 2 1)
    "ubuntu-22.04" "m1.small" 1 2048 20 (Some "tenant-net") "10.1.0.0/24" "node1".

(** An inventory of two rentals that share nothing: the server [web1] with
    its own flavor and network, the container [box1] with its own network. *)
Definition web1 : Server.t :=
  Server.mk 1 "alice" "web1" (mkDate 2023 12 1) (mkDate 2024 1 1) "203.0.113.5"
            "tenant-net" "node1" "custom.2c4g" "ubuntu-22.04".

Definition box1 : Container.t :=
  Container.mk 1 "alice" "box1" (mkDate 2023 12 1) (mkDate 2024 1 1) "nginx"
               (Hashlib.sha256_hexdigest "s3cret") "172.17.0.2" "80" "box-net" "node1".

Definition two_rentals : db :=
  mkDb [web1] [box1]
       [Flavor.mk "custom.2c4g" 2 4096 40 false]
       []
       [Network.mk "tenant-net" "10.1.0.0/24" false;
        Network.mk "box-net" "10.2.0.0/24" false]
       [NodeNetwork.mk "node1" "tenant-net"; NodeNetwork.mk "node1" "box-net"].

(** Two servers past their end date and one that is not. *)
Definition web3 : Server.t :=
  Server.mk 2 "bob" "web3" (mkDate 2023 12 1) (mkDate 2024 1 1) "203.0.113.6"
            "private" "node2" "m1.small" "ubuntu-22.04".

Definition web4 : Server.t :=
  Server.mk 3 "carol" "web4" (mkDate 2023 12 1) (mkDate 2024 6 1) "203.0.113.7"
            "private" "node2" "m1.small" "ubuntu-22.04".

Definition three_servers : db := mkDb [web1; web3; web4] [] [] [] [] [].

Definition finds (server_name : string) (e : event) : bool :=
  match e with
  | ComputeFindServer _ n => String.eqb n server_name
  | _ => false
  end.

(** Environments in which one kind of call fails. *)
Definition no_instance : environment :=
  fail_on is_create_server (ProviderError "unavailable") healthy.
Definition no_container : environment :=
  fail_on is_create_container (ProviderError "unavailable") healthy.
Definition no_flavor : environment :=
  fail_on is_create_flavor (ProviderError "unavailable") healthy.
Definition no_commit : environment :=
  fail_on is_commit (DatabaseError "refused") healthy.
Definition web1_unreachable : environment :=
  fail_on (finds "web1") (ProviderError "unavailable") healthy.
Definition web3_unreachable : environment :=
  fail_on (finds "web3") (ProviderError "unavailable") healthy.

(** A reading of dates for the examples:
    [date(int(p[0]), int(p[1]), int(p[2]))] for [p = s.split(sep='-')], on
    strings of ASCII digits and dashes.  The parts are read from the left:
    a part that is not a run of digits is a [ValueError] of [int], a part
    that is missing an [IndexError], parts after the third are not read,
    and [date] raises [ValueError] outside the years 1 to 9999, the months
    and the days of the month.  Python's [int] also reads blanks around the
    digits, a sign, underscores between digits and the decimal digits of
    other scripts; such strings are answered [ValueError] here. *)
Definition digit (ch : ascii) : option Z :=
  let n := Z.of_nat (nat_of_ascii ch) in
  if (48 <=? n) && (n <=? 57) then Some (n - 48) else None.

Definition days_in_month (y m : Z) : Z :=
  if m =? 2 then
    if ((y mod 4 =? 0) && negb (y mod 100 =? 0)) || (y mod 400 =? 0) then 29 else 28
  else if (m =? 4) || (m =? 6) || (m =? 9) || (m =? 11) then 30 else 31.

(** [s.split(sep='-')]: the first part and the parts after it. *)
Fixpoint split_dash (s : list ascii) : list ascii * list (list ascii) :=
  match s with
  | [] => ([], [])
  | ch :: s =>
      let (part, parts) := split_dash s in
      if Ascii.eqb ch "-" then ([], part :: parts) else (ch :: part, parts)
  end.

Definition int_of_digits (part : list ascii) : option Z :=
  match part with
  | [] => None
  | _ => fold_left (fun n ch => match n, digit ch with
                                | Some n, Some d => Some (10 * n + d)
                                | _, _ => None
                                end) part (Some 0)
  end.

Definition date_of_parts (y m dd : Z) : exn + date :=
  if (1 <=? y) && (y <=? 9999) && (1 <=? m) && (m <=? 12)
     && (1 <=? dd) && (dd <=? days_in_month y m)
  then inr (mkDate y m dd) else inl ValueError.

Definition plain_date_of_string (s : string) : exn + date :=
  let (first, others) := split_dash (list_ascii_of_string s) in
  match int_of_digits first with
  | None => inl ValueError
  | Some y =>
      match others with
      | [] => inl IndexError
      | second :: others =>
          match int_of_digits second with
          | None => inl ValueError
          | Some m =>
              match others with
              | [] => inl IndexError
              | third :: _ =>
                  match int_of_digits third with
                  | None => inl ValueError
                  | Some dd => date_of_parts y m dd
                  end
              end
          end
      end
  end.

(** An inventory whose network [lab-net] and flavor [m1.small] are flagged
    as default; the configuration of the examples names neither [lab-net] as
    the external nor as the default internal network. *)
Definition lab_net : Network.t := Network.mk "lab-net" "10.3.0.0/24" true.

Definition lab1 : Server.t :=
  Server.mk 1 "dave" "lab1" (mkDate 2023 12 1) (mkDate 2024 6 1) "203.0.113.8"
            "lab-net" "node1" "m1.small" "ubuntu-22.04".

Definition lab_box : Container.t :=
  Container.mk 1 "dave" "labbox" (mkDate 2023 12 1) (mkDate 2024 6 1) "nginx"
               (Hashlib.sha256_hexdigest "s3cret") "172.17.0.3" "80" "lab-net" "node1".

Definition flagged_lab : db :=
  mkDb [lab1] [] [Flavor.mk "m1.small" 1 2048 20 true] []
       [lab_net] [NodeNetwork.mk "node1" "lab-net"].

Definition flagged_lab_box : db :=
  mkDb [] [lab_box] [] [] [lab_net] [NodeNetwork.mk "node1" "lab-net"].

Definition rent_lab2 : ServerCreateRequestDTO :=
  mkServerCreateRequestDTO "dave" "lab2" (mkDate 2024 1 1) (mkDate 2024 2 1)
    "ubuntu-22.04" "m1.small" 1 2048 20 (Some "lab-net") "10.3.0.0/24" "node1".

Definition rent_labbox2 : ContainerCreateRequestDTO :=
  mkContainerCreateRequestDTO "dave" "labbox2" (mkDate 2024 1 1) (mkDate 2024 2 1)
    "nginx" "s3cret" (Some "lab-net") "10.3.0.0/24" "node1" "" "".

(** ** Vocabulary of the properties *)

(** Two rows of [Server] that agree on every column but [end_date]. *)
Definition only_end_date_differs (r r' : Server.t) : Prop :=
  Server.id r' = Server.id r
  /\ Server.user_name r' = Server.user_name r
  /\ Server.server_name r' = Server.server_name r
  /\ Server.start_date r' = Server.start_date r
  /\ Server.floating_ip r' = Server.floating_ip r
  /\ Server.network_name r' = Server.network_name r
  /\ Server.node_name r' = Server.node_name r
  /\ Server.flavor_name r' = Server.flavor_name r
  /\ Server.image_name r' = Server.image_name r.

(** What both renewal handlers do, [failure] being the answer of the
    handler to an exception. *)
Definition extend_contract
  (renew : environment -> (string -> exn + date) ->
           string -> string -> string -> string -> string -> M response)
  (failure : response) : Prop :=
  forall (env : environment) parse d server_name host_ip end_date password key_file,
    let result := renew env parse server_name host_ip end_date password key_file (start d) in
    (NoDup (map Server.id (servers d)) ->
     fst result = inr (ApiResponse HTTP_200_OK (Text "대여 기간 연장 완료")) ->
     exists new_end_date,
       parse end_date = inr new_end_date
       /\ Forall2 (fun r r' =>
                     only_end_date_differs r r'
                     /\ Server.end_date r'
                        = if String.eqb (Server.server_name r) server_name
                          then new_end_date else Server.end_date r)
                  (servers d) (servers (persisted (snd result)))
       /\ containers (persisted (snd result)) = containers d
       /\ flavors (persisted (snd result)) = flavors d
       /\ node_flavors (persisted (snd result)) = node_flavors d
       /\ networks (persisted (snd result)) = networks d
       /\ node_networks (persisted (snd result)) = node_networks d)
    /\ (filter (fun r => String.eqb (Server.server_name r) server_name) (servers d) = [] ->
        persisted (snd result) = d
        /\ (env [] (ValidateSshKey host_ip server_name key_file password) = inr true ->
            fst result = inr failure)).

(** An environment in which every call returns, and every server that is
    looked up is there. *)
Definition never_fails (env : environment) : Prop :=
  (forall history e, exists v, env history e = inr v)
  /\ (forall history node_name server_name,
        env history (ComputeFindServer node_name server_name) <> inr None).

(** The failure [e] is that of the last call made: the environment raised
    [e] there, or [e] is the [AttributeError] of a server not found. *)
Definition last_call_failed (env : environment) (e : exn) (w : world) : Prop :=
  exists history ev,
    trace w = (history ++ [ev])%list
    /\ (env history ev = inl e
        \/ (e = AttributeError
            /\ exists node_name server_name,
                 ev = ComputeFindServer node_name server_name
                 /\ env history (ComputeFindServer node_name server_name) = inr None)).

(** A computation that commits nothing and, when it fails, stops at the
    call that failed. *)
Definition stops_at_failure (env : environment) {A} (m : M A) : Prop :=
  forall w,
    committed (snd (m w)) = committed w
    /\ match fst (m w) with
       | inl e => last_call_failed env e (snd (m w))
       | inr _ => True
       end.

(** A computation that, when it fails, has committed nothing and stops at
    the call that failed. *)
Definition fails_cleanly (env : environment) {A} (m : M A) : Prop :=
  forall w,
    match fst (m w) with
    | inl e => committed (snd (m w)) = committed w
               /\ last_call_failed env e (snd (m w))
    | inr _ => True
    end.

(** What a trace says of the instances: the servers looked up for deletion
    (name, node), the deletions of servers, the containers deleted. *)
Definition servers_looked_up (t : list event) : list (string * string) :=
  flat_map (fun e => match e with
                     | ComputeFindServer node_name server_name => [(server_name, node_name)]
                     | _ => []
                     end) t.

Definition is_compute_delete_server (e : event) : bool :=
  match e with ComputeDeleteServer _ _ => true | _ => false end.

Definition containers_deleted (t : list event) : list (string * string) :=
  flat_map (fun e => match e with
                     | DeleteContainer container_name node_name => [(container_name, node_name)]
                     | _ => []
                     end) t.

(** The calls that leave the network [network_name] in the cloud; those
    that leave what the configuration names as default: the external and the
    default internal network, the default flavors. *)
Definition spares_network (network_name : string) (e : event) : bool :=
  negb (deletes_network network_name e).

Definition spares_configured_defaults (cfg : config) (e : event) : bool :=
  match e with
  | NetworkDelete _ n =>
      negb (String.eqb n (external_network cfg))
      && negb (String.eqb n (default_internal_network cfg))
  | DeleteFlavor f _ => negb (existsb (String.eqb f) (default_flavors cfg))
  | _ => true
  end.

Definition releases_nothing (e : event) : bool := negb (is_release e).

(** The tables of the shared infrastructure are those of [d0]. *)
Definition same_infrastructure (d0 d : db) : Prop :=
  networks d = networks d0 /\ flavors d = flavors d0
  /\ node_networks d = node_networks d0 /\ node_flavors d = node_flavors d0.

(** The row [n] is in the [Network] table, and is its only row of that
    name. *)
Definition holds_network (n : Network.t) (d : db) : Prop :=
  In n (networks d)
  /\ forall r, In r (networks d) -> Network.name r = Network.name n -> r = n.

(** A world all of whose calls are [safe] and whose tables, as the session
    sees them and as committed, satisfy [I]; and a computation that keeps
    the world so, on every path, and returns values that satisfy [Q]. *)
Definition inv (safe : event -> bool) (I : db -> Prop) (w : world) : Prop :=
  forallb safe (trace w) = true /\ I (working w) /\ I (committed w).

Definition keeps (safe : event -> bool) (I : db -> Prop) {A} (m : M A) (Q : A -> Prop)
  : Prop :=
  forall w, inv safe I w ->
            inv safe I (snd (m w)) /\ (forall x, fst (m w) = inr x -> Q x).

(** The call [ev], made after [history], failed with [e]: the environment
    raised [e], or [e] is the [AttributeError] of a server that was looked
    up and not found. *)
Definition failed_with (env : environment) (history : list event) (ev : event) (e : exn)
  : Prop :=
  env history ev = inl e
  \/ (e = AttributeError
      /\ exists node_name server_name,
           ev = ComputeFindServer node_name server_name
           /\ env history (ComputeFindServer node_name server_name) = inr None).

Definition call_failed (env : environment) (history : list event) (ev : event) : Prop :=
  exists e, failed_with env history ev e.

(** No call of the trace [t] failed. *)
Definition all_answered (env : environment) (t : list event) : Prop :=
  forall history ev rest, t = (history ++ ev :: rest)%list -> ~ call_failed env history ev.

(** A computation that makes no call after one that failed: from a trace
    without failure it returns with a trace without failure, or it ends with
    the exception of the call that failed, which is the last of its trace
    and the only one that failed. *)
Definition ends_at_failure (env : environment) {A} (m : M A) : Prop :=
  forall w,
    all_answered env (trace w) ->
    match fst (m w) with
    | inr _ => all_answered env (trace (snd (m w)))
    | inl e =>
        exists history ev,
          trace (snd (m w)) = (history ++ [ev])%list
          /\ all_answered env history
          /\ failed_with env history ev e
    end.

(** ** Vocabulary of the outcomes *)

(** The row a rental adds when its look-up found none. *)
Definition missing {A B} (rows : list A) (x : B) : list B :=
  match rows with [] => [x] | _ => [] end.

(** The request of a server rental once its network is settled: the network
    of the request, or the default internal network of the configuration. *)
Definition requested_network (cfg : config) (server_info : ServerCreateRequestDTO) : string :=
  match sc_network_name server_info with
  | None => default_internal_network cfg
  | Some n => n
  end.

Definition with_network (network_name : string) (server_info : ServerCreateRequestDTO)
  : ServerCreateRequestDTO :=
  mkServerCreateRequestDTO
    (sc_user_name server_info) (sc_server_name server_info)
    (sc_start_date server_info) (sc_end_date server_info)
    (sc_image_name server_info) (sc_flavor_name server_info)
    (sc_vcpus server_info) (sc_ram server_info) (sc_disk server_info)
    (Some network_name) (sc_subnet_cidr server_info) (sc_node_name server_info).

(** The network of a container rental: that of the request, or the
    external network of the configuration. *)
Definition requested_container_network (cfg : config)
  (container_info : ContainerCreateRequestDTO) : string :=
  match cc_network_name container_info with
  | None => external_network cfg
  | Some n => n
  end.

(** From [w] to [w'] only calls were made: the tables, committed and of the
    session, and the log are the same. *)
Definition same_tables (w w' : world) : Prop :=
  committed w' = committed w /\ working w' = working w /\ log w' = log w
  /\ exists t, trace w' = (trace w ++ t)%list.

(** The answers of success. *)
Definition renewal_succeeded : response :=
  ApiResponse HTTP_200_OK (Text "대여 기간 연장 완료").
Definition server_returned : response :=
  ApiResponse HTTP_200_OK (Text "서버 삭제 완료").
Definition container_returned : response := ApiResponse HTTP_200_OK NoPayload.

(** The tables without the row of a server, of a container, and without
    every row of a network: its [Network] rows and its links. *)
Definition without_server_row (s : Server.t) (d : db) : db :=
  with_servers (filter (fun r => negb (Server.id r =? Server.id s))) d.

Definition without_container_row (c : Container.t) (d : db) : db :=
  with_containers (filter (fun r => negb (Container.id r =? Container.id c))) d.

Definition without_network (network_name : string) (d : db) : db :=
  with_networks (filter (fun n => negb (String.eqb (Network.name n) network_name)))
    (with_node_networks
       (filter (fun l => negb (String.eqb (NodeNetwork.network_name l) network_name))) d).

Definition container_network_released (c : Container.t) (d : db) : db :=
  without_network (Container.network_name c) (without_container_row c d).

(** The links that are left once those of [targets] are deleted. *)
Definition same_link (a b : NodeNetwork.t) : bool :=
  String.eqb (NodeNetwork.node_name a) (NodeNetwork.node_name b)
  && String.eqb (NodeNetwork.network_name a) (NodeNetwork.network_name b).

Definition unlinked (targets rows : list NodeNetwork.t) : list NodeNetwork.t :=
  filter (fun r => negb (existsb (same_link r) targets)) rows.

(** The body of the loop of [container_return]. *)
Definition release_link (env : environment) (target_node_network : NodeNetwork.t) : M unit :=
  call env (NetworkDelete (NodeNetwork.node_name target_node_network)
                          (NodeNetwork.network_name target_node_network)) ;;
  delete_node_network_row target_node_network.

(** An environment in which every call returns. *)
Definition no_raise (env : environment) : Prop :=
  forall history e, exists v, env history e = inr v.

(** The number of rentals of [d] that name a network. *)
Definition attached (network_name : string) (d : db) : nat :=
  (List.length (filter (fun s => String.eqb (Server.network_name s) network_name)
                       (servers d))
   + List.length (filter (fun c => String.eqb (Container.network_name c) network_name)
                         (containers d)))%nat.

(** A network that the return of its last container leaves: one that a
    rental of [d] names, or whose row is flagged as default. *)
Definition kept_network (network_name : string) (d : db) : bool :=
  negb (attached network_name d =? 0)%nat
  || existsb Network.is_default
             (filter (fun n => String.eqb (Network.name n) network_name) (networks d)).

(** The return request of the one who rented a container. *)
Definition same_credentials (container_info : ContainerCreateRequestDTO)
  : ContainerReturnRequestDTO :=
  mkContainerReturnRequestDTO (cc_container_name container_info)
                              (cc_password container_info).

(** The rentals whose end date is before [today], and the tables once their
    rows are deleted. *)
Definition expired_server_rows (today : date) (d : db) : list Server.t :=
  filter (fun s => date_ltb (Server.end_date s) today) (servers d).

Definition expired_container_rows (today : date) (d : db) : list Container.t :=
  filter (fun c => date_ltb (Container.end_date c) today) (containers d).

Definition without_expired (today : date) (d : db) : db :=
  with_containers
    (filter (fun r => negb (existsb (fun c => Container.id r =? Container.id c)
                                    (expired_container_rows today d))))
    (with_servers
       (filter (fun r => negb (existsb (fun s => Server.id r =? Server.id s)
                                       (expired_server_rows today d))))
       d).

(** Two more environments: one in which no key is valid, and one in which a
    server is no longer found once a server has been deleted. *)
Definition wrong_key : environment := fun history e =>
  match e return exn + reply e -> exn + reply e with
  | ValidateSshKey _ _ _ _ => fun _ => inr false
  | _ => fun r => r
  end (healthy history e).

Definition forgets_deleted : environment := fun history e =>
  match e return exn + reply e -> exn + reply e with
  | ComputeFindServer _ _ =>
      fun r => if existsb is_compute_delete_server history then inr None else r
  | _ => fun r => r
  end (healthy history e).

(** The container [box2] on the network of [web1], and the request that
    rents it. *)
Definition rent_box2 : ContainerCreateRequestDTO :=
  mkContainerCreateRequestDTO "bob" "box2" (mkDate 2024 1 1) (mkDate 2024 2 1)
    "nginx" "hunter2" (Some "tenant-net") "10.1.0.0/24" "node1" "" "".

(** * Properties *)

Example sha256_abc :
  Hashlib.sha256_hexdigest "abc"
  = "ba7816bf8f01cfea414140de5dae2223b00361a396177a9cb410ff61f20015ad".
Proof. vm_compute. reflexivity. Qed.

Example sha256_empty :
  Hashlib.sha256_hexdigest ""
  = "e3b0c44298fc1c149afbf4c8996fb92427ae41e4649b934ca495991b7852b855".
Proof. vm_compute. reflexivity. Qed.

Example sha256_two_blocks :
  Hashlib.sha256_hexdigest
    "abcdbcdecdefdefgefghfghighijhijkijkljklmklmnlmnomnopnopq"
  = "248d6a61d20638b8e5c026930c3e6039a33ce45964ff2167f6ecedd419db06c1".
Proof. vm_compute. reflexivity. Qed.


(** ** Rollback of a failed provisioning *)

(** C1, on the code: a server rental that has created its flavor and its
    network and then fails, at the creation of the instance or at the commit
    of the RentalRecord, ends without any call that releases the flavor or
    the network; the inventory is as it was.  (With the instance not created
    the handler does not even return its error: reading [floating_ip] raises
    [UnboundLocalError].) *)
Theorem server_rent_failure_releases_nothing :
  let at_instance := server_rent no_instance example_config
                                 rent_web1 (start empty_db) in
  let at_commit := server_rent no_commit example_config
                               rent_web1 (start empty_db) in
  fst at_instance = inl UnboundLocalError
  /\ firstn 2 (trace (snd at_instance))
     = [CreateFlavor "custom.2c4g" "node1" 2 4096 40;
        NetworkIsolation "node1" "tenant-net" "10.1.0.0/24"]
  /\ existsb is_release (trace (snd at_instance)) = false
  /\ persisted (snd at_instance) = empty_db
  /\ fst at_commit = inr (ErrorResponse 500 "백엔드 내부 오류")
  /\ firstn 2 (trace (snd at_commit))
     = [CreateFlavor "custom.2c4g" "node1" 2 4096 40;
        NetworkIsolation "node1" "tenant-net" "10.1.0.0/24"]
  /\ existsb is_release (trace (snd at_commit)) = false
  /\ persisted (snd at_commit) = empty_db.
Proof. vm_compute. repeat split; reflexivity. Qed.

(** The container rental, in the same situation, does release the network
    it created. *)
Example rental_failure_releases_network :
  let failed := rental no_container example_config
                       rent_box1 (start empty_db) in
  fst failed = inr (ErrorResponse 500 "백엔드 내부 오류")
  /\ trace (snd failed)
     = [NetworkIsolation "node1" "tenant-net" "10.1.0.0/24";
        CreateContainer "box1" "node1" "nginx" "tenant-net" "" "";
        NetworkDelete "node1" "tenant-net";
        DeleteContainer "box1" "node1"]
  /\ persisted (snd failed) = empty_db.
Proof. vm_compute. repeat split; reflexivity. Qed.

(** ** Following a handler along its paths *)

Ltac unfold_handler_in H :=
  cbv beta iota zeta delta
    [bind ret raise attempt when select one_or_none one session_change
     session_rollback backend_logger_error add_server add_container add_flavor
     add_network add_node_network delete_server_row delete_container_row
     delete_network_row delete_node_network_row network_of servers_of
     containers_of call session_commit find_server delete_server is_none
     start persisted with_servers with_containers with_flavors with_networks
     with_node_networks negb py_and py_bool sql_and] in H;
  cbn [committed working trace log fst snd app
       servers containers flavors node_flavors networks node_networks
       sc_user_name sc_server_name sc_start_date sc_end_date sc_image_name
       sc_flavor_name sc_vcpus sc_ram sc_disk sc_network_name sc_subnet_cidr
       sc_node_name] in H.

Ltac split_on_match_in H :=
  match type of H with
  | context [match ?x with _ => _ end] =>
      lazymatch x with
      | context [match _ with _ => _ end] => fail
      | _ => let E := fresh "E" in destruct x eqn:E
      end
  end.

(** Every path of the run stated by [H], the ones [H] excludes dropped. *)
Ltac paths H :=
  repeat (first [ discriminate H
                | progress (unfold_handler_in H)
                | split_on_match_in H ]).

Ltac unfold_handler :=
  cbv beta iota zeta delta
    [bind ret raise attempt when select one_or_none one session_change
     session_rollback backend_logger_error add_server add_container add_flavor
     add_network add_node_network delete_server_row delete_container_row
     delete_network_row delete_node_network_row network_of servers_of
     containers_of call session_commit find_server delete_server is_none
     start persisted with_servers with_containers with_flavors with_networks
     with_node_networks negb py_and py_bool sql_and];
  cbn [committed working trace log fst snd app
       servers containers flavors node_flavors networks node_networks
       sc_user_name sc_server_name sc_start_date sc_end_date sc_image_name
       sc_flavor_name sc_vcpus sc_ram sc_disk sc_network_name sc_subnet_cidr
       sc_node_name].

Lemma NoDup_map_eq {A B} (f : A -> B) (l : list A) (x y : A) :
  NoDup (map f l) -> In x l -> In y l -> f x = f y -> x = y.
Proof.
  induction l as [|a l IH]; cbn; intros Hnd Hx Hy Hf; [contradiction|].
  inversion Hnd as [|? ? Hnotin Hnd']; subst.
  destruct Hx as [->|Hx], Hy as [->|Hy]; auto.
  - exfalso. apply Hnotin. rewrite Hf. apply in_map. exact Hy.
  - exfalso. apply Hnotin. rewrite <- Hf. apply in_map. exact Hx.
Qed.

Lemma filter_snoc {A} (p : A -> bool) (l : list A) (x : A) :
  filter p (l ++ [x]) = (filter p l ++ (if p x then [x] else []))%list.
Proof. rewrite filter_app. reflexivity. Qed.

(** ** Duplicate names *)




Lemma rental_created env cfg info d p w' :
  rental env cfg info (start d) = (inr (ApiResponse HTTP_201_CREATED p), w') ->
  filter (fun c => String.eqb (Container.container_name c) (cc_container_name info))
         (containers d) = []
  /\ exists c, Container.container_name c = cc_container_name info
               /\ Container.password c = Hashlib.sha256_hexdigest (cc_password info)
               /\ containers (persisted w') = (containers d ++ [c])%list.
Proof.
  intros H. unfold rental in H. paths H.
  all: inversion H; subst; clear H; cbn;
       (split; [ first [assumption | reflexivity] | eexists; split; [ | split; [ | reflexivity ] ]; reflexivity ]).
Qed.



(** ** The link look-up of [ensure] *)

(** C3, on the code: with the network linked to the requested node and to
    another one, the look-up, which keeps only the condition on the name,
    finds two rows and raises; the server rental then deletes the network
    of the requested node in the cloud and answers 500, and the container
    rental ends with the exception.  The same with a flavor linked to two
    nodes: the flavor is deleted on the requested node. *)
Theorem existing_link_on_two_nodes_raises :
  let server := server_rent healthy example_config rent_web2 (start linked_on_two_nodes) in
  let container := rental healthy example_config rent_box1 (start linked_on_two_nodes) in
  let flavor := server_rent healthy example_config rent_web2 (start flavor_on_two_nodes) in
  In (NodeNetwork.mk "node1" "tenant-net") (node_networks linked_on_two_nodes)
  /\ fst server = inr (ErrorResponse 500 "네트워크 분리 오류")
  /\ trace (snd server) = [NetworkDelete "node1" "tenant-net"]
  /\ log (snd server) = [MultipleResultsFound]
  /\ fst container = inl MultipleResultsFound
  /\ In (NodeFlavor.mk "node1" "m1.small") (node_flavors flavor_on_two_nodes)
  /\ fst flavor = inr (ErrorResponse 500 "커스텀 플레이버 생성 오류")
  /\ trace (snd flavor) = [DeleteFlavor "m1.small" "node1"].
Proof. vm_compute. repeat split; auto. Qed.

(** With the link of the requested node the only link of that name, the
    look-up finds it and nothing is created: the flavor step and the network
    step make no call and insert no link. *)
Example existing_single_link_is_reused :
  let d := mkDb [] [] [Flavor.mk "m1.small" 1 2048 20 true]
                [NodeFlavor.mk "node1" "m1.small"]
                [Network.mk "tenant-net" "10.1.0.0/24" false]
                [NodeNetwork.mk "node1" "tenant-net"] in
  let done := rental healthy example_config rent_box1 (start d) in
  fst done = inr (ApiResponse 201 NoPayload)
  /\ trace (snd done)
     = [CreateContainer "box1" "node1" "nginx" "tenant-net" "" ""; Commit]
  /\ node_networks (persisted (snd done)) = node_networks d.
Proof. vm_compute. repeat split; reflexivity. Qed.

(** ** The expiry sweep *)

Example strictly_before :
  date_ltb (mkDate 2024 1 1) (mkDate 2024 1 2) = true
  /\ date_ltb (mkDate 2024 6 1) (mkDate 2024 1 2) = false
  /\ date_ltb (mkDate 2024 1 2) (mkDate 2024 1 2) = false.
Proof. repeat split. Qed.

(** C5, on the code: the sweep deletes the records and the cloud instances of
    the expired rentals and releases nothing: the flavor and the networks
    that no rental uses any more stay, in the cloud and in the inventory. *)
Theorem sweep_releases_nothing_example :
  let swept := delete_expired_data healthy (mkDate 2024 1 2) (start two_rentals) in
  fst swept = inr tt
  /\ trace (snd swept)
     = [ComputeFindServer "node1" "web1"; NetworkIps "node1" 1;
        NetworkDeleteIp "node1" 11; ComputeDeleteServer "node1" 1;
        DeleteContainer "box1" "node1"; Commit]
  /\ existsb is_release (trace (snd swept)) = false
  /\ servers (persisted (snd swept)) = []
  /\ containers (persisted (snd swept)) = []
  /\ flavors (persisted (snd swept)) = flavors two_rentals
  /\ networks (persisted (snd swept)) = networks two_rentals
  /\ node_networks (persisted (snd swept)) = node_networks two_rentals.
Proof. vm_compute. repeat split; reflexivity. Qed.

(** The return of the same container does release its network. *)
Example container_return_releases_network :
  let returned := container_return healthy
                    (mkContainerReturnRequestDTO "box1" "s3cret") (start two_rentals) in
  fst returned = inr (ApiResponse 200 NoPayload)
  /\ trace (snd returned)
     = [DeleteContainer "box1" "node1"; Commit; NetworkDelete "node1" "box-net"; Commit]
  /\ networks (persisted (snd returned)) = [Network.mk "tenant-net" "10.1.0.0/24" false]
  /\ node_networks (persisted (snd returned)) = [NodeNetwork.mk "node1" "tenant-net"].
Proof. vm_compute. repeat split; reflexivity. Qed.

(** C6, refuted as stated: with two expired servers, the first of which
    cannot be deleted in the cloud, the sweep ends with the exception and the
    second server is not even looked up. *)
Lemma sweep_failure_blocks_the_rest :
  let swept := delete_expired_data web1_unreachable
                                   (mkDate 2024 1 2) (start three_servers) in
  date_ltb (Server.end_date web3) (mkDate 2024 1 2) = true
  /\ fst swept = inl (ProviderError "unavailable")
  /\ existsb (finds "web3") (trace (snd swept)) = false
  /\ persisted (snd swept) = three_servers.
Proof. vm_compute. repeat split; reflexivity. Qed.

(** *** A failure ends the sweep *)

Lemma stops_ret env {A} (x : A) : stops_at_failure env (ret x).
Proof. intros w. cbn. auto. Qed.

Lemma stops_call env (e : event) : stops_at_failure env (call env e).
Proof.
  intros w. unfold call. cbn. split; [reflexivity|].
  destruct (env (trace w) e) as [x|v] eqn:H; [|exact I].
  unfold last_call_failed. exists (trace w), e. split; [reflexivity | left; exact H].
Qed.

Lemma stops_bind env {A B} (m : M A) (k : A -> M B) :
  stops_at_failure env m -> (forall x, stops_at_failure env (k x)) ->
  stops_at_failure env (bind m k).
Proof.
  intros Hm Hk w. unfold bind. specialize (Hm w).
  destruct (m w) as [[e|x] w1]; cbn [fst snd] in *.
  - exact Hm.
  - destruct Hm as [Hc _]. specialize (Hk x w1).
    destruct (k x w1) as [r w2]; cbn [fst snd] in *.
    destruct Hk as [Hc2 Hr]. split; [congruence | exact Hr].
Qed.

Lemma stops_for_each env {A} (l : list A) (body : A -> M unit) :
  (forall x, stops_at_failure env (body x)) ->
  stops_at_failure env (for_each l body).
Proof.
  intros Hbody. induction l as [|x l IH]; cbn [for_each].
  - apply stops_ret.
  - apply stops_bind; [apply Hbody | intros _; exact IH].
Qed.

Lemma stops_session_change env (f : db -> db) : stops_at_failure env (session_change f).
Proof. intros w. cbn. auto. Qed.

Lemma stops_select env {R} (table : db -> list R) (c : clause R) :
  stops_at_failure env (select table c).
Proof. intros w. cbn. auto. Qed.

Lemma bind_call env {B} (e : event) (k : reply e -> M B) (w : world) :
  bind (call env e) k w
  = match env (trace w) e with
    | inl x => (inl x, mkWorld (committed w) (working w) (trace w ++ [e])%list (log w))
    | inr v => k v (mkWorld (committed w) (working w) (trace w ++ [e])%list (log w))
    end.
Proof. unfold bind, call. destruct (env (trace w) e); reflexivity. Qed.

Lemma stops_delete_server env server_name node_name :
  stops_at_failure env (delete_server env server_name node_name).
Proof.
  unfold delete_server. intros w. rewrite bind_call.
  destruct (env (trace w) (ComputeFindServer node_name server_name))
    as [e|found] eqn:Hfind; [|cbn in found; destruct found as [server|]].
  - cbn [fst snd committed]. split; [reflexivity|].
    exists (trace w), (ComputeFindServer node_name server_name).
    split; [reflexivity | left; exact Hfind].
  - match goal with
    | |- context [bind ?m ?k ?w1] =>
        assert (H : stops_at_failure env (bind m k)); [| exact (H w1)]
    end.
    apply stops_bind; [apply stops_call | intros ips].
    apply stops_bind; [| intros _; apply stops_call].
    apply stops_for_each. intros ip. apply stops_call.
  - cbn [fst snd committed raise]. split; [reflexivity|].
    exists (trace w), (ComputeFindServer node_name server_name).
    split; [reflexivity | right]. split; [reflexivity|]. eauto.
Qed.

Lemma fails_cleanly_bind env {A B} (m : M A) (k : A -> M B) :
  stops_at_failure env m -> (forall x, fails_cleanly env (k x)) ->
  fails_cleanly env (bind m k).
Proof.
  intros Hm Hk w. unfold bind. specialize (Hm w).
  destruct (m w) as [[e|x] w1]; cbn [fst snd] in *.
  - exact Hm.
  - destruct Hm as [Hc _]. specialize (Hk x w1).
    destruct (k x w1) as [[e|y] w2]; cbn [fst snd] in *; [|exact I].
    destruct Hk as [Hc2 Hr]. split; [congruence | exact Hr].
Qed.

Lemma fails_cleanly_session_commit env : fails_cleanly env (session_commit env).
Proof.
  intros w. unfold session_commit. rewrite bind_call.
  destruct (env (trace w) Commit) as [e|v] eqn:H; cbn [fst snd committed]; [|exact I].
  split; [reflexivity|]. exists (trace w), Commit. split; [reflexivity | left; exact H].
Qed.

Lemma sweep_fails_cleanly env today : fails_cleanly env (delete_expired_data env today).
Proof.
  unfold delete_expired_data.
  apply fails_cleanly_bind; [apply stops_select | intros expired_servers].
  apply fails_cleanly_bind; [apply stops_select | intros expired_containers].
  apply fails_cleanly_bind.
  - apply stops_for_each. intros server.
    apply stops_bind; [apply stops_session_change | intros _].
    apply stops_delete_server.
  - intros _. apply fails_cleanly_bind; [| intros _; apply fails_cleanly_session_commit].
    apply stops_for_each. intros container.
    apply stops_bind; [apply stops_session_change | intros _; apply stops_call].
Qed.

Lemma all_answered_nil env : all_answered env [].
Proof. intros history ev rest H. destruct history; discriminate H. Qed.

Lemma all_answered_snoc env t ev :
  all_answered env t -> ~ call_failed env t ev -> all_answered env (t ++ [ev]).
Proof.
  intros Ht Hev history ev' rest H.
  destruct rest as [|x rest _] using rev_ind.
  - apply app_inj_tail in H. destruct H as [<- <-]. exact Hev.
  - change (history ++ ev' :: rest ++ [x])%list
      with (history ++ (ev' :: rest) ++ [x])%list in H.
    rewrite app_assoc in H. apply app_inj_tail in H. destruct H as [H _].
    exact (Ht history ev' rest H).
Qed.

(** In a trace that ends with the only call that failed, a call that failed
    is the last one. *)
Lemma failure_is_last env t ev history ev' rest :
  all_answered env t ->
  (t ++ [ev])%list = (history ++ ev' :: rest)%list ->
  call_failed env history ev' ->
  rest = [] /\ history = t /\ ev' = ev.
Proof.
  intros Ht H Hfailed.
  destruct rest as [|x rest _] using rev_ind.
  - apply app_inj_tail in H. destruct H as [-> ->]. auto.
  - exfalso.
    change (history ++ ev' :: rest ++ [x])%list
      with (history ++ (ev' :: rest) ++ [x])%list in H.
    rewrite app_assoc in H. apply app_inj_tail in H. destruct H as [H _].
    exact (Ht history ev' rest H Hfailed).
Qed.

Lemma ends_ret env {A} (x : A) : ends_at_failure env (ret x).
Proof. intros w Hw. exact Hw. Qed.

Lemma ends_bind env {A B} (m : M A) (k : A -> M B) :
  ends_at_failure env m -> (forall x, ends_at_failure env (k x)) ->
  ends_at_failure env (bind m k).
Proof.
  intros Hm Hk w Hw. unfold bind. specialize (Hm w Hw).
  destruct (m w) as [[e|x] w1]; cbn [fst snd] in *.
  - exact Hm.
  - exact (Hk x w1 Hm).
Qed.

Lemma ends_for_each env {A} (l : list A) (body : A -> M unit) :
  (forall x, ends_at_failure env (body x)) ->
  ends_at_failure env (for_each l body).
Proof.
  intros Hbody. induction l as [|x l IH]; cbn [for_each].
  - apply ends_ret.
  - apply ends_bind; [apply Hbody | intros _; exact IH].
Qed.

Lemma ends_session_change env (f : db -> db) : ends_at_failure env (session_change f).
Proof. intros w Hw. exact Hw. Qed.

Lemma ends_select env {R} (table : db -> list R) (c : clause R) :
  ends_at_failure env (select table c).
Proof. intros w Hw. exact Hw. Qed.

(** A call other than the look-up of a server fails only by raising. *)
Lemma ends_call env (e : event) :
  (forall node_name server_name, e <> ComputeFindServer node_name server_name) ->
  ends_at_failure env (call env e).
Proof.
  intros Hother w Hw. unfold call. cbn [fst snd trace].
  destruct (env (trace w) e) as [x|v] eqn:H.
  - exists (trace w), e. split; [reflexivity|]. split; [exact Hw | left; exact H].
  - apply all_answered_snoc; [exact Hw|].
    intros [x [Hx | [_ [node_name [server_name [He _]]]]]].
    + congruence.
    + exact (Hother _ _ He).
Qed.

Lemma ends_delete_server env server_name node_name :
  ends_at_failure env (delete_server env server_name node_name).
Proof.
  unfold delete_server. intros w Hw. rewrite bind_call.
  destruct (env (trace w) (ComputeFindServer node_name server_name))
    as [e|found] eqn:Hfind; [|cbn in found; destruct found as [server|]].
  - cbn [fst snd trace].
    exists (trace w), (ComputeFindServer node_name server_name).
    split; [reflexivity|]. split; [exact Hw | left; exact Hfind].
  - match goal with
    | |- context [bind ?m ?k ?w1] =>
        assert (H : ends_at_failure env (bind m k)); [| apply (H w1)]
    end.
    + apply ends_bind; [apply ends_call; discriminate | intros ips].
      apply ends_bind; [| intros _; apply ends_call; discriminate].
      apply ends_for_each. intros ip.
      apply (ends_call env (NetworkDeleteIp node_name ip)). discriminate.
    + cbn [trace]. apply all_answered_snoc; [exact Hw|].
      intros [x [Hx | [_ [n [s [He Hnone]]]]]].
      * congruence.
      * injection He as <- <-. congruence.
  - cbn [fst snd trace raise].
    exists (trace w), (ComputeFindServer node_name server_name).
    split; [reflexivity|]. split; [exact Hw | right]. split; [reflexivity|]. eauto.
Qed.

Lemma ends_session_commit env : ends_at_failure env (session_commit env).
Proof.
  unfold session_commit. apply ends_bind; [apply ends_call; discriminate|].
  intros _ w Hw. exact Hw.
Qed.

Lemma sweep_ends_at_failure env today :
  ends_at_failure env (delete_expired_data env today).
Proof.
  unfold delete_expired_data.
  apply ends_bind; [apply ends_select | intros expired_servers].
  apply ends_bind; [apply ends_select | intros expired_containers].
  apply ends_bind.
  - apply ends_for_each. intros server.
    apply ends_bind; [apply ends_session_change | intros _].
    apply ends_delete_server.
  - intros _. apply ends_bind; [| intros _; apply ends_session_commit].
    apply ends_for_each. intros container.
    apply ends_bind; [apply ends_session_change | intros _].
    apply (ends_call env (DeleteContainer (Container.container_name container)
                                          (Container.node_name container))).
    discriminate.
Qed.

(** C6, as the code has it: when a call of the sweep fails, that call is the
    last one the sweep makes, so no later record is torn down; the sweep
    ends with the exception of that call, and the inventory is as it was
    before the sweep: no RentalRecord is removed, neither the one that
    failed nor those already torn down in the cloud.  And a sweep that ends
    with an exception has failed at its last call. *)
Theorem sweep_failure_aborts_the_sweep :
  forall (env : environment) today d,
    let swept := delete_expired_data env today (start d) in
    (forall history ev rest,
        trace (snd swept) = (history ++ ev :: rest)%list ->
        call_failed env history ev ->
        rest = []
        /\ (exists e, fst swept = inl e /\ failed_with env history ev e)
        /\ persisted (snd swept) = d)
    /\ (forall e,
          fst swept = inl e ->
          persisted (snd swept) = d /\ last_call_failed env e (snd swept)).
Proof.
  intros env today d swept.
  pose proof (sweep_ends_at_failure env today (start d) (all_answered_nil env)) as Hends.
  pose proof (sweep_fails_cleanly env today (start d)) as Hclean.
  fold swept in Hends, Hclean.
  destruct (fst swept) as [e|[]] eqn:Hresult.
  - destruct Hends as [t [last [Htrace [Ht Hfailed]]]]. split.
    + intros history ev rest Hsplit Hev. rewrite Htrace in Hsplit.
      destruct (failure_is_last env t last history ev rest Ht Hsplit Hev)
        as [-> [-> ->]].
      split; [reflexivity|]. split; [exists e; split; [reflexivity | exact Hfailed]|].
      exact (proj1 Hclean).
    + intros e' He'. injection He' as <-. exact Hclean.
  - split.
    + intros history ev rest Hsplit Hev. exfalso.
      exact (Hends history ev rest Hsplit Hev).
    + intros e He. discriminate He.
Qed.

Lemma sweep_failure_aborts_the_sweep_witness :
  (let swept := delete_expired_data web3_unreachable
                                    (mkDate 2024 1 2) (start three_servers) in
   let history := [ComputeFindServer "node1" "web1"; NetworkIps "node1" 1;
                   NetworkDeleteIp "node1" 11; ComputeDeleteServer "node1" 1] in
   (exists e, fst swept = inl e
              /\ failed_with web3_unreachable history
                             (ComputeFindServer "node2" "web3") e)
   /\ persisted (snd swept) = three_servers)
  /\ (let swept := delete_expired_data web1_unreachable
                                       (mkDate 2024 1 2) (start three_servers) in
      persisted (snd swept) = three_servers
      /\ last_call_failed web1_unreachable
                          (ProviderError "unavailable") (snd swept)).
Proof.
  split.
  - intros swept history.
    apply (proj1 (sweep_failure_aborts_the_sweep web3_unreachable
                    (mkDate 2024 1 2) three_servers)
                 history (ComputeFindServer "node2" "web3") []).
    + vm_compute. reflexivity.
    + exists (ProviderError "unavailable"). left. reflexivity.
  - apply (proj2 (sweep_failure_aborts_the_sweep web1_unreachable
                    (mkDate 2024 1 2) three_servers)
                 (ProviderError "unavailable")).
    vm_compute. reflexivity.
Defined.

(** *** What a sweep that goes through reclaims *)

Lemma bind_returns {A B} (m : M A) (k : A -> M B) (w w1 : world) (x : A) :
  m w = (inr x, w1) -> bind m k w = k x w1.
Proof. intros H. unfold bind. rewrite H. reflexivity. Qed.

Lemma filter_filter {A} (p q : A -> bool) (l : list A) :
  filter p (filter q l) = filter (fun x => q x && p x) l.
Proof.
  induction l as [|a l IH]; cbn; [reflexivity|].
  destruct (q a); cbn; [destruct (p a)|]; rewrite IH; reflexivity.
Qed.

Lemma filter_true {A} (l : list A) : filter (fun _ => true) l = l.
Proof. induction l as [|a l IH]; cbn; [|rewrite IH]; reflexivity. Qed.

Lemma call_returns env (e : event) (w : world) :
  never_fails env ->
  exists v, call env e w
            = (inr v, mkWorld (committed w) (working w) (trace w ++ [e])%list (log w)).
Proof.
  intros [Hnf _]. destruct (Hnf (trace w) e) as [v Hv].
  exists v. unfold call. rewrite Hv. reflexivity.
Qed.

Lemma delete_ips_return env node_name (ips : list Z) (w : world) :
  never_fails env ->
  for_each ips (fun floating_ip => call env (NetworkDeleteIp node_name floating_ip)) w
  = (inr tt, mkWorld (committed w) (working w)
                     (trace w ++ map (NetworkDeleteIp node_name) ips)%list (log w)).
Proof.
  intros Hnf. revert w. induction ips as [|ip ips IH]; intros w; cbn [for_each map].
  - rewrite app_nil_r. destruct w; reflexivity.
  - destruct (call_returns env (NetworkDeleteIp node_name ip) w Hnf) as [v Hv].
    rewrite (bind_returns _ _ _ _ _ Hv), IH. cbn [committed working trace log].
    rewrite <- app_assoc. reflexivity.
Qed.

(** In such an environment [delete_server] returns, having looked the server
    up and deleted it, and nothing else of what the sweep counts. *)
Lemma delete_server_returns env server_name node_name (w : world) :
  never_fails env ->
  exists t,
    delete_server env server_name node_name w
    = (inr tt, mkWorld (committed w) (working w)
                       (trace w ++ ComputeFindServer node_name server_name :: t)%list
                       (log w))
    /\ servers_looked_up t = []
    /\ List.length (filter is_compute_delete_server t) = 1%nat
    /\ containers_deleted t = [].
Proof.
  intros Hnf. unfold delete_server. rewrite bind_call.
  destruct (env (trace w) (ComputeFindServer node_name server_name))
    as [e|found] eqn:Hfind.
  { destruct (proj1 Hnf (trace w) (ComputeFindServer node_name server_name)) as [v Hv].
    congruence. }
  cbn in found. destruct found as [server|].
  2:{ exfalso. exact (proj2 Hnf _ _ _ Hfind). }
  set (w1 := mkWorld (committed w) (working w)
                     (trace w ++ [ComputeFindServer node_name server_name])%list (log w)).
  destruct (call_returns env (NetworkIps node_name (os_id server)) w1 Hnf) as [ips Hips].
  rewrite (bind_returns _ _ _ _ _ Hips).
  match goal with
  | |- context [bind (for_each ?l ?f) ?k ?w2] =>
      rewrite (bind_returns (for_each l f) k w2 _ tt (delete_ips_return env _ l w2 Hnf))
  end.
  cbn [committed working trace log w1].
  match goal with
  | |- context [call env ?e ?w3] =>
      destruct (call_returns env e w3 Hnf) as [[] Hdel]; rewrite Hdel
  end.
  cbn [committed working trace log] in *.
  exists (NetworkIps node_name (os_id server)
          :: map (NetworkDeleteIp node_name) ips
          ++ [ComputeDeleteServer node_name (os_id server)])%list.
  split; [|split; [|split]].
  - repeat rewrite <- app_assoc. reflexivity.
  - cbn. clear. induction ips as [|ip ips IH]; cbn; auto.
  - cbn. clear. induction ips as [|ip ips IH]; cbn; auto.
  - cbn. clear. induction ips as [|ip ips IH]; cbn; auto.
Qed.

Lemma with_servers_twice (p q : Server.t -> bool) (d : db) :
  with_servers (filter p) (with_servers (filter q) d)
  = with_servers (filter (fun x => q x && p x)) d.
Proof. unfold with_servers. cbn. rewrite filter_filter. reflexivity. Qed.

Lemma with_containers_twice (p q : Container.t -> bool) (d : db) :
  with_containers (filter p) (with_containers (filter q) d)
  = with_containers (filter (fun x => q x && p x)) d.
Proof. unfold with_containers. cbn. rewrite filter_filter. reflexivity. Qed.

Lemma with_servers_ext (p q : Server.t -> bool) (d : db) :
  (forall x, p x = q x) -> with_servers (filter p) d = with_servers (filter q) d.
Proof. intros H. unfold with_servers. rewrite (filter_ext p q H). reflexivity. Qed.

Lemma with_containers_ext (p q : Container.t -> bool) (d : db) :
  (forall x, p x = q x) -> with_containers (filter p) d = with_containers (filter q) d.
Proof. intros H. unfold with_containers. rewrite (filter_ext p q H). reflexivity. Qed.

(** The first loop of the sweep: the rows of the servers of [l] go, each
    server is looked up and deleted. *)
Lemma sweep_servers_return env (l : list Server.t) (w : world) :
  never_fails env ->
  exists t,
    for_each l (fun server =>
      delete_server_row server ;;
      delete_server env (Server.server_name server) (Server.node_name server)) w
    = (inr tt,
       mkWorld (committed w)
               (with_servers
                  (filter (fun r => negb (existsb (fun s => Server.id r =? Server.id s) l)))
                  (working w))
               (trace w ++ t)%list (log w))
    /\ servers_looked_up t = map (fun s => (Server.server_name s, Server.node_name s)) l
    /\ List.length (filter is_compute_delete_server t) = List.length l
    /\ containers_deleted t = [].
Proof.
  intros Hnf. revert w. induction l as [|s l IH]; intros w; cbn [for_each].
  - exists []. cbn. rewrite app_nil_r. unfold with_servers. rewrite filter_true.
    destruct w as [c [? ? ? ? ? ?] t lg]; auto.
  - unfold bind at 1. unfold bind at 1. unfold delete_server_row at 1.
    cbn [session_change].
    match goal with
    | |- context [delete_server env ?n ?nd ?w1] =>
        destruct (delete_server_returns env n nd w1 Hnf) as [t1 [Hrun [H1 [H2 H3]]]];
        rewrite Hrun
    end.
    cbn [committed working trace log] in *.
    match goal with
    | |- context [for_each l ?f ?w2] => destruct (IH w2) as [t2 [Hrest [H4 [H5 H6]]]]
    end.
    rewrite Hrest. cbn [committed working trace log].
    exists (ComputeFindServer (Server.node_name s) (Server.server_name s) :: t1 ++ t2)%list.
    split; [|split; [|split]].
    + rewrite with_servers_twice, <- app_assoc. cbn [app existsb].
      erewrite with_servers_ext; [reflexivity|].
      intros r. cbv beta. rewrite negb_orb. reflexivity.
    + cbn. unfold servers_looked_up in *. rewrite flat_map_app, H1, H4. reflexivity.
    + cbn. rewrite filter_app, length_app, H2, H5. reflexivity.
    + cbn. unfold containers_deleted in *. rewrite flat_map_app, H3, H6. reflexivity.
Qed.

(** The second loop: the rows of the containers of [l] go, each container is
    deleted. *)
Lemma sweep_containers_return env (l : list Container.t) (w : world) :
  never_fails env ->
  exists t,
    for_each l (fun container =>
      delete_container_row container ;;
      call env (DeleteContainer (Container.container_name container)
                                (Container.node_name container))) w
    = (inr tt,
       mkWorld (committed w)
               (with_containers
                  (filter (fun r => negb (existsb (fun c => Container.id r =? Container.id c) l)))
                  (working w))
               (trace w ++ t)%list (log w))
    /\ servers_looked_up t = []
    /\ filter is_compute_delete_server t = []
    /\ containers_deleted t
       = map (fun c => (Container.container_name c, Container.node_name c)) l.
Proof.
  intros Hnf. revert w. induction l as [|c l IH]; intros w; cbn [for_each].
  - exists []. cbn. rewrite app_nil_r. unfold with_containers. rewrite filter_true.
    destruct w as [cm [? ? ? ? ? ?] t lg]; auto.
  - unfold bind at 1. unfold bind at 1. unfold delete_container_row at 1.
    cbn [session_change].
    match goal with
    | |- context [call env ?e ?w1] =>
        destruct (call_returns env e w1 Hnf) as [[] Hrun]; rewrite Hrun
    end.
    cbn [committed working trace log] in *.
    match goal with
    | |- context [for_each l ?f ?w2] => destruct (IH w2) as [t2 [Hrest [H4 [H5 H6]]]]
    end.
    rewrite Hrest. cbn [committed working trace log].
    exists (DeleteContainer (Container.container_name c) (Container.node_name c) :: t2).
    split; [|split; [|split]].
    + rewrite with_containers_twice, <- app_assoc. cbn [app existsb].
      erewrite with_containers_ext; [reflexivity|].
      intros r. cbv beta. rewrite negb_orb. reflexivity.
    + cbn. exact H4.
    + cbn. exact H5.
    + cbn. unfold containers_deleted in *. rewrite H6. reflexivity.
Qed.

(** With unique keys, the rows whose key is not the key of a selected row
    are the rows that are not selected. *)
Lemma rows_not_selected {A} (key : A -> Z) (selected : A -> bool) (rows : list A) :
  NoDup (map key rows) ->
  filter (fun r => negb (existsb (fun s => key r =? key s) (filter selected rows))) rows
  = filter (fun r => negb (selected r)) rows.
Proof.
  intros Hnd. apply filter_ext_in. intros r Hr. f_equal.
  destruct (selected r) eqn:Hsel.
  - apply existsb_exists. exists r. split; [|apply Z.eqb_refl].
    apply (proj2 (filter_In selected r rows)). auto.
  - destruct (existsb _ _) eqn:Hex; [|reflexivity].
    apply existsb_exists in Hex. destruct Hex as [x [Hx Hkey]].
    apply (proj1 (filter_In selected x rows)) in Hx. destruct Hx as [Hx Hselx].
    apply Z.eqb_eq in Hkey.
    assert (r = x) by (eapply NoDup_map_eq; eauto). subst x. congruence.
Qed.

Lemma sweep_returns env today d :
  never_fails env ->
  let expired_servers :=
    filter (fun s => date_ltb (Server.end_date s) today) (servers d) in
  let expired_containers :=
    filter (fun c => date_ltb (Container.end_date c) today) (containers d) in
  let left :=
    with_containers
      (filter (fun r => negb (existsb (fun c => Container.id r =? Container.id c)
                                      expired_containers)))
      (with_servers
         (filter (fun r => negb (existsb (fun s => Server.id r =? Server.id s)
                                         expired_servers)))
         d) in
  exists t1 t2,
    delete_expired_data env today (start d)
    = (inr tt, mkWorld left left (t1 ++ t2 ++ [Commit])%list [])
    /\ servers_looked_up t1
       = map (fun s => (Server.server_name s, Server.node_name s)) expired_servers
    /\ List.length (filter is_compute_delete_server t1) = List.length expired_servers
    /\ containers_deleted t1 = []
    /\ servers_looked_up t2 = []
    /\ filter is_compute_delete_server t2 = []
    /\ containers_deleted t2
       = map (fun c => (Container.container_name c, Container.node_name c))
             expired_containers.
Proof.
  intros Hnf expired_servers expired_containers left.
  destruct (sweep_servers_return env expired_servers (start d) Hnf)
    as [t1 [Hrun1 [Ha [Hb Hc]]]].
  cbn [start committed working trace log app] in Hrun1.
  match type of Hrun1 with
  | _ = (_, ?w1) =>
      destruct (sweep_containers_return env expired_containers w1 Hnf)
        as [t2 [Hrun2 [Hd [He Hf]]]]
  end.
  cbn [committed working trace log] in Hrun2.
  exists t1, t2. split; [|auto 10].
  unfold delete_expired_data.
  unfold bind at 1. unfold select at 1. cbn [start working].
  unfold bind at 1. unfold select at 1. cbn [start working].
  fold expired_servers. fold expired_containers.
  change (mkWorld d d [] []) with (start d).
  rewrite (bind_returns _ _ _ _ _ Hrun1).
  rewrite (bind_returns _ _ _ _ _ Hrun2).
  unfold session_commit. rewrite bind_call. cbn [committed working trace log].
  destruct (proj1 Hnf (t1 ++ t2)%list Commit) as [v Hv]. rewrite Hv.
  rewrite <- app_assoc. reflexivity.
Qed.

(** C7: when no call fails, the sweep returns, and it has reclaimed exactly
    the rentals whose end date is strictly before [today]: their records are
    gone and the others are as they were, the servers looked up and deleted
    in the cloud are the expired servers, the containers deleted the expired
    containers.  A record whose end date is [today] or later stays. *)
Theorem sweep_reclaims_exactly_the_expired :
  forall (env : environment) today d,
    never_fails env ->
    NoDup (map Server.id (servers d)) ->
    NoDup (map Container.id (containers d)) ->
    let swept := delete_expired_data env today (start d) in
    let expired_servers :=
      filter (fun s => date_ltb (Server.end_date s) today) (servers d) in
    let expired_containers :=
      filter (fun c => date_ltb (Container.end_date c) today) (containers d) in
    fst swept = inr tt
    /\ servers (persisted (snd swept))
       = filter (fun s => negb (date_ltb (Server.end_date s) today)) (servers d)
    /\ containers (persisted (snd swept))
       = filter (fun c => negb (date_ltb (Container.end_date c) today)) (containers d)
    /\ servers_looked_up (trace (snd swept))
       = map (fun s => (Server.server_name s, Server.node_name s)) expired_servers
    /\ List.length (filter is_compute_delete_server (trace (snd swept)))
       = List.length expired_servers
    /\ containers_deleted (trace (snd swept))
       = map (fun c => (Container.container_name c, Container.node_name c))
             expired_containers.
Proof.
  intros env today d Hnf Hservers Hcontainers swept expired_servers expired_containers.
  destruct (sweep_returns env today d Hnf)
    as [t1 [t2 [Hrun [Ha [Hb [Hc [Hd [He Hf]]]]]]]].
  subst swept. rewrite Hrun.
  cbn [fst snd persisted committed working trace log
       servers containers with_servers with_containers].
  split; [reflexivity|].
  split; [apply rows_not_selected; exact Hservers|].
  split; [apply rows_not_selected; exact Hcontainers|].
  unfold servers_looked_up, containers_deleted in *.
  repeat rewrite flat_map_app. repeat rewrite filter_app. repeat rewrite length_app.
  fold expired_servers. fold expired_containers.
  rewrite Ha, Hb, Hc, Hd, He, Hf. cbn. repeat rewrite app_nil_r.
  repeat split. subst expired_servers. apply Nat.add_0_r.
Qed.

Lemma sweep_reclaims_exactly_the_expired_witness :
  let swept := delete_expired_data healthy (mkDate 2024 1 2) (start three_servers) in
  fst swept = inr tt
  /\ servers (persisted (snd swept)) = [web4]
  /\ containers (persisted (snd swept)) = []
  /\ servers_looked_up (trace (snd swept)) = [("web1", "node1"); ("web3", "node2")]
  /\ List.length (filter is_compute_delete_server (trace (snd swept))) = 2%nat
  /\ containers_deleted (trace (snd swept)) = [].
Proof.
  apply (sweep_reclaims_exactly_the_expired healthy (mkDate 2024 1 2) three_servers).
  - split.
    + intros history e. destruct e; cbn; eauto.
    + intros history node_name server_name. cbn. discriminate.
  - cbn. repeat constructor; cbn; intuition discriminate.
  - cbn. constructor.
Defined.

(** ** Reclaiming what the cloud no longer has *)

(** C8, refuted as stated: the return of a server whose instance is not in
    the cloud is answered 500 and the record is still in the inventory. *)
Lemma server_return_of_absent_instance_fails :
  let returned := server_return (without_server (String.eqb "web1") healthy) example_config
                    "web1" "203.0.113.5" "" "" (start two_rentals) in
  fst returned = inr (ErrorResponse 500 "백엔드 내부 오류")
  /\ log (snd returned) = [AttributeError]
  /\ servers (persisted (snd returned)) = [web1].
Proof. vm_compute. repeat split; reflexivity. Qed.

(** C8, as the code has it: [delete_server] raises [AttributeError] when the
    cloud does not find the server, and the return of a server whose instance
    is not in the cloud is answered 500, with that exception logged and the
    inventory as it was: the RentalRecord stays. *)
Theorem reclaim_of_absent_instance_fails :
  (forall (env : environment) server_name node_name w,
      env (trace w) (ComputeFindServer node_name server_name) = inr None ->
      delete_server env server_name node_name w
      = (inl AttributeError,
         mkWorld (committed w) (working w)
                 (trace w ++ [ComputeFindServer node_name server_name]) (log w)))
  /\ (forall (env : environment) cfg d s server_name host_ip password key_file,
      filter (fun r => String.eqb (Server.server_name r) server_name) (servers d) = [s] ->
      env [] (ValidateSshKey host_ip server_name key_file password) = inr true ->
      env [ValidateSshKey host_ip server_name key_file password]
          (ComputeFindServer (Server.node_name s) server_name) = inr None ->
      server_return env cfg server_name host_ip password key_file (start d)
      = (inr (ErrorResponse HTTP_500_INTERNAL_SERVER_ERROR "백엔드 내부 오류"),
         mkWorld d d
                 [ValidateSshKey host_ip server_name key_file password;
                  ComputeFindServer (Server.node_name s) server_name]
                 [AttributeError])).
Proof.
  split.
  - intros env server_name node_name w H.
    unfold delete_server. unfold_handler. rewrite H. reflexivity.
  - intros env cfg d s server_name host_ip password key_file Hrow Hvalid Habsent.
    unfold server_return. unfold_handler.
    rewrite Hvalid. unfold_handler. rewrite Hrow. unfold_handler.
    rewrite Habsent. reflexivity.
Qed.

Lemma reclaim_of_absent_instance_fails_witness :
  delete_server (without_server (String.eqb "web1") healthy) "web1" "node1"
                (start two_rentals)
  = (inl AttributeError,
     mkWorld two_rentals two_rentals [ComputeFindServer "node1" "web1"] [])
  /\ server_return (without_server (String.eqb "web1") healthy) example_config
                   "web1" "203.0.113.5" "" "" (start two_rentals)
     = (inr (ErrorResponse HTTP_500_INTERNAL_SERVER_ERROR "백엔드 내부 오류"),
        mkWorld two_rentals two_rentals
                [ValidateSshKey "203.0.113.5" "web1" "" "";
                 ComputeFindServer "node1" "web1"]
                [AttributeError]).
Proof.
  split.
  - apply (proj1 reclaim_of_absent_instance_fails
                 (without_server (String.eqb "web1") healthy)
                 "web1" "node1" (start two_rentals)).
    reflexivity.
  - apply (proj2 reclaim_of_absent_instance_fails
                 (without_server (String.eqb "web1") healthy) example_config
                 two_rentals web1 "web1" "203.0.113.5" "" "");
      reflexivity.
Defined.

(** ** Extending a rental *)

Lemma Forall2_map_same {A} (R : A -> A -> Prop) (f : A -> A) (l : list A) :
  (forall x, In x l -> R x (f x)) -> Forall2 R l (map f l).
Proof.
  induction l as [|a l IH]; cbn; intros H; constructor.
  - apply H. now left.
  - apply IH. intros x Hx. apply H. now right.
Qed.

Lemma filter_singleton {A} (p : A -> bool) (l : list A) (x : A) :
  filter p l = [x] ->
  In x l /\ p x = true /\ (forall y, In y l -> p y = true -> y = x).
Proof.
  intros H.
  assert (Hx : In x (filter p l)) by (rewrite H; now left).
  apply (proj1 (filter_In p x l)) in Hx. destruct Hx as [Hin Hp].
  repeat split; auto.
  intros y Hy Hpy.
  assert (Hy' : In y (filter p l)) by (apply (proj2 (filter_In p y l)); auto).
  rewrite H in Hy'. destruct Hy' as [<-|[]]. reflexivity.
Qed.

Lemma set_end_date_only d r : only_end_date_differs r (Server.set_end_date d r).
Proof. repeat split. Qed.

Lemma only_end_date_differs_refl r : only_end_date_differs r r.
Proof. repeat split. Qed.

(** The rows after a renewal of the row [s], the only one named
    [server_name], are the rows before it with that one end date changed. *)
Lemma renewed_rows (rows : list Server.t) (s : Server.t) server_name new_end_date :
  NoDup (map Server.id rows) ->
  filter (fun r => String.eqb (Server.server_name r) server_name) rows = [s] ->
  Forall2 (fun r r' =>
             only_end_date_differs r r'
             /\ Server.end_date r'
                = if String.eqb (Server.server_name r) server_name
                  then new_end_date else Server.end_date r)
          rows
          (map (fun r => if Server.id r =? Server.id s
                         then Server.set_end_date new_end_date r else r) rows).
Proof.
  intros Hnd Hs.
  destruct (filter_singleton _ _ _ Hs) as [Hin [Hname Honly]].
  cbv beta in Hname.
  apply Forall2_map_same. intros x Hx.
  destruct (Server.id x =? Server.id s) eqn:Hid.
  - apply Z.eqb_eq in Hid.
    assert (x = s) by (eapply NoDup_map_eq; eauto). subst x.
    rewrite Hname. split; [apply set_end_date_only | reflexivity].
  - split; [apply only_end_date_differs_refl|].
    destruct (String.eqb (Server.server_name x) server_name) eqn:Hx'; [|reflexivity].
    rewrite (Honly x Hx Hx'), Z.eqb_refl in Hid. discriminate.
Qed.

Lemma server_renew_contract :
  extend_contract server_renew
    (ErrorResponse HTTP_500_INTERNAL_SERVER_ERROR "백엔드 내부 오류").
Proof.
  intros env parse d server_name host_ip end_date password key_file result.
  split.
  - intros Hnd H. subst result.
    destruct (server_renew _ _ _ _ _ _ _ _) as [r w'] eqn:Hrun.
    cbn [fst snd] in *. subst r.
    unfold server_renew in Hrun. paths Hrun.
    all: inversion Hrun; subst; clear Hrun; cbn.
    all: eexists; split; [first [eassumption | reflexivity]|].
    all: split; [apply renewed_rows; assumption | repeat split].
  - intros Hnone. subst result. unfold server_renew. unfold_handler.
    destruct (env [] _) as [e|[|]] eqn:Hvalid; unfold_handler.
    + split; [reflexivity | discriminate].
    + rewrite Hnone. unfold_handler. split; [reflexivity | reflexivity].
    + split; [reflexivity | discriminate].
Qed.

Lemma db_server_renew_contract :
  extend_contract db_server_renew
    (ApiResponse HTTP_500_INTERNAL_SERVER_ERROR (Text "예외 상황 발생")).
Proof.
  intros env parse d server_name host_ip end_date password key_file result.
  split.
  - intros Hnd H. subst result.
    destruct (db_server_renew _ _ _ _ _ _ _ _) as [r w'] eqn:Hrun.
    cbn [fst snd] in *. subst r.
    unfold db_server_renew in Hrun. paths Hrun.
    all: inversion Hrun; subst; clear Hrun; cbn.
    all: eexists; split; [first [eassumption | reflexivity]|].
    all: split; [apply renewed_rows; assumption | repeat split].
  - intros Hnone. subst result. unfold db_server_renew. unfold_handler.
    destruct (env [] _) as [e|[|]] eqn:Hvalid; unfold_handler.
    + split; [reflexivity | discriminate].
    + rewrite Hnone. unfold_handler. split; [reflexivity | reflexivity].
    + split; [reflexivity | discriminate].
Qed.

(** C9: a renewal that succeeds changes, in the whole inventory, nothing but
    the end date of the server of that name; with no server of that name it
    changes nothing and, the key being valid, answers with the handler's
    error, the exception being [NoResultFound].  For the handler of
    [server_router.py] and for the one of [db_router.py]. *)
Theorem extend_changes_only_the_end_date :
  extend_contract server_renew
    (ErrorResponse HTTP_500_INTERNAL_SERVER_ERROR "백엔드 내부 오류")
  /\ extend_contract db_server_renew
       (ApiResponse HTTP_500_INTERNAL_SERVER_ERROR (Text "예외 상황 발생"))
  /\ (forall (env : environment) parse d server_name host_ip end_date password key_file,
         filter (fun r => String.eqb (Server.server_name r) server_name) (servers d) = [] ->
         env [] (ValidateSshKey host_ip server_name key_file password) = inr true ->
         log (snd (server_renew env parse server_name host_ip end_date password key_file
                                (start d)))
         = [NoResultFound]).
Proof.
  split; [exact server_renew_contract|].
  split; [exact db_server_renew_contract|].
  intros env parse d server_name host_ip end_date password key_file Hnone Hvalid.
  unfold server_renew. unfold_handler. rewrite Hvalid. unfold_handler.
  rewrite Hnone. reflexivity.
Qed.

Lemma extend_changes_only_the_end_date_witness :
  (let result := server_renew healthy plain_date_of_string
                   "web1" "203.0.113.5" "2024-03-31" "" "" (start two_rentals) in
   exists new_end_date,
     plain_date_of_string "2024-03-31" = inr new_end_date
     /\ Forall2 (fun r r' =>
                   only_end_date_differs r r'
                   /\ Server.end_date r'
                      = if String.eqb (Server.server_name r) "web1"
                        then new_end_date else Server.end_date r)
                (servers two_rentals) (servers (persisted (snd result)))
     /\ containers (persisted (snd result)) = containers two_rentals
     /\ flavors (persisted (snd result)) = flavors two_rentals
     /\ node_flavors (persisted (snd result)) = node_flavors two_rentals
     /\ networks (persisted (snd result)) = networks two_rentals
     /\ node_networks (persisted (snd result)) = node_networks two_rentals)
  /\ (let result := server_renew healthy plain_date_of_string
                      "web9" "203.0.113.5" "2024-03-31" "" "" (start two_rentals) in
      persisted (snd result) = two_rentals
      /\ fst result = inr (ErrorResponse HTTP_500_INTERNAL_SERVER_ERROR "백엔드 내부 오류"))
  /\ log (snd (server_renew healthy plain_date_of_string
                 "web9" "203.0.113.5" "2024-03-31" "" "" (start two_rentals)))
     = [NoResultFound].
Proof.
  split; [|split].
  - apply (proj1 (proj1 extend_changes_only_the_end_date healthy plain_date_of_string
                        two_rentals "web1" "203.0.113.5" "2024-03-31" "" "")).
    + repeat constructor. cbn. intros [].
    + vm_compute. reflexivity.
  - destruct (proj2 (proj1 extend_changes_only_the_end_date healthy plain_date_of_string
                           two_rentals "web9" "203.0.113.5" "2024-03-31" "" ""))
      as [Hsame Hanswer].
    + reflexivity.
    + split; [exact Hsame | apply Hanswer; reflexivity].
  - apply (proj2 (proj2 extend_changes_only_the_end_date)); reflexivity.
Defined.

(** ** The credential of a container *)

Lemma sha256_hexdigest_length (s : string) :
  String.length (Hashlib.sha256_hexdigest s) = 64%nat.
Proof. reflexivity. Qed.

(** C10: a container return whose password does not hash to the stored
    credential is answered 400 with no call made and nothing changed; and a
    container rental that succeeds has stored, as the credential of the new
    record, the SHA-256 hex digest of the password of the request, which has
    64 characters, so is not the password unless that has 64. *)
Theorem container_credential_is_checked_and_hashed :
  (forall (env : environment) d container_info c,
      filter (fun r => String.eqb (Container.container_name r)
                                  (cr_container_name container_info))
             (containers d) = [c] ->
      Hashlib.sha256_hexdigest (cr_password container_info) <> Container.password c ->
      container_return env container_info (start d)
      = (inr (ErrorResponse HTTP_400_BAD_REQUEST "비밀번호가 맞지 않습니다."), start d))
  /\ (forall (env : environment) cfg container_info d p w',
      rental env cfg container_info (start d)
      = (inr (ApiResponse HTTP_201_CREATED p), w') ->
      exists c,
        containers (persisted w') = (containers d ++ [c])%list
        /\ Container.container_name c = cc_container_name container_info
        /\ Container.password c = Hashlib.sha256_hexdigest (cc_password container_info)
        /\ String.length (Container.password c) = 64%nat
        /\ (String.length (cc_password container_info) <> 64%nat ->
            Container.password c <> cc_password container_info)).
Proof.
  split.
  - intros env d container_info c Hrow Hdiff.
    unfold container_return. unfold_handler. rewrite Hrow. unfold_handler.
    destruct (String.eqb_spec (Hashlib.sha256_hexdigest (cr_password container_info))
                              (Container.password c)) as [Heq|Hne].
    + contradiction.
    + reflexivity.
  - intros env cfg container_info d p w' Hrun.
    destruct (rental_created _ _ _ _ _ _ Hrun) as [_ [c [Hname [Hpass Hrows]]]].
    exists c. repeat split; auto.
    + rewrite Hpass. apply sha256_hexdigest_length.
    + intros Hlen Heq. apply Hlen. rewrite <- Heq, Hpass.
      apply sha256_hexdigest_length.
Qed.

Lemma container_credential_is_checked_and_hashed_witness :
  container_return healthy (mkContainerReturnRequestDTO "box1" "guess") (start two_rentals)
  = (inr (ErrorResponse HTTP_400_BAD_REQUEST "비밀번호가 맞지 않습니다."),
     start two_rentals)
  /\ exists c,
       containers (persisted (snd (rental healthy example_config rent_box1
                                          (start empty_db))))
       = (containers empty_db ++ [c])%list
       /\ Container.container_name c = "box1"
       /\ Container.password c = Hashlib.sha256_hexdigest "s3cret"
       /\ String.length (Container.password c) = 64%nat
       /\ (String.length "s3cret" <> 64%nat -> Container.password c <> "s3cret").
Proof.
  split.
  - apply (proj1 container_credential_is_checked_and_hashed healthy two_rentals
                 (mkContainerReturnRequestDTO "box1" "guess") box1).
    + reflexivity.
    + vm_compute. discriminate.
  - apply (proj2 container_credential_is_checked_and_hashed healthy example_config
                 rent_box1 empty_db NoPayload).
    vm_compute. reflexivity.
Defined.

(** ** What is never deleted *)

Section Keeps.

Variable env : environment.
Variable safe : event -> bool.
Variable I : db -> Prop.

Lemma keeps_weaken {A} (m : M A) (Q Q' : A -> Prop) :
  keeps safe I m Q -> (forall x, Q x -> Q' x) -> keeps safe I m Q'.
Proof. intros H HQ w Hw. destruct (H w Hw) as [H1 H2]. split; auto. Qed.

Lemma keeps_ret {A} (x : A) (Q : A -> Prop) : Q x -> keeps safe I (ret x) Q.
Proof. intros HQ w Hw. cbn. split; [exact Hw|]. intros y [= <-]. exact HQ. Qed.

Lemma keeps_raise {A} (e : exn) (Q : A -> Prop) : keeps safe I (raise e) Q.
Proof. intros w Hw. cbn. split; [exact Hw | discriminate]. Qed.

Lemma keeps_bind {A B} (m : M A) (k : A -> M B) (Q1 : A -> Prop) (Q : B -> Prop) :
  keeps safe I m Q1 -> (forall x, Q1 x -> keeps safe I (k x) Q) ->
  keeps safe I (bind m k) Q.
Proof.
  intros Hm Hk w Hw. unfold bind. destruct (Hm w Hw) as [H1 H2].
  destruct (m w) as [[e|x] w1]; cbn [fst snd] in *.
  - split; [exact H1 | discriminate].
  - exact (Hk x (H2 x eq_refl) w1 H1).
Qed.

Lemma keeps_then {A B} (m : M A) (k : A -> M B) (Q : B -> Prop) :
  keeps safe I m (fun _ => True) -> (forall x, keeps safe I (k x) Q) ->
  keeps safe I (bind m k) Q.
Proof. intros Hm Hk. apply keeps_bind with (Q1 := fun _ => True); auto. Qed.

Lemma keeps_attempt {A} (m : M A) (Q : A -> Prop) :
  keeps safe I m Q ->
  keeps safe I (attempt m) (fun r => match r with inl _ => True | inr x => Q x end).
Proof.
  intros Hm w Hw. unfold attempt. destruct (Hm w Hw) as [H1 H2].
  destruct (m w) as [[e|x] w1]; cbn [fst snd] in *; split; auto.
  - intros y [= <-]. exact Logic.I.
  - intros y [= <-]. auto.
Qed.

Lemma keeps_for_each {A} (l : list A) (body : A -> M unit) :
  (forall x, In x l -> keeps safe I (body x) (fun _ => True)) ->
  keeps safe I (for_each l body) (fun _ => True).
Proof.
  induction l as [|x l IH]; intros H; cbn [for_each].
  - apply keeps_ret. exact Logic.I.
  - apply keeps_then; [apply H; now left|]. intros _. apply IH.
    intros y Hy. apply H. now right.
Qed.

Lemma keeps_when (b : bool) (m : M unit) :
  (b = true -> keeps safe I m (fun _ => True)) ->
  keeps safe I (when b m) (fun _ => True).
Proof.
  intros H. destruct b; cbn [when]; [auto | apply keeps_ret; exact Logic.I].
Qed.

Lemma keeps_call (e : event) :
  safe e = true -> keeps safe I (call env e) (fun _ => True).
Proof.
  intros He w [Ht [Hw Hc]]. unfold call. cbn [fst snd]. split; [|auto].
  split; [|split]; cbn [trace working committed]; auto.
  rewrite forallb_app, Ht. cbn. rewrite He. reflexivity.
Qed.

Lemma keeps_change (f : db -> db) :
  (forall d, I d -> I (f d)) -> keeps safe I (session_change f) (fun _ => True).
Proof.
  intros Hf w [Ht [Hw Hc]]. unfold session_change, inv.
  cbn [fst snd trace working committed]. auto.
Qed.

Lemma keeps_rollback : keeps safe I session_rollback (fun _ => True).
Proof.
  intros w [Ht [Hw Hc]]. unfold session_rollback, inv.
  cbn [fst snd trace working committed]. auto.
Qed.

Lemma keeps_log (e : exn) : keeps safe I (backend_logger_error e) (fun _ => True).
Proof.
  intros w [Ht [Hw Hc]]. unfold backend_logger_error, inv.
  cbn [fst snd trace working committed]. auto.
Qed.

Lemma keeps_commit : safe Commit = true -> keeps safe I (session_commit env) (fun _ => True).
Proof.
  intros Hs. unfold session_commit. apply keeps_then; [apply keeps_call; exact Hs|].
  intros _ w [Ht [Hw Hc]]. unfold inv.
  cbn [fst snd trace working committed]. auto.
Qed.

Lemma keeps_select {R} (table : db -> list R) (c : clause R) (Q : list R -> Prop) :
  (forall d, I d -> Q (filter c (table d))) -> keeps safe I (select table c) Q.
Proof.
  intros HQ w Hw. cbn. split; [exact Hw|]. intros x [= <-].
  apply HQ. apply Hw.
Qed.

Lemma keeps_one {R} (rows : list R) (Q : R -> Prop) :
  (forall r, rows = [r] -> Q r) -> keeps safe I (one rows) Q.
Proof.
  intros HQ. destruct rows as [|r [|r' rows]]; cbn [one];
    [apply keeps_raise | apply keeps_ret; auto | apply keeps_raise].
Qed.

Lemma keeps_one_or_none {R} (rows : list R) (Q : option R -> Prop) :
  (rows = [] -> Q None) -> (forall r, rows = [r] -> Q (Some r)) ->
  keeps safe I (one_or_none rows) Q.
Proof.
  intros HN HS. destruct rows as [|r [|r' rows]]; cbn [one_or_none];
    [apply keeps_ret; auto | apply keeps_ret; auto | apply keeps_raise].
Qed.

Lemma keeps_network_of (l : NodeNetwork.t) (Q : option Network.t -> Prop) :
  (forall d, I d ->
             Q (find (fun n => String.eqb (Network.name n) (NodeNetwork.network_name l))
                     (networks d))) ->
  keeps safe I (network_of l) Q.
Proof.
  intros HQ w Hw. cbn. split; [exact Hw|]. intros x [= <-]. apply HQ. apply Hw.
Qed.

Lemma keeps_delete_server server_name node_name :
  (forall e, is_release e = false -> safe e = true) ->
  keeps safe I (delete_server env server_name node_name) (fun _ => True).
Proof.
  intros Hsafe. unfold delete_server.
  apply keeps_then; [apply keeps_call; apply Hsafe; reflexivity|].
  intros [server|]; [|apply keeps_raise].
  apply keeps_then; [apply keeps_call; apply Hsafe; reflexivity|]. intros ips.
  apply keeps_then; [|intros _; apply keeps_call; apply Hsafe; reflexivity].
  apply keeps_for_each. intros ip _. apply keeps_call. apply Hsafe. reflexivity.
Qed.

End Keeps.

Lemma same_infrastructure_servers d0 f d :
  same_infrastructure d0 d -> same_infrastructure d0 (with_servers f d).
Proof. intros H. exact H. Qed.

Lemma same_infrastructure_containers d0 f d :
  same_infrastructure d0 d -> same_infrastructure d0 (with_containers f d).
Proof. intros H. exact H. Qed.

Lemma same_infrastructure_refl d : same_infrastructure d d.
Proof. repeat split. Qed.

Lemma releases_nothing_safe e : is_release e = false -> releases_nothing e = true.
Proof. unfold releases_nothing. intros ->. reflexivity. Qed.

Lemma spares_configured_defaults_safe cfg e :
  is_release e = false -> spares_configured_defaults cfg e = true.
Proof. destruct e; cbn; intros H; first [reflexivity | discriminate]. Qed.

(** The sweep makes no call that releases infrastructure and leaves the
    tables of the infrastructure as they are, on every path. *)
Lemma sweep_keeps env today d0 :
  keeps releases_nothing (same_infrastructure d0) (delete_expired_data env today)
        (fun _ => True).
Proof.
  unfold delete_expired_data.
  apply keeps_then; [apply keeps_select; auto | intros expired_servers].
  apply keeps_then; [apply keeps_select; auto | intros expired_containers].
  apply keeps_then; [| intros _; apply keeps_then; [| intros _; apply keeps_commit; reflexivity]].
  - apply keeps_for_each. intros server _.
    apply keeps_then; [apply keeps_change; apply same_infrastructure_servers | intros _].
    apply keeps_delete_server. apply releases_nothing_safe.
  - apply keeps_for_each. intros container _.
    apply keeps_then; [apply keeps_change; apply same_infrastructure_containers | intros _].
    apply keeps_call. reflexivity.
Qed.

(** The return of a server deletes, in the cloud, no network and no flavor
    that the configuration names as default, and leaves the tables of the
    infrastructure as they are, on every path. *)
Lemma server_return_keeps env cfg d0 server_name host_ip password key_file :
  keeps (spares_configured_defaults cfg) (same_infrastructure d0)
        (server_return env cfg server_name host_ip password key_file)
        (fun _ => True).
Proof.
  unfold server_return.
  apply keeps_then; [apply keeps_call; reflexivity | intros valid].
  destruct valid; [| apply keeps_ret; exact I].
  apply keeps_then; [| intros [e|_]].
  2:{ apply keeps_then; [apply keeps_log | intros _; apply keeps_ret; exact I]. }
  2:{ apply keeps_ret; exact I. }
  eapply keeps_weaken; [apply keeps_attempt with (Q := fun _ => True) | auto].
  apply keeps_then; [apply keeps_select; auto | intros rows].
  apply keeps_then; [apply keeps_one; auto | intros server].
  apply keeps_then;
    [apply keeps_delete_server; apply spares_configured_defaults_safe | intros _].
  apply keeps_then; [apply keeps_change; apply same_infrastructure_servers | intros _].
  apply keeps_then; [apply keeps_commit; reflexivity | intros _].
  apply keeps_then; [apply keeps_call; reflexivity | intros [openstack_server|]].
  2:{ apply keeps_raise. }
  apply keeps_then.
  { apply keeps_when. intros Hcustom.
    apply keeps_then; [apply keeps_select; auto | intros rows'].
    apply keeps_then; [apply keeps_one_or_none; auto | intros user].
    apply keeps_when. intros _. apply keeps_for_each. intros node _.
    apply keeps_call. exact Hcustom. }
  intros _.
  set (network_name := Server.network_name server).
  apply keeps_bind with
    (Q1 := fun unused : bool =>
             unused = true ->
             String.eqb network_name (external_network cfg) = false
             /\ String.eqb network_name (default_internal_network cfg) = false).
  - destruct (String.eqb network_name (external_network cfg)) eqn:Hext; cbn [negb];
      [apply keeps_ret; discriminate|].
    destruct (String.eqb network_name (default_internal_network cfg)) eqn:Hint; cbn [negb];
      [apply keeps_ret; discriminate|].
    apply keeps_then; [apply keeps_select; auto | intros rows'].
    apply keeps_then; [apply keeps_one_or_none; auto | intros user].
    destruct (is_none user); [| apply keeps_ret; discriminate].
    apply keeps_then; [apply keeps_select; auto | intros rows''].
    apply keeps_then; [apply keeps_one_or_none; auto | intros user'].
    apply keeps_ret. auto.
  - intros unused Hunused. apply keeps_when. intros ->.
    destruct (Hunused eq_refl) as [Hext Hint].
    apply keeps_for_each. intros node _. apply keeps_call.
    cbn. rewrite Hext, Hint. reflexivity.
Qed.

Lemma holds_network_add n d name cidr flag :
  holds_network n d -> name <> Network.name n ->
  holds_network n (with_networks (fun l => l ++ [Network.mk name cidr flag])%list d).
Proof.
  intros [Hin Honly] Hname. split; cbn.
  - apply in_or_app. now left.
  - intros r Hr Hrn. apply in_app_or in Hr. destruct Hr as [Hr|[<-|[]]]; auto.
    cbn in Hrn. congruence.
Qed.

Lemma holds_network_find n d name net :
  holds_network n d ->
  find (fun r => String.eqb (Network.name r) name) (networks d) = Some net ->
  Network.name n = name -> net = n.
Proof.
  intros [Hin Honly] Hfind Hname. apply find_some in Hfind. destruct Hfind as [Hnet Heq].
  apply String.eqb_eq in Heq. apply Honly; congruence.
Qed.

Lemma filter_all {A} (p : A -> bool) (l : list A) (x : A) :
  In x (filter p l) -> p x = true.
Proof. intros H. apply (proj1 (filter_In p x l)) in H. apply H. Qed.

(** The rollback of a rental whose network is the one of the link [l]: the
    network is deleted in the cloud only when its row is not flagged. *)
Lemma network_rollback_keeps env n node_name network_name (l : NodeNetwork.t) :
  Network.is_default n = true ->
  NodeNetwork.network_name l = network_name ->
  keeps (spares_network (Network.name n)) (holds_network n)
        (network <- network_of l ;;
         match network with
         | None => raise AttributeError
         | Some network =>
             when (negb (Network.is_default network))
                  (call env (NetworkDelete node_name network_name))
         end)
        (fun _ => True).
Proof.
  intros Hdefault Hl.
  apply keeps_bind with
    (Q1 := fun network => forall net, network = Some net ->
                                      Network.name n = network_name -> net = n).
  - apply keeps_network_of. intros d Hd net Hfind Hname.
    rewrite Hl in Hfind. eapply holds_network_find; eauto.
  - intros [net|] Hnet; [|apply keeps_raise].
    apply keeps_when. intros Hflag. apply keeps_call.
    unfold spares_network. cbn.
    destruct (String.eqb_spec network_name (Network.name n)) as [Heq|Hne]; [|reflexivity].
    rewrite (Hnet net eq_refl (eq_sym Heq)), Hdefault in Hflag. discriminate.
Qed.

(** The network step of a rental: a row is added to [Network] only under a
    name that has none. *)
Lemma network_row_keeps n safe network_name cidr {B} (k : unit -> M B) (Q : B -> Prop) :
  (forall u, keeps safe (holds_network n) (k u) Q) ->
  keeps safe (holds_network n)
        (rows <- select networks (fun r => String.eqb (Network.name r) network_name) ;;
         network <- one_or_none rows ;;
         bind (when (is_none network) (add_network (Network.mk network_name cidr false))) k)
        Q.
Proof.
  intros Hk.
  apply keeps_bind with
    (Q1 := fun rows => Network.name n = network_name -> rows <> []).
  - apply keeps_select. intros d [Hin _] Hname Hrows.
    assert (H : In n (filter (fun r => String.eqb (Network.name r) network_name)
                             (networks d))).
    { apply (proj2 (filter_In _ n (networks d))). split; [exact Hin|].
      apply String.eqb_eq. exact Hname. }
    rewrite Hrows in H. destruct H.
  - intros rows Hrows.
    apply keeps_bind with
      (Q1 := fun network => network = None -> Network.name n <> network_name).
    + apply keeps_one_or_none.
      * intros -> _ Hname. apply (Hrows Hname). reflexivity.
      * intros r _. discriminate.
    + intros [r|] Hr; cbn [is_none when]; (apply keeps_then; [|exact Hk]);
        [apply keeps_ret; exact I|].
      apply keeps_change. intros d Hd. apply holds_network_add; [exact Hd|].
      intros Heq. apply (Hr eq_refl). symmetry. exact Heq.
Qed.

(** The look-up of the link and what follows it when a rental is rolled
    back. *)
Lemma link_rollback_keeps env n node_name network_name (c : clause NodeNetwork.t)
      {B} (k : unit -> M B) (Q : B -> Prop) :
  Network.is_default n = true ->
  (forall l, c l = true -> NodeNetwork.network_name l = network_name) ->
  (forall u, keeps (spares_network (Network.name n)) (holds_network n) (k u) Q) ->
  keeps (spares_network (Network.name n)) (holds_network n)
        (rows <- select node_networks c ;;
         node_network <- one_or_none rows ;;
         bind (match node_network with
               | None => ret tt
               | Some node_network =>
                   network <- network_of node_network ;;
                   match network with
                   | None => raise AttributeError
                   | Some network =>
                       when (negb (Network.is_default network))
                            (call env (NetworkDelete node_name network_name))
                   end
               end) k)
        Q.
Proof.
  intros Hdefault Hc Hk.
  apply keeps_bind with
    (Q1 := fun rows => forall l, In l rows -> NodeNetwork.network_name l = network_name).
  - apply keeps_select. intros d _ l Hl. apply filter_all in Hl. auto.
  - intros rows Hrows.
    apply keeps_bind with
      (Q1 := fun o => forall l, o = Some l -> NodeNetwork.network_name l = network_name).
    + apply keeps_one_or_none; [discriminate|].
      intros r -> l [= <-]. apply Hrows. now left.
    + intros [l|] Hl; (apply keeps_then; [|exact Hk]); [|apply keeps_ret; exact I].
      apply network_rollback_keeps; auto.
Qed.

Lemma holds_network_other n (f : db -> db) :
  (forall d, networks (f d) = networks d) ->
  forall d, holds_network n d -> holds_network n (f d).
Proof. intros Hf d H. unfold holds_network. rewrite Hf. exact H. Qed.

(** A container rental never deletes, in the cloud or in the inventory, a
    network whose row is flagged as default. *)
Lemma rental_keeps env cfg n container_info :
  Network.is_default n = true ->
  keeps (spares_network (Network.name n)) (holds_network n)
        (rental env cfg container_info) (fun _ => True).
Proof.
  intros Hdefault. unfold rental. cbv zeta.
  apply keeps_then; [apply keeps_select; auto | intros rows].
  apply keeps_then; [apply keeps_one_or_none; auto | intros same_name].
  destruct (negb (is_none same_name)); [apply keeps_ret; exact I|].
  apply network_row_keeps. intros _.
  apply keeps_then; [apply keeps_select; auto | intros rows'].
  apply keeps_then; [apply keeps_one_or_none; auto | intros node_network].
  apply keeps_then.
  { apply keeps_when. intros _.
    apply keeps_then; [apply keeps_call; reflexivity | intros _].
    apply keeps_change. apply holds_network_other. reflexivity. }
  intros _.
  apply keeps_then.
  { eapply keeps_weaken; [apply keeps_attempt with (Q := fun _ => True) | auto].
    apply keeps_then; [apply keeps_call; reflexivity | intros container].
    apply keeps_then.
    { destruct (addresses container) as [|[|addr ?] ?];
        [apply keeps_raise | apply keeps_raise | apply keeps_ret; exact I]. }
    intros ip.
    apply keeps_then; [apply keeps_select; auto | intros ids].
    apply keeps_then;
      [apply keeps_change; apply holds_network_other; reflexivity | intros _].
    apply keeps_commit. reflexivity. }
  intros [e|_]; [|apply keeps_ret; exact I].
  apply keeps_then; [apply keeps_log | intros _].
  apply link_rollback_keeps; [exact Hdefault | |].
  { intros l Hl. apply String.eqb_eq. exact Hl. }
  intros _.
  apply keeps_then; [apply keeps_rollback | intros _].
  apply keeps_then; [apply keeps_call; reflexivity | intros _].
  apply keeps_ret. exact I.
Qed.

Lemma spares_network_safe name e : is_release e = false -> spares_network name e = true.
Proof. destruct e; cbn; intros H; first [reflexivity | discriminate]. Qed.

(** A server rental never deletes, in the cloud or in the inventory, a
    network whose row is flagged as default. *)
Lemma server_rent_keeps env cfg n server_info :
  Network.is_default n = true ->
  keeps (spares_network (Network.name n)) (holds_network n)
        (server_rent env cfg server_info) (fun _ => True).
Proof.
  intros Hdefault. unfold server_rent. cbv zeta.
  cbn [sc_user_name sc_server_name sc_start_date sc_end_date sc_image_name
       sc_flavor_name sc_vcpus sc_ram sc_disk sc_network_name sc_subnet_cidr
       sc_node_name].
  apply keeps_then; [apply keeps_select; auto | intros rows].
  apply keeps_then; [apply keeps_one_or_none; auto | intros same_name].
  destruct (negb (is_none same_name)); [apply keeps_ret; exact I|].
  apply keeps_then.
  { eapply keeps_weaken; [apply keeps_attempt with (Q := fun _ => True) | auto].
    apply keeps_then; [apply keeps_select; auto | intros rows1].
    apply keeps_then; [apply keeps_one_or_none; auto | intros flavor].
    apply keeps_then.
    { apply keeps_when. intros _. apply keeps_change.
      apply holds_network_other. reflexivity. }
    intros _.
    apply keeps_then; [apply keeps_select; auto | intros rows2].
    apply keeps_then; [apply keeps_one_or_none; auto | intros node_flavor].
    apply keeps_when. intros _. apply keeps_call. reflexivity. }
  intros [e|_].
  { apply keeps_then; [apply keeps_log | intros _].
    apply keeps_then; [apply keeps_rollback | intros _].
    apply keeps_then; [apply keeps_call; reflexivity | intros _].
    apply keeps_ret. exact I. }
  apply keeps_then.
  { eapply keeps_weaken; [apply keeps_attempt with (Q := fun _ => True) | auto].
    apply network_row_keeps. intros _.
    apply keeps_then; [apply keeps_select; auto | intros rows2].
    apply keeps_then; [apply keeps_one_or_none; auto | intros node_network].
    apply keeps_when. intros _.
    apply keeps_then; [apply keeps_call; reflexivity | intros _].
    apply keeps_change. apply holds_network_other. reflexivity. }
  intros [e|_].
  { apply keeps_then; [apply keeps_log | intros _].
    apply link_rollback_keeps; [exact Hdefault | |].
    { intros l Hl. unfold sql_and in Hl. apply andb_prop in Hl.
      apply String.eqb_eq. apply Hl. }
    intros _.
    apply keeps_then; [apply keeps_rollback | intros _].
    apply keeps_ret. exact I. }
  assert (Hrecover : forall e floating_ip,
    keeps (spares_network (Network.name n)) (holds_network n)
      (backend_logger_error e ;;
       session_rollback ;;
       match floating_ip : option string with
       | None => raise UnboundLocalError
       | Some _ =>
           delete_server env (sc_server_name server_info) (sc_node_name server_info) ;;
           ret (ErrorResponse HTTP_500_INTERNAL_SERVER_ERROR "백엔드 내부 오류")
       end)
      (fun _ => True)).
  { intros e floating_ip.
    apply keeps_then; [apply keeps_log | intros _].
    apply keeps_then; [apply keeps_rollback | intros _].
    destruct floating_ip; [|apply keeps_raise].
    apply keeps_then; [apply keeps_delete_server; apply spares_network_safe | intros _].
    apply keeps_ret. exact I. }
  apply keeps_then.
  { eapply keeps_weaken; [apply keeps_attempt with (Q := fun _ => True) | auto].
    apply keeps_call. reflexivity. }
  intros [e|[server private_key]]; [exact (Hrecover e None)|].
  apply keeps_then.
  { eapply keeps_weaken; [apply keeps_attempt with (Q := fun _ => True) | auto].
    apply keeps_call. reflexivity. }
  intros [e|floating_ip]; [exact (Hrecover e None)|].
  apply keeps_then.
  { eapply keeps_weaken; [apply keeps_attempt with (Q := fun _ => True) | auto].
    apply keeps_then; [apply keeps_select; auto | intros ids].
    apply keeps_then;
      [apply keeps_change; apply holds_network_other; reflexivity | intros _].
    apply keeps_commit. reflexivity. }
  intros [e|_]; [exact (Hrecover e (Some floating_ip))|].
  apply keeps_ret. exact I.
Qed.

(** A container return never deletes, in the cloud or in the inventory, a
    network whose row is flagged as default. *)
Lemma container_return_keeps env n container_info :
  Network.is_default n = true ->
  keeps (spares_network (Network.name n)) (fun d => In n (networks d))
        (container_return env container_info) (fun _ => True).
Proof.
  intros Hdefault. unfold container_return. cbv zeta.
  apply keeps_then; [| intros [e|answer]].
  2:{ apply keeps_then; [apply keeps_log | intros _; apply keeps_ret; exact I]. }
  2:{ apply keeps_ret. exact I. }
  eapply keeps_weaken; [apply keeps_attempt with (Q := fun _ => True) | auto].
  apply keeps_then; [apply keeps_select; auto | intros rows].
  apply keeps_then; [apply keeps_one; auto | intros container].
  destruct (negb _); [apply keeps_ret; exact I|].
  apply keeps_then; [apply keeps_call; reflexivity | intros _].
  apply keeps_then; [apply keeps_change; auto | intros _].
  apply keeps_then; [apply keeps_commit; reflexivity | intros _].
  set (network_name := Container.network_name container).
  apply keeps_bind with
    (Q1 := fun rows => Network.name n = network_name -> In n rows).
  { apply keeps_select. intros d Hin Hname.
    apply (proj2 (filter_In _ n (networks d))). split; [exact Hin|].
    apply String.eqb_eq. exact Hname. }
  intros rows' Hrows.
  apply keeps_bind with
    (Q1 := fun network => Network.name n = network_name -> network = n).
  { apply keeps_one. intros r -> Hname. destruct (Hrows Hname) as [H|[]]. exact H. }
  intros network Hnetwork.
  apply keeps_then; [unfold servers_of; apply keeps_select; auto | intros attached_servers].
  apply keeps_then;
    [unfold containers_of; apply keeps_select; auto | intros attached_containers].
  apply keeps_then; [| intros _].
  2:{ apply keeps_then; [apply keeps_commit; reflexivity | intros _].
      apply keeps_ret. exact I. }
  apply keeps_when. intros Hguard. apply andb_prop in Hguard. destruct Hguard as [_ Hflag].
  assert (Hother : Network.name n <> network_name).
  { intros Hname. rewrite (Hnetwork Hname), Hdefault in Hflag. discriminate. }
  apply keeps_bind with
    (Q1 := fun targets => forall t, In t targets ->
                                    NodeNetwork.network_name t = network_name).
  { apply keeps_select. intros d _ t Ht. apply filter_all in Ht.
    apply String.eqb_eq. exact Ht. }
  intros targets Htargets.
  apply keeps_then.
  { apply keeps_for_each. intros t Ht.
    apply keeps_then; [| intros _; apply keeps_change; auto].
    apply keeps_call. unfold spares_network. cbn. rewrite (Htargets t Ht).
    destruct (String.eqb_spec network_name (Network.name n)); [congruence | reflexivity]. }
  intros _.
  apply keeps_bind with
    (Q1 := fun rows => forall r, In r rows -> Network.name r = network_name).
  { apply keeps_select. intros d _ r Hr. apply filter_all in Hr.
    apply String.eqb_eq. exact Hr. }
  intros rows'' Hrows''.
  apply keeps_bind with (Q1 := fun target => Network.name target = network_name).
  { apply keeps_one. intros r ->. apply Hrows''. now left. }
  intros target Htarget.
  apply keeps_change. intros d Hin. cbn.
  apply (proj2 (filter_In _ n (networks d))). split; [exact Hin|].
  rewrite Htarget.
  destruct (String.eqb_spec (Network.name n) network_name); [congruence | reflexivity].
Qed.

Lemma holds_network_unique n d :
  NoDup (map Network.name (networks d)) -> In n (networks d) -> holds_network n d.
Proof.
  intros Hnd Hin. split; [exact Hin|]. intros r Hr Hname.
  eapply NoDup_map_eq; eauto.
Qed.

(** What [keeps] says of a handler that starts on the stored tables. *)
Lemma keeps_run safe (J : db -> Prop) {A} (m : M A) (Q : A -> Prop) d :
  keeps safe J m Q -> J d ->
  forallb safe (trace (snd (m (start d)))) = true /\ J (persisted (snd (m (start d)))).
Proof.
  intros H Hd. destruct (H (start d)) as [[Ht [_ Hc]] _].
  - split; [reflexivity | split; exact Hd].
  - split; assumption.
Qed.

(** C4, on the code: the return of the last server on a network whose
    record is flagged as default, but which the configuration does not name,
    deletes that network in the cloud on every node.  [server_return] guards
    its deletions with the names of the configuration, where the return of
    a container and the rollbacks of the rentals guard theirs with the flag
    of the record. *)
Lemma server_return_deletes_flagged_network :
  let returned := server_return healthy example_config "lab1" "203.0.113.8" "" ""
                                (start flagged_lab) in
  In lab_net (networks flagged_lab)
  /\ Network.is_default lab_net = true
  /\ fst returned = inr (ApiResponse 200 (Text "서버 삭제 완료"))
  /\ skipn 7 (trace (snd returned))
     = [NetworkDelete "node1" "lab-net"; NetworkDelete "node2" "lab-net"].
Proof. vm_compute. repeat split; auto. Qed.

(** The rollback of the flavor step of a server rental deletes the flavor
    whatever its flag. *)
Example server_rent_rollback_deletes_flagged_flavor :
  let failed := server_rent no_flavor example_config rent_lab2
                            (start flagged_lab) in
  fst failed = inr (ErrorResponse 500 "커스텀 플레이버 생성 오류")
  /\ trace (snd failed)
     = [CreateFlavor "m1.small" "node1" 1 2048 20; DeleteFlavor "m1.small" "node1"].
Proof. vm_compute. split; reflexivity. Qed.

(** X21: what the handlers do protect.  A network whose record is flagged
    as default is never deleted, in the cloud or in the inventory, by the
    return of a container, by a container rental or by a server rental,
    whatever fails; the return of a server never deletes in the cloud what
    the configuration names (the external network, the default internal
    network, the default flavors) and deletes no record of the
    infrastructure; the sweep makes no call that releases a network or a
    flavor and deletes no record of the infrastructure. *)
Theorem default_infrastructure_is_protected :
  (forall (env : environment) d container_info n,
      In n (networks d) -> Network.is_default n = true ->
      let w := snd (container_return env container_info (start d)) in
      forallb (spares_network (Network.name n)) (trace w) = true
      /\ In n (networks (persisted w)))
  /\ (forall (env : environment) cfg d container_info n,
      NoDup (map Network.name (networks d)) ->
      In n (networks d) -> Network.is_default n = true ->
      let w := snd (rental env cfg container_info (start d)) in
      forallb (spares_network (Network.name n)) (trace w) = true
      /\ In n (networks (persisted w)))
  /\ (forall (env : environment) cfg d server_info n,
      NoDup (map Network.name (networks d)) ->
      In n (networks d) -> Network.is_default n = true ->
      let w := snd (server_rent env cfg server_info (start d)) in
      forallb (spares_network (Network.name n)) (trace w) = true
      /\ In n (networks (persisted w)))
  /\ (forall (env : environment) cfg d server_name host_ip password key_file,
      let w := snd (server_return env cfg server_name host_ip password key_file
                                  (start d)) in
      forallb (spares_configured_defaults cfg) (trace w) = true
      /\ same_infrastructure d (persisted w))
  /\ (forall (env : environment) today d,
      let w := snd (delete_expired_data env today (start d)) in
      forallb releases_nothing (trace w) = true
      /\ same_infrastructure d (persisted w)).
Proof.
  split; [|split; [|split; [|split]]].
  - intros env d container_info n Hin Hdefault.
    exact (keeps_run _ (fun d => In n (networks d)) _ _ d
             (container_return_keeps env n container_info Hdefault) Hin).
  - intros env cfg d container_info n Hnd Hin Hdefault.
    destruct (keeps_run _ _ _ _ d (rental_keeps env cfg n container_info Hdefault)
                (holds_network_unique n d Hnd Hin)) as [Ht [Hn _]].
    split; assumption.
  - intros env cfg d server_info n Hnd Hin Hdefault.
    destruct (keeps_run _ _ _ _ d (server_rent_keeps env cfg n server_info Hdefault)
                (holds_network_unique n d Hnd Hin)) as [Ht [Hn _]].
    split; assumption.
  - intros env cfg d server_name host_ip password key_file.
    exact (keeps_run _ _ _ _ d
             (server_return_keeps env cfg d server_name host_ip password key_file)
             (same_infrastructure_refl d)).
  - intros env today d.
    exact (keeps_run _ _ _ _ d (sweep_keeps env today d) (same_infrastructure_refl d)).
Qed.

Lemma default_infrastructure_is_protected_witness :
  (let w := snd (container_return healthy (mkContainerReturnRequestDTO "labbox" "s3cret")
                                  (start flagged_lab_box)) in
   forallb (spares_network "lab-net") (trace w) = true
   /\ In lab_net (networks (persisted w)))
  /\ (let w := snd (rental no_container example_config
                           rent_labbox2 (start flagged_lab_box)) in
      forallb (spares_network "lab-net") (trace w) = true
      /\ In lab_net (networks (persisted w)))
  /\ (let w := snd (server_rent no_instance example_config
                                rent_lab2 (start flagged_lab)) in
      forallb (spares_network "lab-net") (trace w) = true
      /\ In lab_net (networks (persisted w))).
Proof.
  split; [|split].
  - apply (proj1 default_infrastructure_is_protected healthy flagged_lab_box
                 (mkContainerReturnRequestDTO "labbox" "s3cret") lab_net).
    + left. reflexivity.
    + reflexivity.
  - apply (proj1 (proj2 default_infrastructure_is_protected)
                 no_container example_config flagged_lab_box
                 rent_labbox2 lab_net).
    + cbn. repeat constructor. intros [].
    + left. reflexivity.
    + reflexivity.
  - apply (proj1 (proj2 (proj2 default_infrastructure_is_protected))
                 no_instance example_config flagged_lab
                 rent_lab2 lab_net).
    + cbn. repeat constructor. intros [].
    + left. reflexivity.
    + reflexivity.
Defined.

(** * What the handlers leave behind

    The handlers once more, this time for what they leave on every path and
    for what a success consists of. *)

(** ** Running a handler step by step *)

Lemma bind_ret {A B} (x : A) (k : A -> M B) (w : world) : bind (ret x) k w = k x w.
Proof. reflexivity. Qed.

Lemma bind_select {R B} (table : db -> list R) (c : clause R) (k : list R -> M B) w :
  bind (select table c) k w = k (filter c (table (working w))) w.
Proof. reflexivity. Qed.

Lemma bind_change {B} (f : db -> db) (k : unit -> M B) (w : world) :
  bind (session_change f) k w
  = k tt (mkWorld (committed w) (f (working w)) (trace w) (log w)).
Proof. reflexivity. Qed.

Lemma bind_assoc {A B C} (m : M A) (f : A -> M B) (k : B -> M C) (w : world) :
  bind (bind m f) k w = bind m (fun x => bind (f x) k) w.
Proof. unfold bind. destruct (m w) as [[e|x] w1]; reflexivity. Qed.

Lemma attempt_run {A} (m : M A) (w w1 : world) (r : exn + A) :
  m w = (r, w1) -> attempt m w = (inr r, w1).
Proof. intros H. unfold attempt. rewrite H. reflexivity. Qed.

Lemma bind_commit (env : environment) {B} (k : unit -> M B) (w : world) (v : unit) :
  env (trace w) Commit = inr v ->
  bind (session_commit env) k w
  = k tt (mkWorld (working w) (working w) (trace w ++ [Commit])%list (log w)).
Proof.
  intros H. unfold session_commit. rewrite bind_assoc, bind_call, H. reflexivity.
Qed.

Lemma bind_find_server (env : environment) {B} server_name node_name
      (k : option os_server -> M B) (w : world) :
  bind (find_server env server_name node_name) k w
  = match env (trace w) (ComputeFindServer node_name server_name) with
    | inl x => (inl x, mkWorld (committed w) (working w)
                               (trace w ++ [ComputeFindServer node_name server_name])%list
                               (log w))
    | inr v => k v (mkWorld (committed w) (working w)
                            (trace w ++ [ComputeFindServer node_name server_name])%list
                            (log w))
    end.
Proof. exact (bind_call env (ComputeFindServer node_name server_name) k w). Qed.

(** A loop whose body only makes calls only makes calls. *)
Lemma for_each_same_tables {A} (body : A -> M unit) (l : list A) w r w' :
  (forall x w0 r0 w0', body x w0 = (r0, w0') -> same_tables w0 w0') ->
  for_each l body w = (r, w') -> same_tables w w'.
Proof.
  intros Hbody. revert w. induction l as [|x l IH]; intros w H; cbn [for_each] in H.
  - inversion H; subst. repeat split. exists []. symmetry. apply app_nil_r.
  - unfold bind in H. destruct (body x w) as [[e|[]] w1] eqn:Hx.
    + inversion H; subst. eapply Hbody; eauto.
    + apply Hbody in Hx. apply IH in H.
      destruct Hx as [? [? [? [t1 Ht1]]]], H as [? [? [? [t2 Ht2]]]].
      repeat split; try congruence.
      exists (t1 ++ t2)%list. rewrite Ht2, Ht1, app_assoc. reflexivity.
Qed.

(** The loops of calls that a path has run, replaced by what they leave. *)
Ltac loops_change_nothing :=
  repeat match goal with
         | E : ?m ?w = (?r, ?w') |- _ =>
             match m with
             | for_each ?l ?f =>
                 let H := fresh "Hloop" in
                 assert (H : same_tables w w');
                 [ apply (for_each_same_tables f l w r w');
                   [ let Hb := fresh in
                     intros ? ? ? ? Hb; inversion Hb; subst; repeat split;
                     eexists; reflexivity
                   | exact E ]
                 | unfold same_tables in H; cbn [committed working trace log] in H;
                   destruct H as [? [? [? [? ?]]]]; clear E ]
             end
         end.

Ltac use_tables :=
  repeat match goal with
         | Hq : committed _ = _ |- _ => rewrite Hq in *; clear Hq
         | Hq : working _ = _ |- _ => rewrite Hq in *; clear Hq
         | Hq : log _ = _ |- _ => rewrite Hq in *; clear Hq
         | Hq : trace _ = _ |- _ => rewrite Hq in *; clear Hq
         end.

(** The paths of a run, with the negations of its tests kept as they are
    written. *)
Ltac unfold_run_in H :=
  cbv beta iota zeta delta
    [bind ret raise attempt when select one_or_none one session_change
     session_rollback backend_logger_error add_server add_container add_flavor
     add_network add_node_network delete_server_row delete_container_row
     delete_network_row delete_node_network_row network_of servers_of
     containers_of call session_commit find_server delete_server is_none
     start persisted with_servers with_containers with_flavors with_networks
     with_node_networks py_and py_bool sql_and] in H;
  cbn [committed working trace log fst snd app negb
       servers containers flavors node_flavors networks node_networks
       sc_user_name sc_server_name sc_start_date sc_end_date sc_image_name
       sc_flavor_name sc_vcpus sc_ram sc_disk sc_network_name sc_subnet_cidr
       sc_node_name] in H.

Ltac every_path H :=
  repeat (first [ discriminate H
                | progress (unfold_run_in H)
                | split_on_match_in H ]).

Lemma healthy_no_raise : no_raise healthy.
Proof. intros history e. destruct e; cbn; eauto. Qed.

Lemma forgets_deleted_no_raise : no_raise forgets_deleted.
Proof.
  intros history e. destruct e; cbn; eauto.
  destruct (existsb is_compute_delete_server history); eauto.
Qed.

Lemma call_goes_through env (e : event) (w : world) :
  no_raise env ->
  exists v, env (trace w) e = inr v
            /\ call env e w
               = (inr v, mkWorld (committed w) (working w) (trace w ++ [e])%list (log w)).
Proof.
  intros Hnr. destruct (Hnr (trace w) e) as [v Hv].
  exists v. split; [exact Hv|]. unfold call. rewrite Hv. reflexivity.
Qed.

(** ** Renting a server *)

(** X1: a server rental is all or nothing on the inventory.  Whatever the
    cloud and the database answer, and whether the handler answers or lets
    an exception through, either it answers 201 or the stored tables are
    those it started from. *)
Theorem server_rent_all_or_nothing :
  forall (env : environment) cfg server_info d,
    let result := server_rent env cfg server_info (start d) in
    (exists p, fst result = inr (ApiResponse HTTP_201_CREATED p))
    \/ persisted (snd result) = d.
Proof.
  intros env cfg server_info d result. subst result.
  destruct (server_rent env cfg server_info (start d)) as [r w'] eqn:H.
  cbn [fst snd]. unfold server_rent in H. paths H.
  all: loops_change_nothing.
  all: injection H as <- <-; unfold persisted; cbn [committed fst snd]; use_tables.
  all: first [right; reflexivity | left; eexists; reflexivity].
Qed.

(** X2: what a server rental that answers 201 consists of.  The calls made
    are, in this order: the creation of the flavor when no node has a link to
    a flavor of that name, the isolation of the network when no node has a
    link to a network of that name, the creation of the server, the
    allocation of its address, the commit.  The tables stored are those
    before with one server row more, whose key is new and whose address is
    the one the cloud allocated, with a flavor row and a network row (not
    default) when none of that name was there, and a network link when none
    of that network was there; no flavor link is ever stored.  The answer
    carries the private key the cloud returned, and the name of a key file
    unless that key is empty. *)
Theorem server_rent_success :
  forall (env : environment) cfg server_info d p w',
    server_rent env cfg server_info (start d)
    = (inr (ApiResponse HTTP_201_CREATED p), w') ->
    let network_name := requested_network cfg server_info in
    let flavor_name := sc_flavor_name server_info in
    let node_name := sc_node_name server_info in
    let known_flavor :=
      filter (fun f => String.eqb (Flavor.name f) flavor_name) (flavors d) in
    let flavor_links :=
      filter (fun l => String.eqb (NodeFlavor.flavor_name l) flavor_name)
             (node_flavors d) in
    let known_network :=
      filter (fun n => String.eqb (Network.name n) network_name) (networks d) in
    let network_links :=
      filter (fun l => String.eqb (NodeNetwork.network_name l) network_name)
             (node_networks d) in
    let before :=
      (missing flavor_links
         (CreateFlavor flavor_name node_name (sc_vcpus server_info)
                       (sc_ram server_info) (sc_disk server_info))
       ++ missing network_links
            (NetworkIsolation node_name network_name (sc_subnet_cidr server_info)))%list in
    let create := CreateServer (with_network network_name server_info) node_name in
    exists server private_key floating_ip,
      env before create = inr (server, private_key)
      /\ env (before ++ [create])%list (AllocateFloatingIp server node_name)
         = inr floating_ip
      /\ p = ServerRentalResponseDTO
               (if String.eqb private_key "" then ""
                else sc_server_name server_info ++ "_keypair.pem")
               private_key
      /\ persisted w'
         = mkDb (servers d
                 ++ [Server.mk (next_id (map Server.id (servers d)))
                       (sc_user_name server_info) (sc_server_name server_info)
                       (sc_start_date server_info) (sc_end_date server_info)
                       floating_ip network_name node_name flavor_name
                       (sc_image_name server_info)])%list
                (containers d)
                (flavors d
                 ++ missing known_flavor
                      (Flavor.mk flavor_name (sc_vcpus server_info) (sc_ram server_info)
                                 (sc_disk server_info) false))%list
                (node_flavors d)
                (networks d
                 ++ missing known_network
                      (Network.mk network_name (sc_subnet_cidr server_info) false))%list
                (node_networks d
                 ++ missing network_links (NodeNetwork.mk node_name network_name))%list
      /\ trace w'
         = (before ++ [create; AllocateFloatingIp server node_name; Commit])%list.
Proof.
  intros env cfg server_info d p w' H. unfold server_rent in H. paths H.
  all: inversion H; subst; clear H.
  all: cbv zeta; unfold requested_network, with_network.
  all: repeat match goal with
              | E : sc_network_name _ = _ |- _ => rewrite E in *; clear E
              end.
  all: repeat match goal with
              | E : filter _ _ = _ |- _ => rewrite E; clear E
              end.
  all: cbn [persisted committed trace missing app]; rewrite ?app_nil_r, ?filter_true.
  all: do 3 eexists; (split; [eassumption|]); (split; [eassumption|]);
       (split; [| split; reflexivity]).
  all: match goal with
       | E : String.eqb _ "" = _ |- _ => rewrite E; reflexivity
       end.
Qed.

Lemma server_rent_success_witness :
  let w' := snd (server_rent healthy example_config rent_web1 (start empty_db)) in
  let before := [CreateFlavor "custom.2c4g" "node1" 2 4096 40;
                 NetworkIsolation "node1" "tenant-net" "10.1.0.0/24"] in
  let create := CreateServer rent_web1 "node1" in
  exists server private_key floating_ip,
    healthy before create = inr (server, private_key)
    /\ healthy (before ++ [create])%list (AllocateFloatingIp server "node1")
       = inr floating_ip
    /\ ServerRentalResponseDTO "web1_keypair.pem" "PRIVATE KEY"
       = ServerRentalResponseDTO
           (if String.eqb private_key "" then "" else "web1" ++ "_keypair.pem")
           private_key
    /\ persisted w'
       = mkDb [Server.mk 1 "alice" "web1" (mkDate 2024 1 1) (mkDate 2024 2 1)
                 floating_ip "tenant-net" "node1" "custom.2c4g" "ubuntu-22.04"]
              []
              [Flavor.mk "custom.2c4g" 2 4096 40 false]
              []
              [Network.mk "tenant-net" "10.1.0.0/24" false]
              [NodeNetwork.mk "node1" "tenant-net"]
    /\ trace w'
       = (before ++ [create; AllocateFloatingIp server "node1"; Commit])%list.
Proof.
  exact (server_rent_success healthy example_config rent_web1 empty_db
           (ServerRentalResponseDTO "web1_keypair.pem" "PRIVATE KEY")
           (snd (server_rent healthy example_config rent_web1 (start empty_db)))
           ltac:(vm_compute; reflexivity)).
Defined.

(** X3: what a server rental needs to succeed.  Whatever the cloud and the
    database answer, the rental answers 201 only if no server has the name,
    at most one flavor and at most one network have the names requested,
    and at most one node, whichever it is, has a link to that flavor and at
    most one to that network: a rental whose flavor or network has links on
    two nodes never succeeds. *)
Theorem server_rent_succeeds_only_if :
  forall (env : environment) cfg server_info d p,
    fst (server_rent env cfg server_info (start d))
    = inr (ApiResponse HTTP_201_CREATED p) ->
    let network_name := requested_network cfg server_info in
    let flavor_name := sc_flavor_name server_info in
    filter (fun s => String.eqb (Server.server_name s) (sc_server_name server_info))
           (servers d) = []
    /\ (List.length (filter (fun f => String.eqb (Flavor.name f) flavor_name)
                            (flavors d)) <= 1)%nat
    /\ (List.length (filter (fun l => String.eqb (NodeFlavor.flavor_name l) flavor_name)
                            (node_flavors d)) <= 1)%nat
    /\ (List.length (filter (fun n => String.eqb (Network.name n) network_name)
                            (networks d)) <= 1)%nat
    /\ (List.length (filter (fun l => String.eqb (NodeNetwork.network_name l)
                                                 network_name)
                            (node_networks d)) <= 1)%nat.
Proof.
  intros env cfg server_info d p Hp network_name flavor_name.
  subst network_name flavor_name. unfold requested_network.
  destruct (server_rent env cfg server_info (start d)) as [r w'] eqn:H.
  cbn [fst] in Hp. subst r. unfold server_rent in H. paths H.
  all: repeat match goal with
              | E : sc_network_name _ = _ |- _ => rewrite E in *; clear E
              end.
  all: cbn [List.length]; repeat split; lia.
Qed.

Lemma server_rent_succeeds_only_if_witness :
  let network_links :=
    filter (fun l => String.eqb (NodeNetwork.network_name l) "lab-net")
           (node_networks flagged_lab) in
  filter (fun s => String.eqb (Server.server_name s) "lab2") (servers flagged_lab) = []
  /\ (List.length (filter (fun f => String.eqb (Flavor.name f) "m1.small")
                          (flavors flagged_lab)) <= 1)%nat
  /\ (List.length (filter (fun l => String.eqb (NodeFlavor.flavor_name l) "m1.small")
                          (node_flavors flagged_lab)) <= 1)%nat
  /\ (List.length (filter (fun n => String.eqb (Network.name n) "lab-net")
                          (networks flagged_lab)) <= 1)%nat
  /\ (List.length network_links <= 1)%nat.
Proof.
  exact (server_rent_succeeds_only_if healthy example_config rent_lab2 flagged_lab
           (ServerRentalResponseDTO "lab2_keypair.pem" "PRIVATE KEY")
           ltac:(vm_compute; reflexivity)).
Defined.

(** ** Renting a container *)

(** X4: a container rental is all or nothing on the inventory: either it
    answers 201 or the stored tables are those it started from, whatever
    fails and whether or not the handler answers. *)
Theorem rental_all_or_nothing :
  forall (env : environment) cfg container_info d,
    let result := rental env cfg container_info (start d) in
    fst result = inr (ApiResponse HTTP_201_CREATED NoPayload)
    \/ persisted (snd result) = d.
Proof.
  intros env cfg container_info d result. subst result.
  destruct (rental env cfg container_info (start d)) as [r w'] eqn:H.
  cbn [fst snd]. unfold rental in H. paths H.
  all: inversion H; subst; clear H; cbn [persisted committed fst snd].
  all: first [right; reflexivity | left; reflexivity].
Qed.

(** The tables that a container rental that answers 201 leaves, and what it
    found when it looked the names up. *)
Lemma rental_tables (env : environment) cfg container_info d p w' :
  rental env cfg container_info (start d) = (inr (ApiResponse HTTP_201_CREATED p), w') ->
  let network_name := requested_container_network cfg container_info in
  let node_name := cc_node_name container_info in
  filter (fun c => String.eqb (Container.container_name c) (cc_container_name container_info))
         (containers d) = []
  /\ (List.length (filter (fun n => String.eqb (Network.name n) network_name)
                          (networks d)) <= 1)%nat
  /\ exists ip port,
       persisted w'
       = mkDb (servers d)
              (containers d
               ++ [Container.mk (next_id (map Container.id (containers d)))
                     (cc_user_name container_info) (cc_container_name container_info)
                     (cc_start_date container_info) (cc_end_date container_info)
                     (cc_image_name container_info)
                     (Hashlib.sha256_hexdigest (cc_password container_info))
                     ip port network_name node_name])%list
              (flavors d) (node_flavors d)
              (networks d
               ++ missing (filter (fun n => String.eqb (Network.name n) network_name)
                                  (networks d))
                    (Network.mk network_name (cc_subnet_cidr container_info) false))%list
              (node_networks d
               ++ missing (filter (fun l => String.eqb (NodeNetwork.network_name l)
                                                       network_name)
                                  (node_networks d))
                    (NodeNetwork.mk node_name network_name))%list.
Proof.
  intros H. unfold rental in H. paths H.
  all: inversion H; subst; clear H.
  all: cbv zeta; unfold requested_container_network.
  all: repeat match goal with
              | E : cc_network_name _ = _ |- _ => rewrite E in *; clear E
              end.
  all: repeat match goal with
              | E : filter _ _ = _ |- _ => rewrite E; clear E
              end.
  all: cbn [persisted committed trace missing app List.length];
       rewrite ?app_nil_r, ?filter_true.
  all: split; [reflexivity | split; [lia | do 2 eexists; reflexivity]].
Qed.

(** X5: what a container rental that answers 201 consists of.  The calls
    made are the isolation of the network when no node has a link to a
    network of that name, the creation of the container on the network of
    the request, or on the external network when the request names none, and
    the commit.  The tables stored are those before with one container row
    more, whose key is new, whose password is the SHA-256 digest of the one
    requested and whose address is the first address of the first network of
    the container the cloud returned, with a network row (not default) when
    none of that name was there and a link when none of that network was
    there. *)
Theorem rental_success :
  forall (env : environment) cfg container_info d p w',
    rental env cfg container_info (start d)
    = (inr (ApiResponse HTTP_201_CREATED p), w') ->
    let network_name := requested_container_network cfg container_info in
    let node_name := cc_node_name container_info in
    let known_network :=
      filter (fun n => String.eqb (Network.name n) network_name) (networks d) in
    let network_links :=
      filter (fun l => String.eqb (NodeNetwork.network_name l) network_name)
             (node_networks d) in
    let before :=
      missing network_links
        (NetworkIsolation node_name network_name (cc_subnet_cidr container_info)) in
    let create :=
      CreateContainer (cc_container_name container_info) node_name
        (cc_image_name container_info) network_name
        (cc_env container_info) (cc_cmd container_info) in
    exists container addr others more,
      env before create = inr container
      /\ addresses container = (addr :: others) :: more
      /\ persisted w'
         = mkDb (servers d)
                (containers d
                 ++ [Container.mk (next_id (map Container.id (containers d)))
                       (cc_user_name container_info) (cc_container_name container_info)
                       (cc_start_date container_info) (cc_end_date container_info)
                       (cc_image_name container_info)
                       (Hashlib.sha256_hexdigest (cc_password container_info))
                       addr (ports container) network_name node_name])%list
                (flavors d) (node_flavors d)
                (networks d
                 ++ missing known_network
                      (Network.mk network_name (cc_subnet_cidr container_info) false))%list
                (node_networks d
                 ++ missing network_links (NodeNetwork.mk node_name network_name))%list
      /\ trace w' = (before ++ [create; Commit])%list.
Proof.
  intros env cfg container_info d p w' H. unfold rental in H. paths H.
  all: inversion H; subst; clear H.
  all: cbv zeta; unfold requested_container_network.
  all: repeat match goal with
              | E : cc_network_name _ = _ |- _ => rewrite E in *; clear E
              end.
  all: repeat match goal with
              | E : filter _ _ = _ |- _ => rewrite E; clear E
              end.
  all: cbn [persisted committed trace missing app]; rewrite ?app_nil_r, ?filter_true.
  all: do 4 eexists; (split; [eassumption|]); (split; [eassumption | split; reflexivity]).
Qed.

Lemma rental_success_witness :
  let w' := snd (rental healthy example_config rent_box2 (start two_rentals)) in
  let create := CreateContainer "box2" "node1" "nginx" "tenant-net" "" "" in
  exists container addr others more,
    healthy [] create = inr container
    /\ addresses container = (addr :: others) :: more
    /\ persisted w'
       = mkDb [web1]
              [box1;
               Container.mk 2 "bob" "box2" (mkDate 2024 1 1) (mkDate 2024 2 1) "nginx"
                 (Hashlib.sha256_hexdigest "hunter2") addr (ports container)
                 "tenant-net" "node1"]
              (flavors two_rentals) (node_flavors two_rentals)
              (networks two_rentals) (node_networks two_rentals)
    /\ trace w' = [create; Commit].
Proof.
  exact (rental_success healthy example_config rent_box2 two_rentals NoPayload
           (snd (rental healthy example_config rent_box2 (start two_rentals)))
           ltac:(vm_compute; reflexivity)).
Defined.

(** X6: what a container rental needs to succeed.  Whatever the cloud and
    the database answer, the rental answers 201 only if no container has the
    name, at most one network has the name requested and at most one node,
    whichever it is, has a link to that network: a rental on a network
    that has links on two nodes never succeeds. *)
Theorem rental_succeeds_only_if :
  forall (env : environment) cfg container_info d,
    fst (rental env cfg container_info (start d))
    = inr (ApiResponse HTTP_201_CREATED NoPayload) ->
    let network_name := requested_container_network cfg container_info in
    filter (fun c => String.eqb (Container.container_name c)
                                (cc_container_name container_info))
           (containers d) = []
    /\ (List.length (filter (fun n => String.eqb (Network.name n) network_name)
                            (networks d)) <= 1)%nat
    /\ (List.length (filter (fun l => String.eqb (NodeNetwork.network_name l)
                                                 network_name)
                            (node_networks d)) <= 1)%nat.
Proof.
  intros env cfg container_info d Hp network_name.
  subst network_name. unfold requested_container_network.
  destruct (rental env cfg container_info (start d)) as [r w'] eqn:H.
  cbn [fst] in Hp. subst r. unfold rental in H. paths H.
  all: repeat match goal with
              | E : cc_network_name _ = _ |- _ => rewrite E in *; clear E
              end.
  all: cbn [List.length]; repeat split; lia.
Qed.

Lemma rental_succeeds_only_if_witness :
  filter (fun c => String.eqb (Container.container_name c) "box2")
         (containers two_rentals) = []
  /\ (List.length (filter (fun n => String.eqb (Network.name n) "tenant-net")
                          (networks two_rentals)) <= 1)%nat
  /\ (List.length (filter (fun l => String.eqb (NodeNetwork.network_name l) "tenant-net")
                          (node_networks two_rentals)) <= 1)%nat.
Proof.
  exact (rental_succeeds_only_if healthy example_config rent_box2 two_rentals
           ltac:(vm_compute; reflexivity)).
Defined.

(** ** Renewing *)

(** X7: a key that the server does not accept ends the request.  When the
    validation of the key answers false, the renewal of either router and
    the return of a server answer 400, and the validation is the only call
    made: no table is read or changed and nothing is logged. *)
Theorem rejected_key_does_nothing :
  forall (env : environment) cfg parse server_name host_ip end_date password key_file w,
    env (trace w) (ValidateSshKey host_ip server_name key_file password) = inr false ->
    let w' := mkWorld (committed w) (working w)
                      (trace w ++ [ValidateSshKey host_ip server_name key_file password])%list
                      (log w) in
    server_renew env parse server_name host_ip end_date password key_file w
    = (inr (ErrorResponse HTTP_400_BAD_REQUEST "입력한 정보가 잘못됨"), w')
    /\ db_server_renew env parse server_name host_ip end_date password key_file w
       = (inr (ApiResponse HTTP_400_BAD_REQUEST (Text "입력한 정보가 잘못됨")), w')
    /\ server_return env cfg server_name host_ip password key_file w
       = (inr (ErrorResponse HTTP_400_BAD_REQUEST "입력한 정보가 잘못됨"), w').
Proof.
  intros env cfg parse server_name host_ip end_date password key_file w H w'.
  unfold server_renew, db_server_renew, server_return.
  rewrite !bind_call, H. repeat split.
Qed.

Lemma rejected_key_does_nothing_witness :
  let w' := mkWorld two_rentals two_rentals [ValidateSshKey "203.0.113.5" "web1" "" "pw"] [] in
  server_renew wrong_key plain_date_of_string "web1" "203.0.113.5" "2024-03-31" "pw" ""
               (start two_rentals)
  = (inr (ErrorResponse HTTP_400_BAD_REQUEST "입력한 정보가 잘못됨"), w')
  /\ db_server_renew wrong_key plain_date_of_string "web1" "203.0.113.5" "2024-03-31" "pw" ""
                     (start two_rentals)
     = (inr (ApiResponse HTTP_400_BAD_REQUEST (Text "입력한 정보가 잘못됨")), w')
  /\ server_return wrong_key example_config "web1" "203.0.113.5" "pw" "" (start two_rentals)
     = (inr (ErrorResponse HTTP_400_BAD_REQUEST "입력한 정보가 잘못됨"), w').
Proof.
  exact (rejected_key_does_nothing wrong_key example_config plain_date_of_string
           "web1" "203.0.113.5" "2024-03-31" "pw" "" (start two_rentals) eq_refl).
Defined.

(** X8: a renewal is all or nothing on the inventory, in both routers:
    either it answers that the rental is extended or the stored tables are
    those it started from. *)
Theorem renewal_all_or_nothing :
  forall (env : environment) parse d server_name host_ip end_date password key_file,
    (let result := server_renew env parse server_name host_ip end_date password key_file
                                (start d) in
     fst result = inr renewal_succeeded \/ persisted (snd result) = d)
    /\ (let result := db_server_renew env parse server_name host_ip end_date password
                                      key_file (start d) in
        fst result = inr renewal_succeeded \/ persisted (snd result) = d).
Proof.
  intros env parse d server_name host_ip end_date password key_file. split.
  - destruct (server_renew env parse server_name host_ip end_date password key_file
                           (start d)) as [r w'] eqn:H.
    cbn [fst snd]. unfold server_renew in H. paths H.
    all: inversion H; subst; clear H; cbn [persisted committed fst snd].
    all: first [right; reflexivity | left; reflexivity].
  - destruct (db_server_renew env parse server_name host_ip end_date password key_file
                              (start d)) as [r w'] eqn:H.
    cbn [fst snd]. unfold db_server_renew in H. paths H.
    all: inversion H; subst; clear H; cbn [persisted committed fst snd].
    all: first [right; reflexivity | left; reflexivity].
Qed.

Ltac not_granted :=
  let Hg := fresh in intros Hg; exfalso; decompose [and ex] Hg; congruence.

(** X9: when a renewal succeeds.  In both routers the renewal answers that
    the rental is extended exactly when the key is accepted, exactly one
    server has the name, the end date reads as a date and the commit goes
    through; the validation and the commit are then the only calls. *)
Theorem renewal_succeeds_iff :
  forall (env : environment) parse d server_name host_ip end_date password key_file,
    let validate := ValidateSshKey host_ip server_name key_file password in
    let granted :=
      env [] validate = inr true
      /\ (exists s, filter (fun r => String.eqb (Server.server_name r) server_name)
                           (servers d) = [s])
      /\ (exists new_end_date, parse end_date = inr new_end_date)
      /\ env [validate] Commit = inr tt in
    let a := server_renew env parse server_name host_ip end_date password key_file
                          (start d) in
    let b := db_server_renew env parse server_name host_ip end_date password key_file
                             (start d) in
    (fst a = inr renewal_succeeded <-> granted)
    /\ (fst b = inr renewal_succeeded <-> granted)
    /\ (granted -> trace (snd a) = [validate; Commit] /\ trace (snd b) = [validate; Commit]).
Proof.
  intros env parse d server_name host_ip end_date password key_file validate granted a b.
  subst validate granted a b. unfold renewal_succeeded, server_renew, db_server_renew.
  rewrite !bind_call. cbn [start trace committed working log app].
  destruct (env [] (ValidateSshKey host_ip server_name key_file password)) as [e|[|]].
  1,3: split; [|split];
       [ split; [discriminate | not_granted]
       | split; [discriminate | not_granted]
       | not_granted ].
  unfold_handler.
  destruct (filter _ (servers d)) as [|s [|s2 rest]].
  1,3: split; [|split];
       [ split; [discriminate | not_granted]
       | split; [discriminate | not_granted]
       | not_granted ].
  unfold_handler.
  destruct (parse end_date) as [e|new_end_date].
  1: split; [|split];
     [ split; [discriminate | not_granted]
     | split; [discriminate | not_granted]
     | not_granted ].
  unfold_handler.
  destruct (env [ValidateSshKey host_ip server_name key_file password] Commit) as [e|[]].
  1: split; [|split];
     [ split; [discriminate | not_granted]
     | split; [discriminate | not_granted]
     | not_granted ].
  repeat split; eexists; reflexivity.
Qed.

(** X10: the renewals of the two routers do the same.  From the same
    state, the renewal of [server_router] and that of [db_router] make the
    same calls and leave the same tables, stored and in the session, and one
    answers that the rental is extended exactly when the other does; they
    differ in the answers of failure and in that only the first logs the
    exception. *)
Theorem renewals_agree :
  forall (env : environment) parse server_name host_ip end_date password key_file w,
    let a := server_renew env parse server_name host_ip end_date password key_file w in
    let b := db_server_renew env parse server_name host_ip end_date password key_file w in
    committed (snd a) = committed (snd b)
    /\ working (snd a) = working (snd b)
    /\ trace (snd a) = trace (snd b)
    /\ (fst a = inr renewal_succeeded <-> fst b = inr renewal_succeeded)
    /\ log (snd b) = log w.
Proof.
  intros env parse server_name host_ip end_date password key_file w a b. subst a b.
  unfold renewal_succeeded, server_renew, db_server_renew.
  rewrite !bind_call.
  destruct (env (trace w) _) as [e|[|]].
  1,3: cbn; repeat split; discriminate.
  unfold_handler.
  destruct (filter _ (servers (working w))) as [|s [|s2 rest]].
  1,3: cbn; repeat split; discriminate.
  unfold_handler.
  destruct (parse end_date) as [e|new_end_date].
  1: cbn; repeat split; discriminate.
  unfold_handler.
  destruct (env _ Commit) as [e|[]]; cbn; repeat split; discriminate.
Qed.

(** ** Returning a server *)

(** X11: what the return of a server can leave.  On every path, either the
    answer is not the one of success and the stored tables are those before,
    or exactly one server had the name, the commit was made and the stored
    tables are those before without the row of that server, whatever the
    answer is: what follows the commit changes no table. *)
Theorem server_return_outcomes :
  forall (env : environment) cfg d server_name host_ip password key_file,
    let result := server_return env cfg server_name host_ip password key_file (start d) in
    (fst result <> inr server_returned /\ persisted (snd result) = d)
    \/ (exists s,
          filter (fun r => String.eqb (Server.server_name r) server_name) (servers d) = [s]
          /\ persisted (snd result) = without_server_row s d
          /\ In Commit (trace (snd result))).
Proof.
  intros env cfg d server_name host_ip password key_file result. subst result.
  destruct (server_return env cfg server_name host_ip password key_file (start d))
    as [r w'] eqn:H.
  cbn [fst snd]. unfold server_return in H. every_path H.
  all: loops_change_nothing.
  all: injection H as <- <-; unfold persisted; cbn [committed trace fst snd]; use_tables.
  all: try (left; split; [discriminate | reflexivity]).
  all: right; eexists; (split; [reflexivity|]); split;
         [ reflexivity | rewrite ?in_app_iff; cbn; tauto ].
Qed.

Lemma delete_ips_go_through env node_name (ips : list Z) (w : world) :
  no_raise env ->
  for_each ips (fun floating_ip => call env (NetworkDeleteIp node_name floating_ip)) w
  = (inr tt, mkWorld (committed w) (working w)
                     (trace w ++ map (NetworkDeleteIp node_name) ips)%list (log w)).
Proof.
  intros Hnr. revert w. induction ips as [|ip ips IH]; intros w; cbn [for_each map].
  - rewrite app_nil_r. destruct w; reflexivity.
  - destruct (call_goes_through env (NetworkDeleteIp node_name ip) w Hnr) as [v [_ Hv]].
    rewrite (bind_returns _ _ _ _ _ Hv), IH. cbn [committed working trace log].
    rewrite <- app_assoc. reflexivity.
Qed.

(** The run of [delete_server] on a server that is there, when every call
    returns. *)
Lemma delete_server_run (env : environment) server_name node_name w server :
  no_raise env ->
  env (trace w) (ComputeFindServer node_name server_name) = inr (Some server) ->
  exists floating_ips,
    env (trace w ++ [ComputeFindServer node_name server_name])%list
        (NetworkIps node_name (os_id server)) = inr floating_ips
    /\ delete_server env server_name node_name w
       = (inr tt,
          mkWorld (committed w) (working w)
                  (trace w
                   ++ ComputeFindServer node_name server_name
                   :: NetworkIps node_name (os_id server)
                   :: map (NetworkDeleteIp node_name) floating_ips
                   ++ [ComputeDeleteServer node_name (os_id server)])%list
                  (log w)).
Proof.
  intros Hnr Hfind.
  unfold delete_server. rewrite bind_call, Hfind.
  set (w1 := mkWorld (committed w) (working w)
                     (trace w ++ [ComputeFindServer node_name server_name])%list (log w)).
  destruct (call_goes_through env (NetworkIps node_name (os_id server)) w1 Hnr)
    as [ips [Hanswer Hips]].
  exists ips. split; [exact Hanswer|].
  rewrite (bind_returns _ _ _ _ _ Hips).
  match goal with
  | |- context [bind (for_each ?l ?f) ?k ?w2] =>
      rewrite (bind_returns (for_each l f) k w2 _ tt
                 (delete_ips_go_through env _ l w2 Hnr))
  end.
  cbn [committed working trace log w1].
  match goal with
  | |- context [call env ?e ?w3] =>
      destruct (call_goes_through env e w3 Hnr) as [[] [_ Hdel]]; rewrite Hdel
  end.
  cbn [committed working trace log].
  repeat rewrite <- app_assoc. reflexivity.
Qed.

(** X12: the order in which the controller deletes a server.  When every
    call returns, [delete_server] returns; it has looked the server up and,
    when the server is there, listed its floating addresses, deleted each of
    them in the order of the listing and then deleted the server, and when
    it is not, raised [AttributeError] after the look-up alone.  It touches
    no table. *)
Theorem delete_server_order :
  forall (env : environment) server_name node_name w,
    no_raise env ->
    let find := ComputeFindServer node_name server_name in
    let result := delete_server env server_name node_name w in
    same_tables w (snd result)
    /\ match env (trace w) find with
       | inr (Some server) =>
           exists floating_ips,
             env (trace w ++ [find])%list (NetworkIps node_name (os_id server))
             = inr floating_ips
             /\ fst result = inr tt
             /\ trace (snd result)
                = (trace w
                   ++ find
                   :: NetworkIps node_name (os_id server)
                   :: map (NetworkDeleteIp node_name) floating_ips
                   ++ [ComputeDeleteServer node_name (os_id server)])%list
       | _ => fst result = inl AttributeError
              /\ trace (snd result) = (trace w ++ [find])%list
       end.
Proof.
  intros env server_name node_name w Hnr find result. subst find result.
  destruct (env (trace w) (ComputeFindServer node_name server_name))
    as [e|[server|]] eqn:Hfind.
  - destruct (Hnr (trace w) (ComputeFindServer node_name server_name)) as [v Hv].
    rewrite Hv in Hfind. discriminate.
  - destruct (delete_server_run env server_name node_name w server Hnr Hfind)
      as [ips [Hips Hrun]].
    rewrite Hrun. cbn [fst snd]. split.
    + repeat split. cbn [trace]. eexists. reflexivity.
    + exists ips. auto.
  - unfold delete_server. rewrite bind_call, Hfind. cbn [fst snd]. split.
    + repeat split. cbn [trace]. eexists. reflexivity.
    + split; reflexivity.
Qed.

Lemma delete_server_order_witness :
  let result := delete_server healthy "web1" "node1" (start two_rentals) in
  same_tables (start two_rentals) (snd result)
  /\ exists floating_ips,
       healthy [ComputeFindServer "node1" "web1"] (NetworkIps "node1" 1) = inr floating_ips
       /\ fst result = inr tt
       /\ trace (snd result)
          = ([] ++ ComputeFindServer "node1" "web1"
                :: NetworkIps "node1" 1
                :: map (NetworkDeleteIp "node1") floating_ips
                ++ [ComputeDeleteServer "node1" 1])%list.
Proof.
  exact (delete_server_order healthy "web1" "node1" (start two_rentals) healthy_no_raise).
Defined.

(** X13: the return of a server never sees its own success when the cloud
    is consistent.  After the commit the handler looks the server up again;
    in an environment where every call returns and where a server that has
    been deleted is no longer found, the return of a server that is there
    deletes it in the cloud and its row in the inventory, and then answers
    500, with [AttributeError] logged. *)
Theorem server_return_after_cloud_deletion :
  forall (env : environment) cfg d s server_name host_ip password key_file server,
    no_raise env ->
    filter (fun r => String.eqb (Server.server_name r) server_name) (servers d) = [s] ->
    env [] (ValidateSshKey host_ip server_name key_file password) = inr true ->
    env [ValidateSshKey host_ip server_name key_file password]
        (ComputeFindServer (Server.node_name s) server_name) = inr (Some server) ->
    (forall history,
        In (ComputeDeleteServer (Server.node_name s) (os_id server)) history ->
        env history (ComputeFindServer (Server.node_name s) server_name) = inr None) ->
    let result := server_return env cfg server_name host_ip password key_file (start d) in
    fst result = inr (ErrorResponse HTTP_500_INTERNAL_SERVER_ERROR "백엔드 내부 오류")
    /\ log (snd result) = [AttributeError]
    /\ persisted (snd result) = without_server_row s d
    /\ In (ComputeDeleteServer (Server.node_name s) (os_id server)) (trace (snd result)).
Proof.
  intros env cfg d s server_name host_ip password key_file server
         Hnr Hrow Hvalid Hfound Hgone result.
  subst result. unfold server_return.
  rewrite bind_call. cbn [start trace committed working log app]. rewrite Hvalid.
  destruct (delete_server_run env server_name (Server.node_name s)
              (mkWorld d d [ValidateSshKey host_ip server_name key_file password] [])
              server Hnr Hfound) as [ips [_ Hdelete]].
  cbn [committed working trace log app] in Hdelete.
  match goal with
  | |- context [bind (attempt ?m) ?k ?w1] =>
      assert (Hbody : exists t,
                 In (ComputeDeleteServer (Server.node_name s) (os_id server)) t
                 /\ m w1 = (inl AttributeError,
                            mkWorld (without_server_row s d) (without_server_row s d) t []))
  end.
  { rewrite bind_select. cbn [working]. rewrite Hrow. cbn [one]. rewrite bind_ret.
    rewrite (bind_returns _ _ _ _ _ Hdelete).
    unfold delete_server_row. rewrite bind_change. cbn [committed working trace log].
    match goal with
    | |- context [bind (session_commit env) _ ?w2] =>
        destruct (Hnr (trace w2) Commit) as [v Hv]; rewrite (bind_commit env _ w2 v Hv)
    end.
    cbn [committed working trace log].
    rewrite bind_find_server. cbn [committed working trace log].
    rewrite Hgone.
    - eexists. split; [|reflexivity].
      rewrite !in_app_iff. cbn. rewrite in_app_iff. cbn. tauto.
    - rewrite !in_app_iff. cbn. rewrite in_app_iff. cbn. tauto. }
  destruct Hbody as [t [Hin Hbody]].
  rewrite (bind_returns _ _ _ _ _ (attempt_run _ _ _ _ Hbody)).
  cbn. repeat split. exact Hin.
Qed.

Lemma server_return_after_cloud_deletion_witness :
  let result := server_return forgets_deleted example_config "web1" "203.0.113.5" "" ""
                              (start two_rentals) in
  fst result = inr (ErrorResponse HTTP_500_INTERNAL_SERVER_ERROR "백엔드 내부 오류")
  /\ log (snd result) = [AttributeError]
  /\ persisted (snd result) = without_server_row web1 two_rentals
  /\ In (ComputeDeleteServer "node1" 1) (trace (snd result)).
Proof.
  apply (server_return_after_cloud_deletion forgets_deleted example_config two_rentals
           web1 "web1" "203.0.113.5" "" "" (mkOsServer 1 "m1.small")
           forgets_deleted_no_raise).
  - reflexivity.
  - reflexivity.
  - reflexivity.
  - intros history Hin. cbn.
    replace (existsb is_compute_delete_server history) with true; [reflexivity|].
    symmetry. apply existsb_exists. eexists. split; [exact Hin | reflexivity].
Defined.

(** ** Returning a container *)

Lemma unlinked_nil rows : unlinked [] rows = rows.
Proof. unfold unlinked. cbn. apply filter_true. Qed.

Lemma unlinked_cons t targets rows :
  unlinked targets
    (filter (fun r => negb (String.eqb (NodeNetwork.node_name r) (NodeNetwork.node_name t)
                            && String.eqb (NodeNetwork.network_name r)
                                          (NodeNetwork.network_name t))) rows)
  = unlinked (t :: targets) rows.
Proof.
  unfold unlinked. rewrite filter_filter. apply filter_ext. intros r.
  cbn [existsb]. unfold same_link at 2. rewrite negb_orb. reflexivity.
Qed.

Lemma unlinked_all network_name rows :
  unlinked (filter (fun l => String.eqb (NodeNetwork.network_name l) network_name) rows) rows
  = filter (fun l => negb (String.eqb (NodeNetwork.network_name l) network_name)) rows.
Proof.
  unfold unlinked. apply filter_ext_in. intros r Hr. f_equal.
  destruct (String.eqb (NodeNetwork.network_name r) network_name) eqn:Hname.
  - apply existsb_exists. exists r. split.
    + apply (proj2 (filter_In _ r rows)). auto.
    + unfold same_link. rewrite !String.eqb_refl. reflexivity.
  - destruct (existsb _ _) eqn:Hex; [|reflexivity].
    apply existsb_exists in Hex. destruct Hex as [t [Ht Hsame]].
    apply filter_all in Ht. unfold same_link in Hsame.
    apply andb_prop in Hsame. destruct Hsame as [_ Hsame].
    apply String.eqb_eq in Hsame, Ht. rewrite Hsame, Ht, String.eqb_refl in Hname.
    discriminate.
Qed.

(** What the loop over the links of a network leaves, whatever the
    environment: the links released so far are gone from the session, and
    when the loop returns these are all the links it was given, released in
    their order. *)
Lemma release_links env (targets : list NodeNetwork.t) w r w' :
  for_each targets (release_link env) w = (r, w') ->
  committed w' = committed w
  /\ log w' = log w
  /\ (exists t, trace w' = (trace w ++ t)%list)
  /\ exists done,
       working w' = with_node_networks (unlinked done) (working w)
       /\ (r = inr tt ->
           done = targets
           /\ trace w'
              = (trace w
                 ++ map (fun t => NetworkDelete (NodeNetwork.node_name t)
                                                (NodeNetwork.network_name t)) targets)%list).
Proof.
  revert w. induction targets as [|t targets IH]; intros w H; cbn [for_each] in H.
  - injection H as <- <-. repeat split.
    + exists []. symmetry. apply app_nil_r.
    + exists []. split; [|intros _; split; [reflexivity | symmetry; apply app_nil_r]].
      unfold with_node_networks.
      rewrite unlinked_nil. destruct w as [c [? ? ? ? ? ?] ? ?]; reflexivity.
  - unfold release_link at 1 in H. rewrite bind_assoc, bind_call in H.
    destruct (env (trace w) _) as [e|v].
    + injection H as <- <-. cbn. repeat split.
      * eexists. reflexivity.
      * exists []. split; [|discriminate]. unfold with_node_networks.
        rewrite unlinked_nil. destruct w as [c [? ? ? ? ? ?] ? ?]; reflexivity.
    + unfold delete_node_network_row in H. rewrite bind_change in H.
      apply IH in H. cbn [committed working trace log] in H.
      destruct H as [Hc [Hl [[tr Ht] [done [Hw Hdone]]]]].
      repeat split; auto.
      * eexists. rewrite Ht, <- app_assoc. reflexivity.
      * exists (t :: done). split.
        -- rewrite Hw. unfold with_node_networks.
           cbn [servers containers flavors node_flavors networks node_networks].
           rewrite unlinked_cons. reflexivity.
        -- intros Hr. destruct (Hdone Hr) as [-> Htr]. split; [reflexivity|].
           rewrite Htr, <- app_assoc. reflexivity.
Qed.

(** The paths of the return of a container, the loop replaced by what it
    leaves. *)
Ltac container_return_paths env H :=
  unfold container_return in H;
  change (fun target_node_network : NodeNetwork.t =>
            call env (NetworkDelete (NodeNetwork.node_name target_node_network)
                                    (NodeNetwork.network_name target_node_network)) ;;
            delete_node_network_row target_node_network)
    with (release_link env) in H;
  every_path H;
  repeat match goal with
         | E : ?m ?w = (?r, ?w') |- _ =>
             match m with
             | for_each ?l (release_link _) =>
                 apply release_links in E;
                 cbn [committed working trace log] in E;
                 destruct E as [? [? [[? ?] [? [? ?]]]]]
             end
         end.

Ltac network_released :=
  match goal with
  | u : unit, Hd : inr _ = inr tt -> _ |- _ =>
      destruct u; destruct (Hd eq_refl) as [? ?]; subst
  end;
  match goal with
  | E : filter _ (networks (with_node_networks _ _)) = [?n] |- _ =>
      apply filter_singleton in E; destruct E as [_ [E _]];
      apply String.eqb_eq in E; rewrite E
  end.

(** X14: what the return of a container can leave.  On every path, either
    the answer is not the one of success and the stored tables are those
    before, or exactly one container had the name, the password hashes to
    its credential and the stored tables are those before without the row
    of the container, or, with the answer of success, without that row and
    without any row of its network. *)
Theorem container_return_outcomes :
  forall (env : environment) d container_info,
    let result := container_return env container_info (start d) in
    (fst result <> inr container_returned /\ persisted (snd result) = d)
    \/ (exists c,
          filter (fun r => String.eqb (Container.container_name r)
                                      (cr_container_name container_info))
                 (containers d) = [c]
          /\ Container.password c = Hashlib.sha256_hexdigest (cr_password container_info)
          /\ (persisted (snd result) = without_container_row c d
              \/ (persisted (snd result) = container_network_released c d
                  /\ fst result = inr container_returned))).
Proof.
  intros env d container_info result. subst result.
  destruct (container_return env container_info (start d)) as [r w'] eqn:H.
  cbn [fst snd]. container_return_paths env H.
  all: injection H as <- <-; unfold persisted; cbn [committed fst snd]; use_tables.
  all: try (left; split; [discriminate | reflexivity]).
  all: right; eexists; (split; [reflexivity|]).
  all: match goal with
       | E : negb (String.eqb ?a ?b) = false |- _ =>
           apply negb_false_iff, String.eqb_eq in E; split; [symmetry; exact E|]
       end.
  all: try (left; reflexivity).
  all: right; split; [|reflexivity].
  all: network_released.
  all: unfold container_network_released, without_network, without_container_row,
         with_networks, with_node_networks, with_containers;
       cbn [servers containers flavors node_flavors networks node_networks];
       rewrite unlinked_all; reflexivity.
Qed.

(** The tables that the return of a container that answers 200 leaves. *)
Lemma container_return_tables (env : environment) d container_info w' :
  container_return env container_info (start d) = (inr container_returned, w') ->
  exists c n,
    filter (fun r => String.eqb (Container.container_name r)
                                (cr_container_name container_info))
           (containers d) = [c]
    /\ filter (fun r => String.eqb (Network.name r) (Container.network_name c))
              (networks d) = [n]
    /\ persisted w'
       = if (attached (Network.name n) (without_container_row c d) =? 0)%nat
            && negb (Network.is_default n)
         then container_network_released c d
         else without_container_row c d.
Proof.
  intros H. unfold container_returned in H. container_return_paths env H.
  all: injection H as <-; unfold persisted; cbn [committed trace]; use_tables.
  all: match goal with
       | E : filter _ (networks ?db) = [?n] |- exists c _, [?t] = [c] /\ _ =>
           is_var db; exists t, n; split; [reflexivity|]; split; [exact E|]
       end.
  all: unfold attached, without_container_row, with_containers;
       cbn [servers containers flavors node_flavors networks node_networks].
  all: match goal with
       | E : (_ =? 0)%nat && negb _ = _ |- _ => rewrite E
       end.
  all: try reflexivity.
  all: network_released.
  all: unfold container_network_released, without_network, without_container_row,
         with_networks, with_node_networks, with_containers;
       cbn [servers containers flavors node_flavors networks node_networks];
       rewrite unlinked_all; reflexivity.
Qed.

(** X15: what the return of a container that answers 200 consists of.
    Exactly one container had the name and the password hashes to its
    credential; exactly one network row has the name of its network.  The
    container is deleted in the cloud and its row is committed.  Then, when
    no rental is left on the network and its row is not flagged as default,
    the network is deleted in the cloud on every node that has a link to it,
    in the order of the table, and its links and its row are deleted and
    committed; otherwise nothing more is deleted and the second commit
    stores what the first did. *)
Theorem container_return_success :
  forall (env : environment) d container_info w',
    container_return env container_info (start d) = (inr container_returned, w') ->
    exists c n,
      filter (fun r => String.eqb (Container.container_name r)
                                  (cr_container_name container_info))
             (containers d) = [c]
      /\ Container.password c = Hashlib.sha256_hexdigest (cr_password container_info)
      /\ filter (fun r => String.eqb (Network.name r) (Container.network_name c))
                (networks d) = [n]
      /\ let release :=
           (attached (Network.name n) (without_container_row c d) =? 0)%nat
           && negb (Network.is_default n) in
         persisted w'
         = (if release then container_network_released c d else without_container_row c d)
         /\ trace w'
            = (DeleteContainer (cr_container_name container_info) (Container.node_name c)
               :: Commit
               :: (if release
                   then map (fun t => NetworkDelete (NodeNetwork.node_name t)
                                                    (NodeNetwork.network_name t))
                            (filter (fun l => String.eqb (NodeNetwork.network_name l)
                                                         (Container.network_name c))
                                    (node_networks d))
                   else [])
               ++ [Commit])%list.
Proof.
  intros env d container_info w' H.
  unfold container_returned in H. container_return_paths env H.
  all: injection H as <-; unfold persisted; cbn [committed trace]; use_tables.
  all: match goal with
       | E : filter _ (networks ?db) = [?n] |- exists c _, [?t] = [c] /\ _ =>
           is_var db; exists t, n; split; [reflexivity|]; split; [|split; [exact E|]]
       end.
  all: try match goal with
       | E : negb (String.eqb ?a ?b) = false |- _ = _ =>
           apply negb_false_iff, String.eqb_eq in E; symmetry; exact E
       end.
  all: cbv zeta; unfold attached, without_container_row, with_containers;
       cbn [servers containers flavors node_flavors networks node_networks].
  all: match goal with
       | E : (_ =? 0)%nat && negb _ = _ |- _ => rewrite E
       end.
  all: try (split; reflexivity).
  all: match goal with
       | u : unit, Hd : inr _ = inr tt -> _ |- _ =>
           destruct u; destruct (Hd eq_refl) as [? Htrace]; subst
       end.
  all: match goal with
       | E : filter _ (networks (with_node_networks _ _)) = [?n] |- _ =>
           apply filter_singleton in E; destruct E as [_ [E _]];
           apply String.eqb_eq in E; rewrite E
       end.
  all: split.
  - unfold container_network_released, without_network, without_container_row,
      with_networks, with_node_networks, with_containers.
    cbn [servers containers flavors node_flavors networks node_networks].
    rewrite unlinked_all. reflexivity.
  - rewrite Htrace. reflexivity.
Qed.

Lemma container_return_success_witness :
  let request := mkContainerReturnRequestDTO "box1" "s3cret" in
  let w' := snd (container_return healthy request (start two_rentals)) in
  exists c n,
    filter (fun r => String.eqb (Container.container_name r) "box1")
           (containers two_rentals) = [c]
    /\ Container.password c = Hashlib.sha256_hexdigest "s3cret"
    /\ filter (fun r => String.eqb (Network.name r) (Container.network_name c))
              (networks two_rentals) = [n]
    /\ let release :=
         (attached (Network.name n) (without_container_row c two_rentals) =? 0)%nat
         && negb (Network.is_default n) in
       persisted w'
       = (if release then container_network_released c two_rentals
          else without_container_row c two_rentals)
       /\ trace w'
          = (DeleteContainer "box1" (Container.node_name c)
             :: Commit
             :: (if release
                 then map (fun t => NetworkDelete (NodeNetwork.node_name t)
                                                  (NodeNetwork.network_name t))
                          (filter (fun l => String.eqb (NodeNetwork.network_name l)
                                                       (Container.network_name c))
                                  (node_networks two_rentals))
                 else [])
             ++ [Commit])%list.
Proof.
  exact (container_return_success healthy two_rentals
           (mkContainerReturnRequestDTO "box1" "s3cret")
           (snd (container_return healthy (mkContainerReturnRequestDTO "box1" "s3cret")
                                  (start two_rentals)))
           ltac:(vm_compute; reflexivity)).
Defined.

(** ** A rental and its return *)

Lemma next_id_above (ids : list Z) (x : Z) : In x ids -> x < next_id ids.
Proof.
  unfold next_id. induction ids as [|a ids IH]; cbn [In fold_right]; [contradiction|].
  intros [->|Hx]; [lia|]. specialize (IH Hx). lia.
Qed.

(** Deleting the row whose key was new leaves the rows that were there. *)
Lemma delete_fresh_row {A} (key : A -> Z) (rows : list A) (x : A) :
  key x = next_id (map key rows) ->
  filter (fun r => negb (key r =? key x)) (rows ++ [x]) = rows.
Proof.
  intros Hx. rewrite filter_app. cbn [filter]. rewrite Z.eqb_refl. cbn [negb].
  rewrite app_nil_r. rewrite <- (filter_true rows) at 2. apply filter_ext_in.
  intros r Hr. apply negb_true_iff, Z.eqb_neq.
  pose proof (next_id_above (map key rows) (key r) (in_map key rows r Hr)). lia.
Qed.

(** X16: a container rental followed by its return.  When a rental has
    answered 201 and the return of that container, with the password of the
    rental, then answers 200, whatever happened in the cloud: if a rental
    that was there names the network, or the row of the network is flagged
    as default, the stored tables are those before the rental, with the
    network row and the link that the rental added, if it added any;
    otherwise they are the tables before the rental without any row of that
    network, the rows that were there before the rental included. *)
Theorem rent_then_return :
  forall (env env' : environment) cfg container_info d p w1 w2,
    rental env cfg container_info (start d) = (inr (ApiResponse HTTP_201_CREATED p), w1) ->
    container_return env' (same_credentials container_info) (start (persisted w1))
    = (inr container_returned, w2) ->
    let network_name := requested_container_network cfg container_info in
    let node_name := cc_node_name container_info in
    persisted w2
    = if kept_network network_name d
      then mkDb (servers d) (containers d) (flavors d) (node_flavors d)
                (networks d
                 ++ missing (filter (fun n => String.eqb (Network.name n) network_name)
                                    (networks d))
                      (Network.mk network_name (cc_subnet_cidr container_info) false))%list
                (node_networks d
                 ++ missing (filter (fun l => String.eqb (NodeNetwork.network_name l)
                                                         network_name)
                                    (node_networks d))
                      (NodeNetwork.mk node_name network_name))%list
      else without_network network_name d.
Proof.
  intros env env' cfg container_info d p w1 w2 Hrent Hreturn network_name node_name.
  destruct (rental_tables _ _ _ _ _ _ Hrent) as [Hfree [Hknown [ip [port Hp1]]]].
  fold network_name node_name in Hknown, Hp1.
  apply container_return_tables in Hreturn.
  destruct Hreturn as [c [n [Hc [Hn Hp2]]]].
  rewrite Hp2. clear Hp2. rewrite Hp1 in *. clear Hp1.
  cbn [servers containers flavors node_flavors networks node_networks
       same_credentials cr_container_name] in *.
  rewrite filter_snoc, Hfree in Hc. cbn [Container.container_name] in Hc.
  rewrite String.eqb_refl in Hc. injection Hc as <-.
  cbn [Container.network_name] in *.
  pose proof (filter_singleton _ _ _ Hn) as [_ [Hname _]].
  apply String.eqb_eq in Hname. rewrite Hname. clear Hname.
  unfold container_network_released, without_container_row, with_containers.
  cbn [servers containers flavors node_flavors networks node_networks].
  rewrite (delete_fresh_row Container.id) by reflexivity.
  unfold kept_network, attached.
  cbn [servers containers flavors node_flavors networks node_networks].
  rewrite filter_app in Hn.
  assert (Hflag : Network.is_default n
                  = existsb Network.is_default
                      (filter (fun n => String.eqb (Network.name n) network_name)
                              (networks d))).
  { destruct (filter _ (networks d)) as [|k [|k2 rest]].
    - cbn in Hn. rewrite String.eqb_refl in Hn. injection Hn as <-. reflexivity.
    - cbn in Hn. injection Hn as <-. cbn. rewrite orb_false_r. reflexivity.
    - cbn in Hknown. lia. }
  rewrite Hflag. clear Hflag Hn.
  match goal with
  | |- context [(?a =? 0)%nat] => destruct (a =? 0)%nat
  end; cbn [negb andb orb]; [|reflexivity].
  destruct (existsb _ _); cbn [negb]; [reflexivity|].
  unfold without_network, with_networks, with_node_networks.
  cbn [servers containers flavors node_flavors networks node_networks].
  rewrite !filter_app. f_equal.
  - destruct (filter (fun n => String.eqb (Network.name n) network_name) (networks d));
      cbn; [rewrite String.eqb_refl|]; cbn; apply app_nil_r.
  - destruct (filter (fun l => String.eqb (NodeNetwork.network_name l) network_name)
                     (node_networks d));
      cbn; [rewrite String.eqb_refl|]; cbn; apply app_nil_r.
Qed.

Lemma rent_then_return_witness :
  (let w1 := snd (rental healthy example_config rent_box1 (start empty_db)) in
   let w2 := snd (container_return healthy (same_credentials rent_box1)
                                   (start (persisted w1))) in
   persisted w2 = empty_db)
  /\ (let w1 := snd (rental healthy example_config rent_box2 (start two_rentals)) in
      let w2 := snd (container_return healthy (same_credentials rent_box2)
                                      (start (persisted w1))) in
      persisted w2 = two_rentals).
Proof.
  split; intros w1 w2.
  - rewrite (rent_then_return healthy healthy example_config rent_box1 empty_db
               NoPayload w1 w2);
      [reflexivity | vm_compute; reflexivity | vm_compute; reflexivity].
  - rewrite (rent_then_return healthy healthy example_config rent_box2 two_rentals
               NoPayload w1 w2);
      [vm_compute; reflexivity | vm_compute; reflexivity | vm_compute; reflexivity].
Defined.

(** ** The sweep, whatever the environment *)

Lemma delete_server_same_tables (env : environment) server_name node_name w r w' :
  delete_server env server_name node_name w = (r, w') -> same_tables w w'.
Proof.
  intros H. unfold delete_server in H. every_path H.
  all: loops_change_nothing.
  all: injection H as <- <-; unfold same_tables; cbn [committed working trace log];
       use_tables.
  all: repeat split; rewrite <- ?app_assoc; eexists; reflexivity.
Qed.

Lemma call_same_tables (env : environment) (e : event) w r w' :
  call env e w = (r, w') -> same_tables w w'.
Proof.
  intros H. unfold call in H. injection H as <- <-.
  repeat split. eexists. reflexivity.
Qed.

(** A loop that deletes a row and then tears the rental down in the cloud:
    when it returns, the rows of all its rentals are gone from the
    session. *)
Lemma sweep_loop {A} (remove : A -> db -> db) (tear_down : A -> M unit)
      (l : list A) w r w' :
  (forall x w0 r0 w0', tear_down x w0 = (r0, w0') -> same_tables w0 w0') ->
  for_each l (fun x => session_change (remove x) ;; tear_down x) w = (r, w') ->
  committed w' = committed w
  /\ log w' = log w
  /\ (exists t, trace w' = (trace w ++ t)%list)
  /\ (r = inr tt -> working w' = fold_left (fun d x => remove x d) l (working w)).
Proof.
  intros Hbody. revert w. induction l as [|x l IH]; intros w H; cbn [for_each] in H.
  - injection H as <- <-. repeat split. exists []. symmetry. apply app_nil_r.
  - rewrite bind_assoc, bind_change in H. unfold bind in H.
    destruct (tear_down x _) as [[e|[]] w1] eqn:Hx; apply Hbody in Hx;
      destruct Hx as [Hc [Hw [Hl [t1 Ht1]]]]; cbn [committed working trace log] in *.
    + injection H as <- <-. repeat split; auto.
      * eexists; eassumption.
      * discriminate.
    + apply IH in H. destruct H as [Hc' [Hl' [[t2 Ht2] Hw']]].
      repeat split; try congruence.
      * exists (t1 ++ t2)%list. rewrite Ht2, Ht1, app_assoc. reflexivity.
      * intros Hr. rewrite (Hw' Hr), Hw. reflexivity.
Qed.

Lemma fold_delete_servers (l : list Server.t) (d : db) :
  fold_left (fun d x =>
               with_servers (filter (fun r => negb (Server.id r =? Server.id x))) d) l d
  = with_servers
      (filter (fun r => negb (existsb (fun s => Server.id r =? Server.id s) l))) d.
Proof.
  revert d. induction l as [|x l IH]; intros d; cbn [fold_left existsb].
  - unfold with_servers. rewrite filter_true. destruct d; reflexivity.
  - rewrite IH, with_servers_twice. apply with_servers_ext.
    intros r. rewrite negb_orb. reflexivity.
Qed.

Lemma fold_delete_containers (l : list Container.t) (d : db) :
  fold_left (fun d x =>
               with_containers
                 (filter (fun r => negb (Container.id r =? Container.id x))) d) l d
  = with_containers
      (filter (fun r => negb (existsb (fun c => Container.id r =? Container.id c) l))) d.
Proof.
  revert d. induction l as [|x l IH]; intros d; cbn [fold_left existsb].
  - unfold with_containers. rewrite filter_true. destruct d; reflexivity.
  - rewrite IH, with_containers_twice. apply with_containers_ext.
    intros r. rewrite negb_orb. reflexivity.
Qed.

(** What a run of the sweep leaves, in any environment. *)
Lemma sweep_tables (env : environment) today d r w' :
  delete_expired_data env today (start d) = (r, w') ->
  (exists e, r = inl e /\ persisted w' = d)
  \/ (r = inr tt /\ persisted w' = without_expired today d
      /\ exists t, trace w' = (t ++ [Commit])%list).
Proof.
  intros H. unfold delete_expired_data, start in H.
  rewrite bind_select in H. rewrite bind_select in H.
  cbn [working] in H. fold (expired_server_rows today d) in H.
  fold (expired_container_rows today d) in H.
  unfold delete_server_row, delete_container_row in H.
  unfold bind at 1 in H.
  match type of H with
  | context [for_each ?l ?f (mkWorld d d [] [])] =>
      destruct (for_each l f (mkWorld d d [] [])) as [[e|[]] w1] eqn:H1
  end.
  all: apply (sweep_loop
                (fun x => with_servers (filter (fun r => negb (Server.id r =? Server.id x))))
                (fun x => delete_server env (Server.server_name x) (Server.node_name x)))
         in H1; [| intros; eapply delete_server_same_tables; eassumption ].
  all: cbn [committed working trace log] in H1;
       destruct H1 as [Hc1 [Hl1 [[t1 Ht1] Hw1]]].
  { injection H as <- <-. left. exists e. split; [reflexivity | exact Hc1]. }
  specialize (Hw1 eq_refl). rewrite fold_delete_servers in Hw1.
  unfold bind at 1 in H.
  match type of H with
  | context [for_each ?l ?f w1] =>
      destruct (for_each l f w1) as [[e|[]] w2] eqn:H2
  end.
  all: apply (sweep_loop
                (fun x => with_containers
                            (filter (fun r => negb (Container.id r =? Container.id x))))
                (fun x => call env (DeleteContainer (Container.container_name x)
                                                    (Container.node_name x))))
         in H2;
         [| intros x w0 r0 w0' Hb;
            exact (call_same_tables env
                     (DeleteContainer (Container.container_name x) (Container.node_name x))
                     w0 r0 w0' Hb) ].
  all: destruct H2 as [Hc2 [Hl2 [[t2 Ht2] Hw2]]].
  { injection H as <- <-. left. exists e. split; [reflexivity|].
    unfold persisted. congruence. }
  specialize (Hw2 eq_refl). rewrite fold_delete_containers in Hw2.
  unfold session_commit in H. rewrite bind_call in H.
  destruct (env (trace w2) Commit) as [e|v].
  { injection H as <- <-. left. exists e. split; [reflexivity|].
    unfold persisted. cbn [committed]. congruence. }
  injection H as <- <-. right. split; [reflexivity|]. split.
  - unfold persisted. cbn [committed]. rewrite Hw2, Hw1. reflexivity.
  - cbn [trace]. eexists. reflexivity.
Qed.

(** X17: the sweep is all or nothing on the inventory.  With unique keys
    and in any environment, either the sweep raises and the stored tables
    are those before, or it returns and the stored rentals are exactly those
    whose end date is not before today, in their order, with the tables of
    the infrastructure as they were: no rental that has not expired is ever
    removed, and no expired one is left by a sweep that returns. *)
Theorem sweep_all_or_nothing :
  forall (env : environment) today d,
    NoDup (map Server.id (servers d)) ->
    NoDup (map Container.id (containers d)) ->
    let swept := delete_expired_data env today (start d) in
    (exists e, fst swept = inl e /\ persisted (snd swept) = d)
    \/ (fst swept = inr tt
        /\ servers (persisted (snd swept))
           = filter (fun s => negb (date_ltb (Server.end_date s) today)) (servers d)
        /\ containers (persisted (snd swept))
           = filter (fun c => negb (date_ltb (Container.end_date c) today)) (containers d)
        /\ same_infrastructure d (persisted (snd swept))).
Proof.
  intros env today d Hs Hc swept. subst swept.
  destruct (delete_expired_data env today (start d)) as [r w'] eqn:H.
  cbn [fst snd]. apply sweep_tables in H.
  destruct H as [[e [-> Hp]] | [-> [Hp _]]].
  - left. exists e. auto.
  - right. split; [reflexivity|]. rewrite Hp. unfold without_expired.
    cbn [servers containers with_servers with_containers].
    split; [apply rows_not_selected; exact Hs|].
    split; [apply rows_not_selected; exact Hc|].
    repeat split.
Qed.

Lemma sweep_all_or_nothing_witness :
  let swept := delete_expired_data web1_unreachable (mkDate 2024 1 2)
                                   (start three_servers) in
  (exists e, fst swept = inl e /\ persisted (snd swept) = three_servers)
  \/ (fst swept = inr tt
      /\ servers (persisted (snd swept))
         = filter (fun s => negb (date_ltb (Server.end_date s) (mkDate 2024 1 2)))
                  (servers three_servers)
      /\ containers (persisted (snd swept))
         = filter (fun c => negb (date_ltb (Container.end_date c) (mkDate 2024 1 2)))
                  (containers three_servers)
      /\ same_infrastructure three_servers (persisted (snd swept))).
Proof.
  apply (sweep_all_or_nothing web1_unreachable (mkDate 2024 1 2) three_servers).
  - cbn. repeat constructor; cbn; intuition discriminate.
  - cbn. constructor.
Defined.

Lemma date_ltb_trans a b c :
  date_ltb a b = false -> date_ltb b c = false -> date_ltb a c = false.
Proof.
  unfold date_ltb. destruct a as [ya ma da], b as [yb mb db], c as [yc mc dc]. cbn. lia.
Qed.

Lemma filter_none {A} (p q : A -> bool) (l : list A) :
  (forall x, q x = true -> p x = false) -> filter q (filter p l) = [].
Proof.
  intros H. induction l as [|x l IH]; cbn; [reflexivity|].
  destruct (p x) eqn:Hp; [|exact IH]. cbn.
  destruct (q x) eqn:Hq; [|exact IH]. rewrite (H x Hq) in Hp. discriminate.
Qed.

(** X18: a sweep finds nothing to do after a sweep.  With unique keys,
    when a sweep has returned, a sweep run on what it stored, on the same
    day or an earlier one and in any environment, makes no call to the
    cloud, only the commit, and leaves the stored tables as they are. *)
Theorem sweep_again_finds_nothing :
  forall (env env' : environment) today today' d w1,
    NoDup (map Server.id (servers d)) ->
    NoDup (map Container.id (containers d)) ->
    delete_expired_data env today (start d) = (inr tt, w1) ->
    date_ltb today today' = false ->
    let again := delete_expired_data env' today' (start (persisted w1)) in
    trace (snd again) = [Commit]
    /\ persisted (snd again) = persisted w1.
Proof.
  intros env env' today today' d w1 Hs Hc Hrun Hle again.
  apply sweep_tables in Hrun. destruct Hrun as [[e [He _]] | [_ [Hp _]]]; [discriminate|].
  assert (Hes : expired_server_rows today' (persisted w1) = []).
  { rewrite Hp. unfold expired_server_rows, without_expired.
    cbn [servers containers with_servers with_containers].
    fold (expired_server_rows today d). unfold expired_server_rows at 1.
    rewrite rows_not_selected by exact Hs. apply filter_none.
    intros x Hx. apply negb_false_iff.
    destruct (date_ltb (Server.end_date x) today) eqn:E; [reflexivity|].
    rewrite (date_ltb_trans _ _ _ E Hle) in Hx. discriminate. }
  assert (Hec : expired_container_rows today' (persisted w1) = []).
  { rewrite Hp. unfold expired_container_rows, without_expired.
    cbn [servers containers with_servers with_containers].
    fold (expired_container_rows today d). unfold expired_container_rows at 1.
    rewrite rows_not_selected by exact Hc. apply filter_none.
    intros x Hx. apply negb_false_iff.
    destruct (date_ltb (Container.end_date x) today) eqn:E; [reflexivity|].
    rewrite (date_ltb_trans _ _ _ E Hle) in Hx. discriminate. }
  subst again. unfold delete_expired_data, start.
  rewrite bind_select. rewrite bind_select. cbn [working].
  fold (expired_server_rows today' (persisted w1)).
  fold (expired_container_rows today' (persisted w1)).
  rewrite Hes, Hec. cbn [for_each]. rewrite !bind_ret.
  unfold session_commit. rewrite bind_call. cbn [committed working trace log app].
  destruct (env' [] Commit); split; reflexivity.
Qed.

Lemma sweep_again_finds_nothing_witness :
  let w1 := snd (delete_expired_data healthy (mkDate 2024 1 2) (start three_servers)) in
  let again := delete_expired_data no_commit (mkDate 2024 1 1) (start (persisted w1)) in
  trace (snd again) = [Commit]
  /\ persisted (snd again) = persisted w1.
Proof.
  intros w1.
  apply (sweep_again_finds_nothing healthy no_commit (mkDate 2024 1 2) (mkDate 2024 1 1)
           three_servers w1).
  - cbn. repeat constructor; cbn; intuition discriminate.
  - cbn. constructor.
  - vm_compute. reflexivity.
  - reflexivity.
Defined.

(** ** A rental that fails at the instance *)

(** The loop of [delete_server] deletes addresses and nothing else. *)
Lemma delete_ips_trace (env : environment) node_name (ips : list Z) w r w' :
  for_each ips (fun floating_ip => call env (NetworkDeleteIp node_name floating_ip)) w
  = (r, w') ->
  committed w' = committed w /\ working w' = working w /\ log w' = log w
  /\ exists done, trace w' = (trace w ++ map (NetworkDeleteIp node_name) done)%list.
Proof.
  revert w. induction ips as [|ip ips IH]; intros w H; cbn [for_each] in H.
  - injection H as <- <-. repeat split. exists []. symmetry. apply app_nil_r.
  - unfold bind at 1 in H.
    destruct (call env (NetworkDeleteIp node_name ip) w) as [[e|v] w1] eqn:Hcall;
      unfold call in Hcall; injection Hcall as _ <-.
    + injection H as <- <-. repeat split. exists [ip]. reflexivity.
    + apply IH in H. cbn [committed working trace log] in H.
      destruct H as [Hc [Hw [Hl [done Ht]]]]. repeat split; auto.
      exists (ip :: done). rewrite Ht, <- app_assoc. reflexivity.
Qed.

Lemma delete_ips_release_nothing node_name (ips : list Z) :
  existsb is_release (map (NetworkDeleteIp node_name) ips) = false.
Proof. induction ips as [|ip ips IH]; [reflexivity | exact IH]. Qed.

Ltac address_loops :=
  repeat match goal with
         | E : ?m ?w = (?r, ?w') |- _ =>
             match m with
             | for_each ?l _ =>
                 apply delete_ips_trace in E;
                 cbn [committed working trace log] in E;
                 destruct E as [? [? [? [? ?]]]]
             end
         end.

(** X19: a server rental that fails once it asks for the instance.  On
    every path on which the creation of the server is called, no network and
    no flavor is ever released in the cloud, those the rental has just
    created included; and when the commit is not reached, because the
    creation or the allocation of the address raised, the handler does not
    answer: it logs the exception, rolls back and raises
    [UnboundLocalError], the stored tables being those before. *)
Theorem server_rent_instance_failure :
  forall (env : environment) cfg server_info d,
    let result := server_rent env cfg server_info (start d) in
    existsb is_create_server (trace (snd result)) = true ->
    existsb is_release (trace (snd result)) = false
    /\ (existsb is_commit (trace (snd result)) = false ->
        fst result = inl UnboundLocalError
        /\ persisted (snd result) = d
        /\ exists e, log (snd result) = [e]).
Proof.
  intros env cfg server_info d result. subst result.
  destruct (server_rent env cfg server_info (start d)) as [r w'] eqn:H.
  cbn [fst snd]. unfold server_rent in H. paths H.
  all: address_loops.
  all: injection H as <- <-; unfold persisted; cbn [committed trace log fst snd];
       use_tables.
  all: rewrite ?existsb_app; cbn [existsb is_create_server is_release is_commit orb];
       rewrite ?delete_ips_release_nothing, ?orb_true_r; cbn [orb].
  all: intros Hcalled; try discriminate Hcalled.
  all: split; [reflexivity|]; intros Hcommit; try discriminate Hcommit.
  all: repeat split; eexists; reflexivity.
Qed.

Lemma server_rent_instance_failure_witness :
  let result := server_rent no_instance example_config rent_web1 (start empty_db) in
  existsb is_release (trace (snd result)) = false
  /\ (existsb is_commit (trace (snd result)) = false ->
      fst result = inl UnboundLocalError
      /\ persisted (snd result) = empty_db
      /\ exists e, log (snd result) = [e]).
Proof.
  apply (server_rent_instance_failure no_instance example_config rent_web1 empty_db).
  reflexivity.
Defined.

Lemma find_first_selected {A} (f : A -> bool) (l : list A) :
  find f l = hd_error (filter f l).
Proof.
  induction l as [|x l IH]; cbn; [reflexivity|]. destruct (f x); [reflexivity | exact IH].
Qed.

(** X20: what a container rental does when the container cannot be had.
    When the rental answers 500 without having reached the commit, because
    the creation of the container or the reading of its address failed, the
    handler has deleted in the cloud the network of the request on the node
    of the request, unless the row of that network is flagged as default,
    whether the rental created the network or found it, and whether or not
    another rental uses it; it has rolled back, so that the stored tables
    are those before, and has then deleted the container. *)
Theorem rental_failure_releases :
  forall (env : environment) cfg container_info d,
    let result := rental env cfg container_info (start d) in
    fst result = inr (ErrorResponse HTTP_500_INTERNAL_SERVER_ERROR "백엔드 내부 오류") ->
    existsb is_commit (trace (snd result)) = false ->
    let network_name := requested_container_network cfg container_info in
    let node_name := cc_node_name container_info in
    let known_network :=
      filter (fun n => String.eqb (Network.name n) network_name) (networks d) in
    let network_links :=
      filter (fun l => String.eqb (NodeNetwork.network_name l) network_name)
             (node_networks d) in
    let before :=
      missing network_links
        (NetworkIsolation node_name network_name (cc_subnet_cidr container_info)) in
    let create :=
      CreateContainer (cc_container_name container_info) node_name
        (cc_image_name container_info) network_name
        (cc_env container_info) (cc_cmd container_info) in
    let release :=
      if existsb Network.is_default known_network then []
      else [NetworkDelete node_name network_name] in
    persisted (snd result) = d
    /\ (exists e, log (snd result) = [e])
    /\ trace (snd result)
       = (before ++ [create] ++ release
          ++ [DeleteContainer (cc_container_name container_info) node_name])%list.
Proof.
  intros env cfg container_info d result. subst result.
  destruct (rental env cfg container_info (start d)) as [r w'] eqn:H.
  cbn [fst snd]. unfold rental in H. paths H.
  all: injection H as <- <-; intros Hanswer; try discriminate Hanswer.
  all: cbn [trace existsb is_commit orb]; intros Hcommit; try discriminate Hcommit.
  all: cbv zeta; unfold requested_container_network.
  all: repeat match goal with
              | E : cc_network_name _ = _ |- _ => rewrite E in *; clear E
              end.
  all: cbn [persisted committed trace log missing app].
  all: repeat match goal with
              | E : filter ?f ?l = ?t :: _ |- _ =>
                  lazymatch goal with
                  | _ : f t = true |- _ => fail
                  | _ => assert (f t = true)
                           by (apply (filter_all f l t); rewrite E; left; reflexivity)
                  end
              end.
  all: cbv beta in *.
  all: repeat match goal with
              | Hn : String.eqb _ _ = true |- _ =>
                  apply String.eqb_eq in Hn; try rewrite Hn in *; clear Hn
              end.
  all: repeat match goal with
              | E : context [find ?f ?l] |- _ => rewrite (find_first_selected f l) in E
              end.
  all: rewrite ?filter_app in *.
  all: repeat match goal with
              | E : filter _ (?table ?db) = _ |- _ =>
                  is_var db; try rewrite E in *; clear E
              end.
  all: cbn [app filter hd_error existsb missing NodeNetwork.network_name Network.name
            Network.is_default orb] in *;
       rewrite ?String.eqb_refl in *; cbn [app hd_error] in *.
  all: try match goal with
           | E : _ :: _ = [] |- _ => discriminate E
           | E : [] = _ :: _ |- _ => discriminate E
           | E : None = Some _ |- _ => discriminate E
           | E : Some _ = None |- _ => discriminate E
           end.
  all: repeat match goal with
              | E : Some _ = Some _ |- _ => injection E as <-
              end;
       cbn [Network.is_default] in *; rewrite ?orb_false_r.
  all: try match goal with
           | E : false = true |- _ => discriminate E
           | E : true = false |- _ => discriminate E
           end.
  all: repeat match goal with
              | E : Network.is_default _ = _ |- _ => rewrite E in *; clear E
              end.
  all: try match goal with
           | E : negb _ = _ |- _ => cbn in E; discriminate E
           end.
  all: split; [reflexivity|]; split; [eexists; reflexivity | reflexivity].
Qed.

Lemma rental_failure_releases_witness :
  let result := rental no_container example_config rent_box2 (start two_rentals) in
  persisted (snd result) = two_rentals
  /\ (exists e, log (snd result) = [e])
  /\ trace (snd result)
     = [CreateContainer "box2" "node1" "nginx" "tenant-net" "" "";
        NetworkDelete "node1" "tenant-net";
        DeleteContainer "box2" "node1"].
Proof.
  apply (rental_failure_releases no_container example_config rent_box2 two_rentals).
  - vm_compute. reflexivity.
  - reflexivity.
Defined.
